(** * abipy: the [abinp.py] front-end, the unit-cell registry and the
    dataframe printer

    A shallow embedding of three Python modules:
    - [abipy/data/ucells.py]   (module [Ucells]),
    - [abipy/tools/printing.py] (module [Printing]),
    - [abipy/scripts/abinp.py]  (module [Abinp]).

    Python objects live in an explicit store, exceptions are values, and the
    libraries the code calls (pandas, pymatgen, the Abinit executable, argparse)
    appear as oracles whose answers are part of the world the code runs in. *)

From Stdlib Require Import ZArith Lia.
From stdpp Require Import base strings list gmap pretty sorting.

#[local] Set Warnings "-register-all".
#[local] Open Scope Z_scope.

(** ** Python results, exceptions and the state-and-exception monad *)
Module Py.

(** The classes below all derive from [Exception]. *)
Inductive ExcClass :=
  | TypeError | NotImplementedError | ImportError | KeyError | IndexError
  | ValueError | AttributeError | OtherError.

(** [SystemExit] and [KeyboardInterrupt] derive from [BaseException] only, so
    an [except Exception] clause lets them through. *)
Inductive PyExc :=
  | Exc (cls : ExcClass) (msg : string)
  | SystemExit (code : Z)
  | KeyboardInterrupt.

Inductive PyResult (A : Type) :=
  | Ok (a : A)
  | Raise (e : PyExc).
Arguments Ok {A} a.
Arguments Raise {A} e.

#[global] Instance ExcClass_eq_dec : EqDecision ExcClass.
Proof. solve_decision. Defined.

(** [isinstance(e, Exception)] *)
Definition is_Exception (e : PyExc) : bool :=
  match e with
  | Exc _ _ => true
  | SystemExit _ | KeyboardInterrupt => false
  end.

(** [isinstance(e, cls)] for one of the leaf classes above. *)
Definition is_instance (cls : ExcClass) (e : PyExc) : bool :=
  match e with
  | Exc c _ => bool_decide (c = cls)
  | SystemExit _ | KeyboardInterrupt => false
  end.

(** *** Strings

    A [str] is kept as the bytes of its UTF-8 encoding.  What Python does to
    the characters of ASCII is written out below; what it does to the others
    goes through the Unicode database and is left to the caller. *)

Fixpoint is_ascii (s : string) : bool :=
  match s with
  | EmptyString => true
  | String c rest => (Ascii.nat_of_ascii c <? 128)%nat && is_ascii rest
  end.

(** [s.upper()] for a [str] of ASCII characters. *)
Definition upper_ascii (c : Ascii.ascii) : Ascii.ascii :=
  let n := Ascii.nat_of_ascii c in
  if ((97 <=? n) && (n <=? 122))%nat then Ascii.ascii_of_nat (n - 32) else c.

Fixpoint ascii_upper (s : string) : string :=
  match s with
  | EmptyString => EmptyString
  | String c rest => String (upper_ascii c) (ascii_upper rest)
  end.

(** The apostrophe, the quotation mark and the backslash. *)
Definition apostrophe : Ascii.ascii := Ascii.ascii_of_nat 39.
Definition quotation_mark : Ascii.ascii := Ascii.ascii_of_nat 34.
Definition backslash : Ascii.ascii := Ascii.ascii_of_nat 92.

Fixpoint contains_char (c : Ascii.ascii) (s : string) : bool :=
  match s with
  | EmptyString => false
  | String d rest => Ascii.eqb c d || contains_char c rest
  end.

Definition hex_digit (n : nat) : Ascii.ascii :=
  default (Ascii.ascii_of_nat 48) (String.get n "0123456789abcdef").

(** One character of [repr(s)], between quotes [quote]. *)
Definition repr_char (quote c : Ascii.ascii) : string :=
  let n := Ascii.nat_of_ascii c in
  if Ascii.eqb c quote || Ascii.eqb c backslash then String backslash (String c "")
  else if (n =? 9)%nat then String backslash "t"
  else if (n =? 10)%nat then String backslash "n"
  else if (n =? 13)%nat then String backslash "r"
  else if ((n <? 32) || (n =? 127))%nat then
    String backslash ("x" +:+ String (hex_digit (n / 16)) (String (hex_digit (n mod 16)) ""))
  else String c "".

Fixpoint repr_chars (quote : Ascii.ascii) (s : string) : string :=
  match s with
  | EmptyString => EmptyString
  | String c rest => repr_char quote c +:+ repr_chars quote rest
  end.

(** [repr(s)] for a [str] of ASCII characters: between apostrophes, or between
    quotation marks when [s] holds an apostrophe and no quotation mark; the
    quote used, the backslash and the control characters are escaped. *)
Definition ascii_repr (s : string) : string :=
  let quote := if contains_char apostrophe s && negb (contains_char quotation_mark s)
               then quotation_mark else apostrophe in
  String quote (repr_chars quote s +:+ String quote "").

(** [str(exc)].  [Exc cls msg] stands for [cls(msg)], whose [str] is [msg],
    except that [str(KeyError(key))] is [repr(key)]; [repr] is the caller's. *)
Definition exc_str (repr : string → string) (e : PyExc) : string :=
  match e with
  | Exc KeyError key => repr key
  | Exc _ msg => msg
  | SystemExit code => pretty code
  | KeyboardInterrupt => ""
  end.

(** A computation over a state [S] that returns or raises. *)
Definition Py (S A : Type) : Type := S → PyResult A * S.

Definition ret {S A} (a : A) : Py S A := λ s, (Ok a, s).

Definition raise {S A} (e : PyExc) : Py S A := λ s, (Raise e, s).

Definition bind {S A B} (m : Py S A) (k : A → Py S B) : Py S B :=
  λ s, match m s with
       | (Ok a, s') => k a s'
       | (Raise e, s') => (Raise e, s')
       end.

(** [try: body except <classes accepted by catches> as exc: handler(exc)] *)
Definition try_except {S A} (body : Py S A) (catches : PyExc → bool)
    (handler : PyExc → Py S A) : Py S A :=
  λ s, match body s with
       | (Ok a, s') => (Ok a, s')
       | (Raise e, s') => if catches e then handler e s' else (Raise e, s')
       end.

(** [try: body finally: cleanup], for a cleanup that does not raise. *)
Definition try_finally {S A} (body : Py S A) (cleanup : S → S) : Py S A :=
  λ s, let '(r, s') := body s in (r, cleanup s').

(** Lift the answer of an oracle into the monad. *)
Definition lift {S A} (r : PyResult A) : Py S A := λ s, (r, s).

(** [seq[i]] on a sequence of length [n]: negative indices count from the end,
    anything outside [-n .. n-1] is an [IndexError]. *)
Definition norm_index (i : Z) (n : nat) : option nat :=
  if decide (0 ≤ i < Z.of_nat n) then Some (Z.to_nat i)
  else if decide (- Z.of_nat n ≤ i < 0) then Some (Z.to_nat (Z.of_nat n + i))
  else None.

(** The largest [Py_ssize_t] of a 64-bit build of CPython. *)
Definition PY_SSIZE_T_MAX : Z := 2 ^ 63 - 1.

(** Whether an [int] can be converted to an index ([PyNumber_AsSsize_t]). *)
Definition fits_index (i : Z) : bool :=
  bool_decide (- PY_SSIZE_T_MAX - 1 ≤ i ≤ PY_SSIZE_T_MAX).

(** The [IndexError] of [xs[i]] on a list that has no item at [i]. *)
Definition list_index_error (i : Z) : PyExc :=
  Exc IndexError (if fits_index i then "list index out of range"
                  else "cannot fit 'int' into an index-sized integer").

(** The line feed. *)
Definition nl : string := String (Ascii.ascii_of_nat 10) "".

(** What [print(s)] appends to a text stream. *)
Definition print_to (stream s : string) : string := stream +:+ s +:+ nl.

(** [print(a, b)]: the arguments separated by one blank. *)
Definition print2_to (stream a b : string) : string := print_to stream (a +:+ " " +:+ b).

End Py.

Export Py.

Notation "'let!' x ':=' m 'in' k" := (Py.bind m (λ x, k))
  (at level 10, x name, m at level 100, k at level 200).
Notation "'do!' m 'in' k" := (Py.bind m (λ _, k))
  (at level 10, m at level 100, k at level 200).

(** ** abipy/data/ucells.py *)
Module Ucells.

Abbreviation loc := nat.

(** A value is an immediate number or a reference to a mutable object.  A float
    literal is kept as the decimal fraction it was written as. *)
Inductive pyval :=
  | VInt (z : Z)
  | VFloat (num : Z) (den : positive)
  | VStr (s : string)
  | VRef (l : loc).

Inductive pyobj :=
  | OList (items : list pyval)
  | ODict (d : gmap string pyval).

(** The store: object number [l] is the [l]-th allocated object. *)
Abbreviation Heap := (list pyobj).

Definition alloc (o : pyobj) : Py Heap pyval :=
  λ h, (Ok (VRef (length h)), h ++ [o]).

(** [[x, y, ...]] *)
Definition new_list (items : list pyval) : Py Heap pyval := alloc (OList items).

(** [dict(k=v, ...)] *)
Definition new_dict (kvs : list (string * pyval)) : Py Heap pyval :=
  alloc (ODict (list_to_map kvs)).

(** [n * lst]: a new list repeating the items of [lst]. *)
Definition list_mul (n : nat) (lst : pyval) : Py Heap pyval :=
  λ h, match lst with
       | VRef l =>
           match h !! l with
           | Some (OList items) => new_list (concat (replicate n items)) h
           | _ => (Raise (Exc TypeError "unsupported operand type(s) for *"), h)
           end
       | _ => (Raise (Exc TypeError "unsupported operand type(s) for *"), h)
       end.

Definition float_row (a b c : Z * positive) : Py Heap pyval :=
  new_list [VFloat a.1 a.2; VFloat b.1 b.2; VFloat c.1 c.2].

(** The literal bound to ["silicon"]. *)
Definition silicon_literal : Py Heap pyval :=
  let! typat := new_list [VInt 1; VInt 1] in
  let! a0 := new_list [VFloat 10217 1000] in
  let! acell := list_mul 3 a0 in
  let! r0 := float_row (0, 1%positive) (5, 10%positive) (5, 10%positive) in
  let! r1 := float_row (5, 10%positive) (0, 1%positive) (5, 10%positive) in
  let! r2 := float_row (5, 10%positive) (5, 10%positive) (0, 1%positive) in
  let! rprim := new_list [r0; r1; r2] in
  let! x0 := float_row (0, 1%positive) (0, 1%positive) (0, 1%positive) in
  let! x1 := float_row (25, 100%positive) (25, 100%positive) (25, 100%positive) in
  let! xred := new_list [x0; x1] in
  new_dict [("ntypat", VInt 1); ("natom", VInt 2); ("typat", typat);
            ("znucl", VInt 14); ("acell", acell); ("rprim", rprim);
            ("xred", xred)].

(** The literal bound to ["zno"]. *)
Definition zno_literal : Py Heap pyval :=
  let! typat := new_list [VInt 1; VInt 2] in
  let! a0 := new_list [VFloat 86277 10000] in
  let! acell := list_mul 3 a0 in
  let! r0 := float_row (0, 1%positive) (5, 10%positive) (5, 10%positive) in
  let! r1 := float_row (5, 10%positive) (0, 1%positive) (5, 10%positive) in
  let! r2 := float_row (5, 10%positive) (5, 10%positive) (0, 1%positive) in
  let! rprim := new_list [r0; r1; r2] in
  let! znucl := new_list [VInt 30; VInt 8] in
  let! x0 := float_row (0, 1%positive) (0, 1%positive) (0, 1%positive) in
  let! x1 := float_row (25, 100%positive) (25, 100%positive) (25, 100%positive) in
  let! xred := new_list [x0; x1] in
  new_dict [("ntypat", VInt 2); ("natom", VInt 2); ("typat", typat);
            ("acell", acell); ("rprim", rprim); ("znucl", znucl);
            ("xred", xred)].

(** The module body: evaluates the [_UCELLS] literal and binds the name. *)
Definition module_body : Py Heap pyval :=
  let! silicon := silicon_literal in
  let! zno := zno_literal in
  new_dict [("silicon", silicon); ("zno", zno)].

(** The store after [import abipy.data.ucells], and the value of [_UCELLS]. *)
Definition imported : PyResult pyval * list pyobj := module_body [].

Definition heap0 : list pyobj := imported.2.

Definition _UCELLS : pyval :=
  match imported.1 with
  | Ok v => v
  | Raise _ => VInt 0
  end.

(** [d[key]] for a dict [d] and a string key. *)
Definition getitem (d : pyval) (key : string) : Py Heap pyval :=
  λ h, match d with
       | VRef l =>
           match h !! l with
           | Some (ODict m) =>
               match m !! key with
               | Some v => (Ok v, h)
               | None => (Raise (Exc KeyError key), h)
               end
           | _ => (Raise (Exc TypeError "object is not subscriptable"), h)
           end
       | _ => (Raise (Exc TypeError "object is not subscriptable"), h)
       end.

(** [obj.copy()]: a new object with the same items (a shallow copy). *)
Definition copy (obj : pyval) : Py Heap pyval :=
  λ h, match obj with
       | VRef l =>
           match h !! l with
           | Some o => alloc o h
           | None => (Raise (Exc AttributeError "copy"), h)
           end
       | _ => (Raise (Exc AttributeError "copy"), h)
       end.

(** [def ucell(name): return _UCELLS[name].copy()] *)
Definition ucell (name : string) : Py Heap pyval :=
  let! stored := getitem _UCELLS name in
  copy stored.

(** [def ucell_names(): return list(_UCELLS.keys())]; the keys come in the
    order of the map, which need not be the order of insertion. *)
Definition ucell_names : Py Heap pyval :=
  λ h, match _UCELLS with
       | VRef l =>
           match h !! l with
           | Some (ODict m) => new_list (VStr <$> (map_to_list m).*1) h
           | _ => (Raise (Exc AttributeError "keys"), h)
           end
       | _ => (Raise (Exc AttributeError "keys"), h)
       end.

(** What a caller may do with a record it was given. *)

(** [d[key] = v] *)
Definition setitem_key (d : pyval) (key : string) (v : pyval) : Py Heap unit :=
  λ h, match d with
       | VRef l =>
           match h !! l with
           | Some (ODict m) => (Ok tt, <[l := ODict (<[key := v]> m)]> h)
           | _ => (Raise (Exc TypeError "object does not support item assignment"), h)
           end
       | _ => (Raise (Exc TypeError "object does not support item assignment"), h)
       end.

(** [lst[i] = v] *)
Definition setitem_index (lst : pyval) (i : Z) (v : pyval) : Py Heap unit :=
  λ h, match lst with
       | VRef l =>
           match h !! l with
           | Some (OList items) =>
               match norm_index i (length items) with
               | Some k => (Ok tt, <[l := OList (<[k := v]> items)]> h)
               | None =>
                   (Raise (Exc IndexError
                             (if fits_index i then "list assignment index out of range"
                              else "cannot fit 'int' into an index-sized integer")), h)
               end
           | _ => (Raise (Exc TypeError "object does not support item assignment"), h)
           end
       | _ => (Raise (Exc TypeError "object does not support item assignment"), h)
       end.

(** The data a value stands for, references followed ([==] compares this). *)
Inductive pydata :=
  | DInt (z : Z)
  | DFloat (num : Z) (den : positive)
  | DStr (s : string)
  | DList (items : list pydata)
  | DDict (d : list (string * pydata)).

Fixpoint snapshot (fuel : nat) (h : list pyobj) (v : pyval) : option pydata :=
  match fuel with
  | O => None
  | S fuel' =>
      match v with
      | VInt z => Some (DInt z)
      | VFloat n d => Some (DFloat n d)
      | VStr s => Some (DStr s)
      | VRef l =>
          match h !! l with
          | Some (OList items) => DList <$> mapM (snapshot fuel' h) items
          | Some (ODict m) =>
              DDict <$> mapM (λ kv, pair kv.1 <$> snapshot fuel' h kv.2) (map_to_list m)
          | None => None
          end
      end
  end.

(** [def structure_from_ucell(name): return Structure.from_abivars(ucell(name))],
    for a constructor [from_abivars] that is free to read and write the store. *)
Definition structure_from_ucell {A} (from_abivars : pyval → Py Heap A) (name : string) : Py Heap A :=
  let! abivars := ucell name in
  from_abivars abivars.

End Ucells.

(** ** abipy/tools/printing.py *)
Module Printing.

Abbreviation loc := nat.

(** A table: its column labels and its rows. *)
Record DataFrame := mkFrame {
  df_columns : list string;
  df_rows : list (list Z);
}.

(** The three display options the printer touches. *)
Record DisplayOptions := mkDisplay {
  max_rows : option nat;
  max_columns : option nat;
  precision : Z;
}.

(** pandas itself: how it orders the rows of a table by one column, and how it
    renders a table under given display options.  Either may raise. *)
Record Pandas := mkPandas {
  pd_sorted : string → DataFrame → PyResult DataFrame;
  pd_to_string : DisplayOptions → DataFrame → PyResult string;
}.

(** The state a call runs in: the tables that exist, the display options in
    force in the process, and the text received so far by the sink [file]. *)
Record State := mkState {
  frames : list DataFrame;
  display : DisplayOptions;
  sink : string;
}.

Definition set_frames (fs : list DataFrame) (st : State) : State :=
  mkState fs (display st) (sink st).

Definition set_display (d : DisplayOptions) (st : State) : State :=
  mkState (frames st) d (sink st).

(** [print(s, file=file)] *)
Definition print (s : string) : Py State unit :=
  λ st, (Ok tt, mkState (frames st) (display st) (print_to (sink st) s)).

(** Reading through a variable that holds a table or [None]. *)
Definition deref (frame : option loc) : Py State DataFrame :=
  λ st, match frame with
        | Some l =>
            match frames st !! l with
            | Some fr => (Ok fr, st)
            | None => (Raise (Exc OtherError "dangling reference"), st)
            end
        | None => (Raise (Exc TypeError "NoneType"), st)
        end.

(** [key in frame]: membership among the column labels. *)
Definition contains (frame : option loc) (key : string) : Py State bool :=
  let! fr := deref frame in
  ret (bool_decide (key ∈ df_columns fr)).

(** [frame.sort_values(by, inplace=...)]: with [inplace=True] the table itself is
    reordered and [None] comes back; with [inplace=False] the table is left
    alone and a new, sorted table comes back. *)
Definition sort_values (pd : Pandas) (frame : option loc) (by_ : string)
    (inplace : bool) : Py State (option loc) :=
  let! fr := deref frame in
  let! sorted := lift (pd_sorted pd by_ fr) in
  λ st, match frame with
        | Some l =>
            if inplace then (Ok None, set_frames (<[l := sorted]> (frames st)) st)
            else (Ok (Some (length (frames st))), set_frames (frames st ++ [sorted]) st)
        | None => (Raise (Exc TypeError "NoneType"), st)
        end.

(** [len(frame)]: the number of rows. *)
Definition len (frame : option loc) : Py State nat :=
  let! fr := deref frame in
  ret (length (df_rows fr)).

(** [list(frame.keys())]: the column labels. *)
Definition keys (frame : option loc) : Py State (list string) :=
  let! fr := deref frame in
  ret (df_columns fr).

(** [str(frame)] under the display options in force. *)
Definition str (pd : Pandas) (frame : option loc) : Py State string :=
  let! fr := deref frame in
  λ st, (pd_to_string pd (display st) fr, st).

(** [with pd.option_context(...): body]: the options are set on entry and the
    values they had are put back on exit, however the body ends. *)
Definition option_context {A} (opts : DisplayOptions) (body : Py State A) : Py State A :=
  λ st, let saved := display st in
        try_finally body (set_display saved) (set_display opts st).

(** [def print_dataframe(frame, title=None, precision=6, sortby=None, file=sys.stdout)] *)
Definition print_dataframe (pd : Pandas) (frame : loc) (title : option string)
    (precision : Z) (sortby : option string) : Py State unit :=
  let frame := Some frame in
  do! match title with
      | Some t => print t
      | None => ret tt
      end in
  let! frame :=
    match sortby with
    | Some key =>
        let! present := contains frame key in
        if present then sort_values pd frame key false else ret frame
    | None => ret frame
    end in
  let! nrows := len frame in
  let! cols := keys frame in
  option_context (mkDisplay (Some nrows) (Some (length cols)) precision)
    (let! s := str pd frame in
     do! print s in
     print " ").

(** The defaults of the signature. *)
Definition default_precision : Z := 6.

End Printing.

(** ** abipy/scripts/abinp.py *)
Module Abinp.

Abbreviation loc := nat.

(** *** Objects of the libraries the script drives *)

(** A crystalline structure and a table of pseudopotentials: opaque handles. *)
Inductive Structure := StructureObj (id : N).
Inductive PseudoTable := PseudoTableObj (id : N).

(** The value of an Abinit variable. *)
Inductive AbiVal :=
  | AInt (z : Z)
  | AStr (s : string).

(** An [AbinitInput]: a mutable object holding a structure, the pseudopotentials,
    the variables ([inp[name] = value]) and the mnemonics switch. *)
Record AbinitInput := mkInput {
  inp_structure : Structure;
  inp_pseudos : PseudoTable;
  inp_vars : gmap string AbiVal;
  inp_mnemonics : bool;
}.

Abbreviation Heap := (list AbinitInput).

Definition with_var (name : string) (v : AbiVal) (inp : AbinitInput) : AbinitInput :=
  mkInput (inp_structure inp) (inp_pseudos inp) (<[name := v]> (inp_vars inp)) (inp_mnemonics inp).

Definition with_mnemonics (b : bool) (inp : AbinitInput) : AbinitInput :=
  mkInput (inp_structure inp) (inp_pseudos inp) (inp_vars inp) b.

(** An [AnaddbInput] and a [Wannier90Input]: opaque handles.  Neither class
    has a mnemonics switch. *)
Record AnaddbInput := mkAnaddb { anaddb_id : N }.
Record Wannier90Input := mkWannier { wannier_id : N }.

(** What the handlers hand to [finalize]: one input, a [MultiDataset] (its
    inputs, in order; [multi[i]] is the object itself, not a copy), an anaddb
    input or a wannier90 input. *)
Inductive Deck :=
  | DeckInput (inp : loc)
  | DeckMulti (inputs : list loc)
  | DeckAnaddb (inp : AnaddbInput)
  | DeckWannier (inp : Wannier90Input).

(** A float, kept as a fraction; only ever handed to the formatter. *)
Inductive PyFloat := FloatOf (num : Z) (den : positive).

(** A keyword argument passed to a factory. *)
Inductive KwArg :=
  | KNone
  | KInt (z : Z)
  | KFloat (x : PyFloat)
  | KStr (s : string)
  | KBool (b : bool)
  | KInts (zs : list Z).

(** An [AbinitInputFile]: the datasets of an input file that was read. *)
Record AbinitInputFile := mkAbiFile {
  abifile_ndtset : Z;
  abifile_datasets : list (gmap string AbiVal);
  abifile_structure : Structure;
}.

(** What [inp.abivalidate()] returns. *)
Record ValidateResult := mkValidate {
  retcode : Z;
  log_file : string;
  stderr_file : string;
  output_file_path : string;
}.

(** What [inp.abiget_ibz(...)] returns. *)
Record Ibz := mkIbz {
  ibz_points : list (PyFloat * PyFloat * PyFloat);
  ibz_weights : list PyFloat;
}.

(** What [abilab.abiopen(path)] returns. *)
Record AbinitOutput := mkOutput { initial_structure : Structure }.

(** A [DdbFile]. *)
Record DdbFile := mkDdb { ddb_structure : Structure; guessed_ngqpt : list Z }.

(** *** The parsed command line *)
Record Options := mkOptions {
  command : option string;
  filepath : string;
  verbose : Z;
  loglevel : string;
  mapi_key : option string;
  endpoint : string;
  mnemonics : bool;
  usepaw : bool;
  jdtset : Z;
  pseudos : option (list string);
  max_ncpus : Z;
}.

(** *** The outside *)

(** Every call that leaves the script, in the order it is made. *)
Inductive ExtCall :=
  | CallPathExists (path : string)
  | CallStructureFromFile (path : string)
  | CallStructureFromMpid (mpid : string) (final : bool) (api_key : option string) (endpoint : string)
  | CallAsTable (files : list string)
  | CallImportPseudoDojo
  | CallOfficialTables
  | CallDojoTable (name : string)
  | CallAbinitInputFile (path : string)
  | CallAbinitInput (abi_kwargs : gmap string AbiVal)
  | CallAbivalidate (inp : loc)
  | CallAutoparal (inp : loc) (max_ncpus verbose : Z)
  | CallAbigetIbz (inp : loc)
  | CallIrredPhperts (inp : loc) (qpt : option (list Z))
  | CallAbiopen (path : string)
  | CallSpgetSummary (verbose : Z)
  | CallSpacegroupToString (verbose : Z)
  | CallFactory (name : string) (kwargs : list (string * KwArg))
  | CallDdbFile (path : string)
  | CallWannier90FromFile (path : string)
  | CallParseArgs
  | CallLoggingBasicConfig (level : Z).

(** The answers of the outside: the filesystem, the installed packages, the
    libraries and the Abinit executable behind them. *)
Record Env := mkEnv {
  os_path_exists : string → bool;
  Structure_from_file : string → PyResult Structure;
  Structure_from_mpid : string → bool → option string → string → PyResult Structure;
  PseudoTable_as_table : list string → PyResult PseudoTable;
  (** [from pseudo_dojo import OfficialTables]: [None] when the import succeeds. *)
  import_pseudo_dojo : option PyExc;
  (** [OfficialTables()], and the lookup of a table in it. *)
  OfficialTables : PyResult (string → PyResult PseudoTable);
  PseudoTable_repr : PseudoTable → string;
  AbinitInputFile_read : string → PyResult AbinitInputFile;
  abivalidate : AbinitInput → PyResult ValidateResult;
  abiget_autoparal_pconfs : AbinitInput → Z → Z → PyResult string;
  abiget_ibz : AbinitInput → PyResult Ibz;
  abiget_irred_phperts : AbinitInput → option (list Z) → PyResult string;
  abiopen : string → PyResult AbinitOutput;
  spget_summary : Structure → Z → PyResult string;
  abi_spacegroup_to_string : Structure → Z → PyResult string;
  (** The factories build their inputs in the store. *)
  gs_input : Structure → PseudoTable → list (string * KwArg) → Heap → PyResult loc * Heap;
  ebands_input : Structure → PseudoTable → list (string * KwArg) → Heap → PyResult (list loc) * Heap;
  phonons_from_gsinput : loc → list (string * KwArg) → Heap → PyResult (list loc) * Heap;
  g0w0_with_ppmodel_inputs :
    Structure → PseudoTable → Z → Z → Z → Z → list (string * KwArg) → Heap → PyResult (list loc) * Heap;
  DdbFile_open : string → PyResult DdbFile;
  phbands_and_dos : Structure → list Z → Z → list (string * KwArg) → PyResult AnaddbInput;
  Wannier90Input_from_abinit_file : string → PyResult Wannier90Input;
  (** [str(obj)] for the decks. *)
  str_input : AbinitInput → string;
  str_multi : list AbinitInput → string;
  str_anaddb : AnaddbInput → string;
  str_wannier90 : Wannier90Input → string;
  (** ["%<width>.<prec>f" % x] *)
  format_f : nat → nat → PyFloat → string;
  (** [termcolor.colored(text, color)] *)
  colored : string → string → string;
  (** The attribute of module [logging] of that name, when it is an [int]. *)
  logging_int_attr : string → option Z;
  (** [s.upper()] and [repr(s)] for a [str] with characters outside ASCII:
      the case mapping and the printable characters of the Unicode database. *)
  unicode_upper : string → string;
  unicode_repr : string → string;
  (** [parser.parse_args()] on the command line of the process: what argparse
      writes to standard error, and how the call ends. *)
  argparse_stderr : string;
  argparse_outcome : PyResult Options;
}.

(** The state of a run. *)
Record World := mkWorld {
  stdout : string;
  stderr : string;
  trace : list ExtCall;
  heap : list AbinitInput;
}.

Definition print (s : string) : Py World unit :=
  λ w, (Ok tt, mkWorld (print_to (stdout w) s) (stderr w) (trace w) (heap w)).

Definition print2 (a b : string) : Py World unit :=
  λ w, (Ok tt, mkWorld (print2_to (stdout w) a b) (stderr w) (trace w) (heap w)).

(** [sys.stderr.write(s)] *)
Definition stderr_write (s : string) : Py World unit :=
  λ w, (Ok tt, mkWorld (stdout w) (stderr w +:+ s) (trace w) (heap w)).

Definition log_call (c : ExtCall) : Py World unit :=
  λ w, (Ok tt, mkWorld (stdout w) (stderr w) (trace w ++ [c]) (heap w)).

(** A call that leaves the script and does not touch the store. *)
Definition call {A} (c : ExtCall) (answer : PyResult A) : Py World A :=
  do! log_call c in
  lift answer.

(** A call that leaves the script and works on the store. *)
Definition call_heap {A} (c : ExtCall) (op : Heap → PyResult A * Heap) : Py World A :=
  do! log_call c in
  λ w, let '(r, h) := op (heap w) in (r, mkWorld (stdout w) (stderr w) (trace w) h).

Definition read_input (l : loc) : Py World AbinitInput :=
  λ w, match heap w !! l with
       | Some inp => (Ok inp, w)
       | None => (Raise (Exc OtherError "dangling reference"), w)
       end.

Definition new_input (inp : AbinitInput) : Py World loc :=
  λ w, (Ok (length (heap w)), mkWorld (stdout w) (stderr w) (trace w) (heap w ++ [inp])).

(** [inp[name] = value] on the input object at [l]. *)
Definition set_var (l : loc) (name : string) (v : AbiVal) : Py World unit :=
  λ w, match heap w !! l with
       | Some inp =>
           (Ok tt, mkWorld (stdout w) (stderr w) (trace w) (<[l := with_var name v inp]> (heap w)))
       | None => (Raise (Exc OtherError "dangling reference"), w)
       end.

(** [for x in xs: body(x)] *)
Fixpoint for_each {S A} (xs : list A) (body : A → Py S unit) : Py S unit :=
  match xs with
  | [] => ret tt
  | x :: rest => do! body x in for_each rest body
  end.

(** [xs[i]] on a list.  CPython converts [i] to an index first, which fails
    for an [int] beyond [PY_SSIZE_T_MAX], and then checks it against the
    length.  A list never holds more than [PY_SSIZE_T_MAX] items, so an index
    that falls inside the list always converts: the item is looked up first
    here, and the conversion decides which [IndexError] a miss is. *)
Definition list_getitem {S A} (xs : list A) (i : Z) : Py S A :=
  match norm_index i (length xs) with
  | Some k =>
      match xs !! k with
      | Some x => ret x
      | None => raise (list_index_error i)
      end
  | None => raise (list_index_error i)
  end.

(** *** The script *)
Section Script.
Context (E : Env).

(** [s.upper()] *)
Definition upper (s : string) : string :=
  if is_ascii s then ascii_upper s else unicode_upper E s.

(** [repr(s)] for a [str] *)
Definition repr (s : string) : string :=
  if is_ascii s then ascii_repr s else unicode_repr E s.

(** [def get_structure(options)] *)
Definition get_structure (options : Options) : Py World Structure :=
  let! found := call (CallPathExists (filepath options)) (Ok (os_path_exists E (filepath options))) in
  if found : bool then
    call (CallStructureFromFile (filepath options)) (Structure_from_file E (filepath options))
  else if String.prefix "mp-" (filepath options) then
    call (CallStructureFromMpid (filepath options) true (mapi_key options) (endpoint options))
         (Structure_from_mpid E (filepath options) true (mapi_key options) (endpoint options))
  else
    raise (Exc TypeError ("Don't know how to extract structure object from " +:+ filepath options)).

(** [def get_pseudotable(options)] *)
Definition get_pseudotable (options : Options) : Py World PseudoTable :=
  match pseudos options with
  | Some files => call (CallAsTable files) (PseudoTable_as_table E files)
  | None =>
      do! try_except
            (call CallImportPseudoDojo
               match import_pseudo_dojo E with
               | None => Ok tt
               | Some exc => Raise exc
               end)
            (is_instance ImportError)
            (λ exc,
               do! print "PseudoDojo package not installed. Please install it with `pip install pseudo_dojo`" in
               do! print "or use `--pseudos FILE_LIST` to specify the pseudopotentials to use." in
               raise exc) in
      let! dojo_tables := call CallOfficialTables (OfficialTables E) in
      if usepaw options then
        raise (Exc NotImplementedError "PAW table is missing")
      else
        let! pseudos := call (CallDojoTable "ONCVPSP-PBE-PDv0.2-accuracy")
                             (dojo_tables "ONCVPSP-PBE-PDv0.2-accuracy") in
        do! print2 "Using pseudos from PseudoDojo table" (PseudoTable_repr E pseudos) in
        ret pseudos
  end.

(** [obj.set_mnemonics(flag)].  [AbinitInput] and [MultiDataset] define the
    method; [AnaddbInput] and [Wannier90Input] do not, so that looking it up
    on them raises [AttributeError]. *)
Definition set_mnemonics (obj : Deck) (flag : bool) : Py World unit :=
  λ w, match obj with
       | DeckInput l =>
           (Ok tt, mkWorld (stdout w) (stderr w) (trace w) (alter (with_mnemonics flag) l (heap w)))
       | DeckMulti ls =>
           (Ok tt, mkWorld (stdout w) (stderr w) (trace w)
                     (foldr (λ l h, alter (with_mnemonics flag) l h) (heap w) ls))
       | DeckAnaddb _ =>
           (Raise (Exc AttributeError "'AnaddbInput' object has no attribute 'set_mnemonics'"), w)
       | DeckWannier _ =>
           (Raise (Exc AttributeError "'Wannier90Input' object has no attribute 'set_mnemonics'"), w)
       end.

(** [str(obj)]: the text is the library's, and the rendering methods of the
    four classes are taken to return. *)
Definition deck_str (obj : Deck) : Py World string :=
  λ w, match obj with
       | DeckInput l =>
           match heap w !! l with
           | Some inp => (Ok (str_input E inp), w)
           | None => (Raise (Exc OtherError "dangling reference"), w)
           end
       | DeckMulti ls => (Ok (str_multi E (omap (λ l, heap w !! l) ls)), w)
       | DeckAnaddb a => (Ok (str_anaddb E a), w)
       | DeckWannier x => (Ok (str_wannier90 E x), w)
       end.

Definition disclaimer1 : string :=
  "# This input file template has been automatically generated by the abinp.py script.".
Definition disclaimer2 : string :=
  "# Several input parameters have default values that might not be suitable for you particular calculation.".
Definition disclaimer3 : string :=
  "# Please check the input file, make sure you understand what's happening and modify the template according to your needs".

(** [def finalize(obj, options)] *)
Definition finalize (obj : Deck) (options : Options) : Py World Z :=
  do! (if mnemonics options then set_mnemonics obj true else ret tt) in
  let! text := deck_str obj in
  do! print text in
  do! print nl in
  do! print disclaimer1 in
  do! print disclaimer2 in
  do! print disclaimer3 in
  ret 0.

(** [def build_abinit_input_from_file(options, **abivars)] *)
Definition build_abinit_input_from_file (options : Options)
    (abivars : gmap string AbiVal) : Py World loc :=
  let! abifile := call (CallAbinitInputFile (filepath options))
                       (AbinitInputFile_read E (filepath options)) in
  let! pseudos := get_pseudotable options in
  let jdtset := jdtset options in
  let! abi_kwargs := list_getitem (abifile_datasets abifile) (jdtset - 1) in
  let! abi_kwargs :=
    (if bool_decide (abifile_ndtset abifile ≠ 1) then
       do! print (colored E ("# Input file contains " +:+ pretty (abifile_ndtset abifile) +:+
                             " datasets, will select jdtset index " +:+ pretty jdtset +:+ ":")
                          "yellow") in
       ret (<["jdtset" := AInt jdtset]> abi_kwargs)
     else ret abi_kwargs) in
  let abi_kwargs := abivars ∪ abi_kwargs in
  do! log_call (CallAbinitInput abi_kwargs) in
  new_input (mkInput (abifile_structure abifile) pseudos abi_kwargs false).

(** [def abinp_validate(options)] *)
Definition abinp_validate (options : Options) : Py World Z :=
  let! inp := build_abinit_input_from_file options ∅ in
  let! obj := read_input inp in
  let! r := call (CallAbivalidate inp) (abivalidate E obj) in
  do! (if bool_decide (retcode r = 0) then print "Validation completed succesfully."
       else print2 (log_file r) (stderr_file r)) in
  ret (retcode r).

(** [def abinp_autoparal(options)] *)
Definition abinp_autoparal (options : Options) : Py World Z :=
  let! inp := build_abinit_input_from_file options ∅ in
  let! obj := read_input inp in
  let! pconfs := call (CallAutoparal inp (max_ncpus options) (verbose options))
                      (abiget_autoparal_pconfs E obj (max_ncpus options) (verbose options)) in
  do! print pconfs in
  ret 0.

(** [def abinp_abispg(options)] *)
Definition abinp_abispg (options : Options) : Py World Z :=
  let! inp := build_abinit_input_from_file options
                (<["chkprim" := AInt 0]> (<["mem_test" := AInt 0]> ∅)) in
  let! obj := read_input inp in
  let! r := call (CallAbivalidate inp) (abivalidate E obj) in
  if bool_decide (retcode r ≠ 0) then
    do! print2 (log_file r) (stderr_file r) in
    ret (retcode r)
  else
    let! parsed :=
      try_except
        (let! out := call (CallAbiopen (output_file_path r)) (abiopen E (output_file_path r)) in
         ret (Some out))
        is_Exception
        (λ exc,
           do! print2 "Error while trying to parse output file:" (output_file_path r) in
           do! print2 ("Exception:" +:+ nl) (exc_str repr exc) in
           ret None) in
    match parsed with
    | None => ret 1
    | Some out =>
        let structure := initial_structure out in
        let! summary := call (CallSpgetSummary (verbose options))
                             (spget_summary E structure (verbose options)) in
        do! print summary in
        do! (if bool_decide (verbose options ≠ 0) then
               let! text := call (CallSpacegroupToString (verbose options))
                                 (abi_spacegroup_to_string E structure (verbose options)) in
               print text
             else ret tt) in
        ret 0
    end.

(** One line of the k-point list of [abinp_ibz]. *)
Definition ibz_point_line (i : nat) (kw : (PyFloat * PyFloat * PyFloat) * PyFloat) : string :=
  format_f E 12 8 kw.1.1.1 +:+ "  " +:+ format_f E 12 8 kw.1.1.2 +:+ "  " +:+
  format_f E 12 8 kw.1.2 +:+ "  # index: " +:+ pretty (Z.of_nat i + 1) +:+
  ", weigth: " +:+ format_f E 10 8 kw.2.

(** One line of the weight list of [abinp_ibz]. *)
Definition ibz_weight_line (i : nat) (w : PyFloat) : string :=
  format_f E 10 8 w +:+ "  # index: " +:+ pretty (Z.of_nat i + 1).

(** [def abinp_ibz(options)] *)
Definition abinp_ibz (options : Options) : Py World Z :=
  let! inp := build_abinit_input_from_file options ∅ in
  let! obj := read_input inp in
  let! ibz := call (CallAbigetIbz inp) (abiget_ibz E obj) in
  let nkibz := length (ibz_points ibz) in
  do! print2 "kptopt 0 nkpt " (pretty (Z.of_nat nkibz)) in
  do! print "kpts" in
  do! for_each (imap ibz_point_line (zip (ibz_points ibz) (ibz_weights ibz))) print in
  do! print (nl +:+ "wtk") in
  do! for_each (imap ibz_weight_line (ibz_weights ibz)) print in
  ret 0.

(** [def abinp_phperts(options)] *)
Definition abinp_phperts (options : Options) : Py World Z :=
  let! inp := build_abinit_input_from_file options ∅ in
  let! obj := read_input inp in
  let qpt := if bool_decide (is_Some (inp_vars obj !! "qpt")) then None else Some [0; 0; 0] in
  let! perts := call (CallIrredPhperts inp qpt) (abiget_irred_phperts E obj qpt) in
  do! print perts in
  ret 0.

(** The keyword arguments the handlers pass to the factories. *)
Definition gs_input_kwargs : list (string * KwArg) :=
  [("kppa", KNone); ("ecut", KNone); ("pawecutdg", KNone); ("scf_nband", KNone);
   ("accuracy", KStr "normal"); ("spin_mode", KStr "unpolarized");
   ("smearing", KStr "fermi_dirac:0.1 eV"); ("charge", KFloat (FloatOf 0 1));
   ("scf_algorithm", KNone)].

Definition ebands_input_kwargs : list (string * KwArg) :=
  [("kppa", KNone); ("nscf_nband", KNone); ("ndivsm", KInt 15);
   ("ecut", KNone); ("pawecutdg", KNone); ("scf_nband", KNone);
   ("accuracy", KStr "normal"); ("spin_mode", KStr "unpolarized");
   ("smearing", KStr "fermi_dirac:0.1 eV"); ("charge", KFloat (FloatOf 0 1));
   ("scf_algorithm", KNone); ("dos_kppa", KNone)].

Definition phonons_kwargs : list (string * KwArg) :=
  [("ph_ngqpt", KNone); ("qpoints", KNone); ("with_ddk", KBool true);
   ("with_dde", KBool true); ("with_bec", KBool false); ("ph_tol", KNone);
   ("ddk_tol", KNone); ("dde_tol", KNone); ("wfq_tol", KNone);
   ("qpoints_to_skip", KNone)].

Definition g0w0_kwargs : list (string * KwArg) :=
  [("ecut", KNone); ("pawecutdg", KNone); ("accuracy", KStr "normal");
   ("spin_mode", KStr "unpolarized"); ("smearing", KStr "fermi_dirac:0.1 eV");
   ("ppmodel", KStr "godby"); ("charge", KFloat (FloatOf 0 1));
   ("scf_algorithm", KNone); ("inclvkb", KInt 2); ("scr_nband", KNone);
   ("sigma_nband", KNone); ("gw_qprange", KInt 1)].

Definition phbands_and_dos_kwargs : list (string * KwArg) :=
  [("ndivsm", KInt 20); ("q1shft", KInts [0; 0; 0]); ("qptbounds", KNone);
   ("asr", KInt 2); ("chneut", KInt 0); ("dipdip", KInt 1);
   ("dos_method", KStr "tetra"); ("lo_to_splitting", KBool false);
   ("anaddb_args", KNone); ("anaddb_kwargs", KNone)].

(** [def abinp_gs(options)] *)
Definition abinp_gs (options : Options) : Py World Z :=
  let! structure := call (CallStructureFromFile (filepath options))
                         (Structure_from_file E (filepath options)) in
  let! pseudos := get_pseudotable options in
  let! gsinp := call_heap (CallFactory "gs_input" gs_input_kwargs)
                          (gs_input E structure pseudos gs_input_kwargs) in
  finalize (DeckInput gsinp) options.

(** [def abinp_ebands(options)] *)
Definition abinp_ebands (options : Options) : Py World Z :=
  let! structure := get_structure options in
  let! pseudos := get_pseudotable options in
  let! multi := call_heap (CallFactory "ebands_input" ebands_input_kwargs)
                          (ebands_input E structure pseudos ebands_input_kwargs) in
  do! for_each (drop 1 multi) (λ inp, set_var inp "getwfk" (AInt 1)) in
  finalize (DeckMulti multi) options.

(** [def abinp_phonons(options)] *)
Definition abinp_phonons (options : Options) : Py World Z :=
  let! structure := get_structure options in
  let! pseudos := get_pseudotable options in
  let! gsinp := call_heap (CallFactory "gs_input" gs_input_kwargs)
                          (gs_input E structure pseudos gs_input_kwargs) in
  let! multi := call_heap (CallFactory "phonons_from_gsinput" phonons_kwargs)
                          (phonons_from_gsinput E gsinp phonons_kwargs) in
  do! for_each (drop 1 multi) (λ inp, set_var inp "getwfk" (AInt 1)) in
  finalize (DeckMulti multi) options.

(** [def abinp_g0w0(options)] *)
Definition abinp_g0w0 (options : Options) : Py World Z :=
  let! structure := get_structure options in
  let! pseudos := get_pseudotable options in
  let '(kppa, nscf_nband, ecuteps, ecutsigx) := (1000, 100, 4, 12) in
  let! multi := call_heap (CallFactory "g0w0_with_ppmodel_inputs" g0w0_kwargs)
                          (g0w0_with_ppmodel_inputs E structure pseudos
                             kppa nscf_nband ecuteps ecutsigx g0w0_kwargs) in
  do! for_each (drop 1 multi) (λ inp, set_var inp "getwfk" (AInt (-1))) in
  let! last := list_getitem multi (-1) in
  do! set_var last "getscr" (AInt (-1)) in
  finalize (DeckMulti multi) options.

(** [def abinp_anaph(options)] *)
Definition abinp_anaph (options : Options) : Py World Z :=
  let! ddb := call (CallDdbFile (filepath options)) (DdbFile_open E (filepath options)) in
  let nqsmall := 10 in
  let! inp := call (CallFactory "AnaddbInput.phbands_and_dos" phbands_and_dos_kwargs)
                   (phbands_and_dos E (ddb_structure ddb) (guessed_ngqpt ddb) nqsmall
                      phbands_and_dos_kwargs) in
  finalize (DeckAnaddb inp) options.

(** [def abinp_wannier90(options)] *)
Definition abinp_wannier90 (options : Options) : Py World Z :=
  let! inp := call (CallWannier90FromFile (filepath options))
                   (Wannier90Input_from_abinit_file E (filepath options)) in
  finalize (DeckWannier inp) options.

(** [def get_epilog()] *)
Definition get_epilog : string :=
  String.concat nl [
    "";
    "Usage example:";
    "";
    "######################";
    "# Require Abinit Input";
    "######################";
    "";
    "    abinp.py validate run.abi       # Call abinit to validate run.abi input file";
    "    abinp.py abispg run.abi         # Call abinit to get space group information.";
    "    abinp.py autoparal run.abi      # Call abinit to get list of autoparal configurations.";
    "    abinp.py ibz run.abi            # Call abinit to get list of k-points in the IBZ.";
    "    abinp.py phperts run.abi        # Call abinit to get list of atomic perturbations for phonons.";
    "";
    "########################";
    "# Abinit Input Factories";
    "########################";
    "";
    "    abinp.py gs si.cif > run.abi    # Build input for GS run for silicon structure read from CIF file.";
    "                                    # Redirect output to run.abi.";
    "    abinp.py ebands out_GSR.nc      # Build input for SCF + NSCF run with structure read from GSR.nc file.";
    "    abinp.py ebands mp-149          # Build input for SCF+NSCF run with (relaxed) structure taken from the";
    "                                    # materials project database. Requires internet connect and MAPI_KEY.";
    "    abinp.py phonons POSCAR         # Build input for GS + DFPT calculation of phonons with DFPT.";
    "    abinp.py phonons out_HIST.nc    # Build input for G0W0 run with (relaxed) structure read from HIST.nc file.";
    "";
    "########################";
    "# Anaddb Input Factories";
    "########################";
    "";
    "    abinp.py anaph out_DDB          # Build anaddb input file for phonon bands + DOS from DDB file.";
    "";
    "";
    "Note that one can use pass any file providing a pymatgen structure";
    "e.g. Abinit netcdf files, CIF files, POSCAR, ...";
    "Use `abinp.py --help` for help and `abinp.py COMMAND --help` to get the documentation for `COMMAND`.";
    "Use `-v` to increase verbosity level (can be supplied multiple times e.g -vv).";
    "";
    "CAVEAT: This script provides a simplified interface to the AbiPy factory functions.";
    "For a more flexible interface please use the AbiPy objects to generate input files and workflows.";
    ""
  ].

(** The defaults [get_parser] declares for the options of a sub-command. *)
Definition parser_defaults (command : string) (filepath : string) : Options :=
  {| command := Some command;
     filepath := filepath;
     verbose := 0;
     loglevel := "ERROR";
     mapi_key := None;
     endpoint := "https://www.materialsproject.org/rest/v2";
     mnemonics := false;
     usepaw := false;
     jdtset := 1;
     pseudos := None;
     max_ncpus := 50 |}.

(** The sub-commands [get_parser] registers. *)
Definition subcommands : list string :=
  ["validate"; "autoparal"; "abispg"; "ibz"; "phperts";
   "gs"; "ebands"; "phonons"; "g0w0"; "anaph"; "wannier90"].

(** [globals()[name]] for the names that start with [abinp_]. *)
Definition globals : list (string * (Options → Py World Z)) :=
  [("abinp_validate", abinp_validate); ("abinp_autoparal", abinp_autoparal);
   ("abinp_abispg", abinp_abispg); ("abinp_ibz", abinp_ibz);
   ("abinp_phperts", abinp_phperts); ("abinp_gs", abinp_gs);
   ("abinp_ebands", abinp_ebands); ("abinp_phonons", abinp_phonons);
   ("abinp_g0w0", abinp_g0w0); ("abinp_anaph", abinp_anaph);
   ("abinp_wannier90", abinp_wannier90)].

Definition globals_getitem (name : string) : Py World (Options → Py World Z) :=
  match list_find (λ kv, kv.1 = name) globals with
  | Some (_, (_, handler)) => ret handler
  | None => raise (Exc KeyError name)
  end.

(** [show_examples_and_exit(err_msg=None, error_code=1)], local to [main] *)
Definition show_examples_and_exit {A} (err_msg : option string) (error_code : Z) : Py World A :=
  do! stderr_write get_epilog in
  do! match err_msg with
      | Some msg =>
          if bool_decide (msg = "") then ret tt
          else stderr_write ("Fatal Error" +:+ nl +:+ msg +:+ nl)
      | None => ret tt
      end in
  raise (SystemExit error_code).

(** [parser.parse_args()] *)
Definition parse_args : Py World Options :=
  do! log_call CallParseArgs in
  do! stderr_write (argparse_stderr E) in
  lift (argparse_outcome E).

(** [not options.command] *)
Definition no_command (options : Options) : bool :=
  match command options with
  | None => true
  | Some c => bool_decide (c = "")
  end.

(** [def main()] *)
Definition main : Py World Z :=
  let! options :=
    try_except parse_args is_Exception (λ _, show_examples_and_exit None 1) in
  do! (if no_command options then show_examples_and_exit None 1 else ret tt) in
  let! numeric_level :=
    match logging_int_attr E (upper (loglevel options)) with
    | Some level => ret level
    | None => raise (Exc ValueError ("Invalid log level: " +:+ loglevel options))
    end in
  do! log_call (CallLoggingBasicConfig numeric_level) in
  let! handler := globals_getitem ("abinp_" +:+ default "" (command options)) in
  handler options.

(** The status a POSIX system reports for a process that ends in
    [sys.exit(code)] with [code] an [int]: CPython converts [code] to a C
    [long], takes [-1] when it does not fit, and the system keeps the low
    eight bits. *)
Definition sys_exit (code : Z) : Z :=
  (if bool_decide (- 2 ^ 63 ≤ code < 2 ^ 63) then code else -1) `mod` 256.

(** [sys.exit(main())]: the exit status of the process.  An exception that
    reaches the top ends the process with status 1 (so does a
    [KeyboardInterrupt] up to Python 3.7; later interpreters end by the
    signal instead). *)
Definition exit_status (r : PyResult Z) : Z :=
  match r with
  | Ok rc => sys_exit rc
  | Raise (SystemExit code) => sys_exit code
  | Raise _ => 1
  end.

End Script.

End Abinp.

(** * The setting of the properties

    The vocabulary the statements use, callers that exercise the code, and a
    small outside (a stand-in for pandas, for pymatgen, for Abinit and for
    argparse) on which the code can be run. *)

(** ** Callers of the unit-cell registry *)
Module UcellsSetting.
Import Ucells.

(** A caller that looks a cell up, overwrites the first entry of its [typat]
    list, and looks the same cell up again:
    [r1 = ucell(name); r1["typat"][0] = 2; r2 = ucell(name)]. *)
Definition mutate_typat_then_lookup (name : string) : Py Heap (pyval * pyval) :=
  let! first := ucell name in
  let! typat := getitem first "typat" in
  do! setitem_index typat 0 (VInt 2) in
  let! second := ucell name in
  ret (first, second).

(** A caller that rebinds a key of the record it was given, then looks the
    cell up again: [r1 = ucell(name); r1[key] = v; r2 = ucell(name)]. *)
Definition rebind_key_then_lookup (name key : string) (v : pyval) : Py Heap (pyval * pyval) :=
  let! first := ucell name in
  do! setitem_key first key v in
  let! second := ucell name in
  ret (first, second).

(** The data behind the outcome of a lookup. *)
Definition the_data (h : list pyobj) (r : PyResult pyval) : option pydata :=
  match r with
  | Ok v => snapshot 8 h v
  | Raise _ => None
  end.

(** The store holds the registry: [_UCELLS] is the dict [reg]. *)
Definition registry_is (h : list pyobj) (reg : gmap string pyval) : Prop :=
  match _UCELLS with
  | VRef l => h !! l = Some (ODict reg)
  | _ => False
  end.

(** Every value the registry holds is a reference to an object of the store. *)
Definition entries_are_objects (h : list pyobj) (reg : gmap string pyval) : Prop :=
  ∀ k v, reg !! k = Some v → ∃ l o, v = VRef l ∧ h !! l = Some o.

(** [rec[key]] read off the store, without raising. *)
Definition field (h : list pyobj) (rec : pyval) (key : string) : option pyval :=
  match rec with
  | VRef l =>
      match h !! l with
      | Some (ODict d) => d !! key
      | _ => None
      end
  | _ => None
  end.

(** [len(rec[key])] when that is a list. *)
Definition field_len (h : list pyobj) (rec : pyval) (key : string) : option Z :=
  match field h rec key with
  | Some (VRef l) =>
      match h !! l with
      | Some (OList items) => Some (Z.of_nat (length items))
      | _ => None
      end
  | _ => None
  end.

(** The record has as many [typat] entries and as many [xred] rows as it has
    atoms, three [acell] factors and three [rprim] vectors. *)
Definition cell_consistent (h : list pyobj) (rec : pyval) : Prop :=
  ∃ natom,
    field h rec "natom" = Some (VInt natom)
    ∧ field_len h rec "typat" = Some natom
    ∧ field_len h rec "xred" = Some natom
    ∧ field_len h rec "acell" = Some 3
    ∧ field_len h rec "rprim" = Some 3.

(** A constructor that reads [natom] off the record it is given. *)
Definition natom_of (rec : pyval) : Py Heap Z :=
  λ h, match field h rec "natom" with
       | Some (VInt n) => (Ok n, h)
       | _ => (Raise (Exc KeyError "natom"), h)
       end.

End UcellsSetting.

(** ** Displaying a table *)
Module PrintingSetting.
Import Printing.

(** The options [print_dataframe] puts in force while it renders [view]. *)
Definition scoped_options (precision : Z) (view : DataFrame) : DisplayOptions :=
  mkDisplay (Some (length (df_rows view))) (Some (length (df_columns view))) precision.

(** The sink after the optional title, the rendering [text] and the closing
    line holding one blank. *)
Definition sink_after (title : option string) (text : string) (before : string) : string :=
  print_to (print_to (match title with
                      | Some t => print_to before t
                      | None => before
                      end) text) " ".

(** [view] is what gets displayed: whenever pandas renders it under the scoped
    options, the call returns and the sink has received exactly that text. *)
Definition displays (pd : Pandas) (title : option string) (precision : Z)
    (view : DataFrame) (st : State) (out : PyResult unit * State) : Prop :=
  ∀ text, pd_to_string pd (scoped_options precision view) view = Ok text →
    out.1 = Ok tt ∧ sink out.2 = sink_after title text (sink st).

(** The last statement of [print_dataframe], for the table that the local
    variable [frame] is bound to by then. *)
Definition render_tail (pd : Pandas) (precision : Z) (frame : option loc) : Py State unit :=
  let! nrows := len frame in
  let! cols := keys frame in
  option_context (mkDisplay (Some nrows) (Some (length cols)) precision)
    (let! s := str pd frame in
     do! print s in
     print " ").

(** A small stand-in for pandas, to run the printer on: rows are ordered by the
    values of the key column, and a table is rendered as its header followed
    by at most [max_rows] rows. *)

(** The entry of [row] in column [j]. *)
Definition cell (j : nat) (row : list Z) : Z := default 0 (row !! j).

Definition row_le (j : nat) (r1 r2 : list Z) : Prop := cell j r1 ≤ cell j r2.

#[local] Instance row_le_dec (j : nat) (r1 r2 : list Z) : Decision (row_le j r1 r2).
Proof. unfold row_le. apply _. Defined.

Definition demo_sorted (key : string) (fr : DataFrame) : PyResult DataFrame :=
  match list_find (λ c, c = key) (df_columns fr) with
  | Some (j, _) => Ok (mkFrame (df_columns fr) (merge_sort (row_le j) (df_rows fr)))
  | None => Raise (Exc KeyError key)
  end.

Definition demo_to_string (opts : DisplayOptions) (fr : DataFrame) : PyResult string :=
  let shown := match max_rows opts with
               | Some n => take n (df_rows fr)
               | None => df_rows fr
               end in
  Ok (String.concat nl
        (String.concat " " (df_columns fr) ::
         ((λ row : list Z, String.concat " " (pretty <$> row)) <$> shown))).

Definition demo_pandas : Pandas := mkPandas demo_sorted demo_to_string.

Definition demo_frame : DataFrame := mkFrame ["a"; "b"] [[3; 1]; [1; 2]; [2; 0]].

(** One table exists, and the process truncates tables to two rows. *)
Definition demo_state : State := mkState [demo_frame] (mkDisplay (Some 2%nat) (Some 20%nat) 6) "".

(** The table [print_dataframe] goes on to render, or the exception raised
    while sorting. *)
Definition view_to_render (pd : Pandas) (sortby : option string) (fr : DataFrame) : PyResult DataFrame :=
  match sortby with
  | Some key => if bool_decide (key ∈ df_columns fr) then pd_sorted pd key fr else Ok fr
  | None => Ok fr
  end.

(** The sink once the optional title is written. *)
Definition sink_with_title (title : option string) (before : string) : string :=
  match title with
  | Some t => print_to before t
  | None => before
  end.

(** A pandas that cannot render anything. *)
Definition broken_pandas : Pandas :=
  mkPandas demo_sorted (λ _ _, Raise (Exc ValueError "cannot render")).

End PrintingSetting.

(** ** Runs of the script *)
Module AbinpSetting.
Import Abinp.

(** *** Vocabulary *)

(** The world once the calls [cs] have been made after [w]. *)
Definition after_calls (cs : list ExtCall) (w : World) : World :=
  mkWorld (stdout w) (stderr w) (trace w ++ cs) (heap w).

(** A remote lookup in the materials database. *)
Definition is_remote_lookup (c : ExtCall) : bool :=
  match c with
  | CallStructureFromMpid _ _ _ _ => true
  | _ => false
  end.

(** The remote lookups made so far. *)
Definition remote_lookups (w : World) : list ExtCall :=
  filter (λ c, is_remote_lookup c = true) (trace w).

(** The variables handed to [AbinitInput]: those of the selected dataset, with
    [jdtset] added when the file holds several datasets, then the overrides. *)
Definition selected_vars (abifile : AbinitInputFile) (jdtset : Z)
    (vars : gmap string AbiVal) : gmap string AbiVal :=
  if bool_decide (abifile_ndtset abifile ≠ 1) then <["jdtset" := AInt jdtset]> vars else vars.

(** [print] called on each of [lines] in turn, starting from an empty stream. *)
Definition printed (lines : list string) : string := foldl print_to "" lines.

(** What [finalize] writes for a deck rendered as [text]. *)
Definition finalize_output (text : string) : string :=
  printed [text; nl; disclaimer1; disclaimer2; disclaimer3].

(** The object the deck refers to exists. *)
Definition deck_alive (obj : Deck) (h : list AbinitInput) : Prop :=
  match obj with
  | DeckInput l => is_Some (h !! l)
  | _ => True
  end.

(** The overrides of [abinp_abispg]: [chkprim=0, mem_test=0]. *)
Definition abispg_vars : gmap string AbiVal :=
  <["chkprim" := AInt 0]> (<["mem_test" := AInt 0]> ∅).

(** The value of [getwfk] in the input at [l]. *)
Definition getwfk (h : list AbinitInput) (l : loc) : option AbiVal :=
  match h !! l with
  | Some inp => inp_vars inp !! "getwfk"
  | None => None
  end.

(** Datasets 2..N hold [getwfk 1]; dataset 1 holds for [getwfk] what the
    factory left there. *)
Definition back_referenced (multi : list loc) (before after : list AbinitInput) : Prop :=
  (∀ i l, (1 ≤ i)%nat → multi !! i = Some l → getwfk after l = Some (AInt 1))
  ∧ (∀ l, multi !! 0%nat = Some l → getwfk after l = getwfk before l).

(** The world once [parse_args] has returned or raised. *)
Definition after_parse (E : Env) (w : World) : World :=
  mkWorld (stdout w) (stderr w +:+ argparse_stderr E) (trace w ++ [CallParseArgs]) (heap w).

(** The world once [show_examples_and_exit] has written the epilog. *)
Definition after_usage (E : Env) (w : World) : World :=
  mkWorld (stdout w) ((stderr w +:+ argparse_stderr E) +:+ get_epilog)
          (trace w ++ [CallParseArgs]) (heap w).

(** *** A small outside to run the script in *)

(** What varies from one run to the next. *)
Record Scenario := mkScenario {
  sc_files : list string;              (* the paths that exist *)
  sc_dojo : option PyExc;              (* how importing pseudo_dojo fails, if it does *)
  sc_validate : ValidateResult;        (* what Abinit answers to a validation *)
  sc_abiopen : PyResult AbinitOutput;  (* how parsing the output file ends *)
  sc_argparse : string * PyResult Options;
}.

(** An input file with two datasets; the first one says [chkprim 1]. *)
Definition demo_abifile : AbinitInputFile :=
  mkAbiFile 2 [ {[ "ecut" := AInt 8; "chkprim" := AInt 1 ]}; {[ "ecut" := AInt 12 ]} ]
            (StructureObj 1).

(** The inputs the stand-in factories build. *)
Definition demo_input (s : Structure) (p : PseudoTable) (ecut : Z) : AbinitInput :=
  mkInput s p {[ "ecut" := AInt ecut ]} false.

(** Upper-casing for the strings the scenarios use, whose only character
    outside ASCII is the dotless i (bytes 196, 177), which becomes [I]. *)
Fixpoint demo_unicode_upper (s : string) : string :=
  match s with
  | EmptyString => EmptyString
  | String c rest =>
      match rest with
      | String d rest' =>
          if ((Ascii.nat_of_ascii c =? 196) && (Ascii.nat_of_ascii d =? 177))%nat
          then String (Ascii.ascii_of_nat 73) (demo_unicode_upper rest')
          else String (upper_ascii c) (demo_unicode_upper rest)
      | EmptyString => String (upper_ascii c) EmptyString
      end
  end.

(** The outside of a scenario.  [repr] of the strings the scenarios use
    escapes nothing outside ASCII. *)
Definition demo_env (sc : Scenario) : Env :=
  {| os_path_exists := λ p, bool_decide (p ∈ sc_files sc);
     Structure_from_file := λ p,
       if bool_decide (p ∈ sc_files sc) then Ok (StructureObj 1)
       else Raise (Exc OtherError ("No such file: " +:+ p));
     Structure_from_mpid := λ _ _ _ _, Ok (StructureObj 2);
     PseudoTable_as_table := λ _, Ok (PseudoTableObj 1);
     import_pseudo_dojo := sc_dojo sc;
     OfficialTables := Ok (λ _, Ok (PseudoTableObj 2));
     PseudoTable_repr := λ _, "<PseudoTable>";
     AbinitInputFile_read := λ p,
       if bool_decide (p ∈ sc_files sc) then Ok demo_abifile
       else Raise (Exc OtherError ("No such file: " +:+ p));
     abivalidate := λ _, Ok (sc_validate sc);
     abiget_autoparal_pconfs := λ _ _ _, Ok "pconfs";
     abiget_ibz := λ _, Ok (mkIbz [(FloatOf 0 1, FloatOf 0 1, FloatOf 0 1)] [FloatOf 1 1]);
     abiget_irred_phperts := λ _ _, Ok "perts";
     abiopen := λ _, sc_abiopen sc;
     spget_summary := λ _ _, Ok "Spacegroup: Fd-3m (227)";
     abi_spacegroup_to_string := λ _ _, Ok "spgid: 227";
     gs_input := λ s p _ h, (Ok (length h), h ++ [demo_input s p 8]);
     ebands_input := λ s p _ h,
       (Ok [length h; S (length h)], h ++ [demo_input s p 8; demo_input s p 9]);
     phonons_from_gsinput := λ gs _ h,
       match h !! gs with
       | Some inp => (Ok [length h; S (length h); S (S (length h))], h ++ [inp; inp; inp])
       | None => (Raise (Exc OtherError "dangling reference"), h)
       end;
     g0w0_with_ppmodel_inputs := λ s p _ _ _ _ _ h,
       (Ok [length h; S (length h); S (S (length h)); S (S (S (length h)))],
        h ++ [demo_input s p 8; demo_input s p 9; demo_input s p 10; demo_input s p 11]);
     DdbFile_open := λ _, Ok (mkDdb (StructureObj 1) [4; 4; 4]);
     phbands_and_dos := λ _ _ _ _, Ok (mkAnaddb 1);
     Wannier90Input_from_abinit_file := λ _, Ok (mkWannier 1);
     str_input := λ inp,
       "ecut " +:+ match inp_vars inp !! "ecut" with Some (AInt z) => pretty z | _ => "?" end;
     str_multi := λ inps, "ndtset " +:+ pretty (Z.of_nat (length inps));
     str_anaddb := λ _, "anaddb";
     str_wannier90 := λ _, "wannier90";
     format_f := λ _ _ x, match x with FloatOf n d => pretty n +:+ "/" +:+ pretty (Z.pos d) end;
     colored := λ text _, text;
     logging_int_attr := λ name,
       (λ found, found.2.2) <$>
         list_find (λ kv, kv.1 = name)
           [("CRITICAL", 50); ("FATAL", 50); ("ERROR", 40); ("WARNING", 30); ("WARN", 30);
            ("INFO", 20); ("DEBUG", 10); ("NOTSET", 0)];
     unicode_upper := demo_unicode_upper;
     unicode_repr := ascii_repr;
     argparse_stderr := (sc_argparse sc).1;
     argparse_outcome := (sc_argparse sc).2 |}.

(** The world before the script has done anything. *)
Definition world0 : World := mkWorld "" "" [] [].

(** [--usepaw] without [--pseudos]. *)
Definition paw_options : Options :=
  mkOptions (Some "gs") "si.cif" 0 "ERROR" None "https://www.materialsproject.org/rest/v2"
            false true 1 None 50.

(** [--usepaw --pseudos Si.psp8]. *)
Definition paw_options_with_files : Options :=
  mkOptions (Some "gs") "si.cif" 0 "ERROR" None "https://www.materialsproject.org/rest/v2"
            false true 1 (Some ["Si.psp8"]) 50.

(** [abinp.py gs si.cif -p Si.psp8] *)
Definition gs_options : Options :=
  mkOptions (Some "gs") "si.cif" 0 "ERROR" None "https://www.materialsproject.org/rest/v2"
            false false 1 (Some ["Si.psp8"]) 50.

(** [abinp.py abispg run.abi -p Si.psp8] *)
Definition abispg_options : Options :=
  mkOptions (Some "abispg") "run.abi" 0 "ERROR" None "" false false 1 (Some ["Si.psp8"]) 50.

(** [abinp.py ebands si.cif -p Si.psp8] *)
Definition ebands_options : Options :=
  mkOptions (Some "ebands") "si.cif" 0 "ERROR" None "https://www.materialsproject.org/rest/v2"
            false false 1 (Some ["Si.psp8"]) 50.

(** [abinp.py <verb> mp-149 -p Si.psp8 --mapi-key KEY] *)
Definition mp_options (verb : string) : Options :=
  mkOptions (Some verb) "mp-149" 0 "ERROR" (Some "KEY") "https://www.materialsproject.org/rest/v2"
            false false 1 (Some ["Si.psp8"]) 50.

(** What argparse writes for [abinp.py bogus]. *)
Definition invalid_choice : string :=
  "usage: abinp.py [-h] [--loglevel LOGLEVEL] [-V] [-v] ..." +:+ nl +:+
  "abinp.py: error: invalid choice: 'bogus'" +:+ nl.

(** [pseudo_dojo] is installed; [si.cif] and [run.abi] exist. *)
Definition installed : Scenario :=
  mkScenario ["si.cif"; "run.abi"] None (mkValidate 0 "run.log" "run.err" "run.abo")
             (Ok (mkOutput (StructureObj 1))) ("", Raise (SystemExit 2)).

(** The same, without [pseudo_dojo]. *)
Definition not_installed : Scenario :=
  mkScenario ["si.cif"; "run.abi"] (Some (Exc ImportError "No module named pseudo_dojo"))
             (mkValidate 0 "run.log" "run.err" "run.abo")
             (Ok (mkOutput (StructureObj 1))) ("", Raise (SystemExit 2)).

(** The command line is [abinp.py gs si.cif -p Si.psp8]. *)
Definition gs_run : Scenario :=
  mkScenario ["si.cif"] None (mkValidate 0 "run.log" "run.err" "run.abo")
             (Ok (mkOutput (StructureObj 1))) ("", Ok gs_options).

(** Abinit returns 0 and leaves an output file that cannot be parsed. *)
Definition unparsable_output : Scenario :=
  mkScenario ["run.abi"] None (mkValidate 0 "run.log" "run.err" "run.abo")
             (Raise (Exc ValueError "not an Abinit output file")) ("", Ok abispg_options).

(** Nothing named [mp-149] exists on disk. *)
Definition nothing_on_disk : Scenario :=
  mkScenario [] None (mkValidate 0 "run.log" "run.err" "run.abo")
             (Ok (mkOutput (StructureObj 1))) ("", Raise (SystemExit 2)).

(** [abinp.py bogus]: argparse rejects the verb with [error()], which writes
    its own usage line and calls [sys.exit(2)]. *)
Definition unrecognized_verb : Scenario :=
  mkScenario [] None (mkValidate 0 "" "" "") (Ok (mkOutput (StructureObj 1)))
             (invalid_choice, Raise (SystemExit 2)).

(** The value of variable [name] in the input at [l]. *)
Definition get_var (name : string) (h : list AbinitInput) (l : loc) : option AbiVal :=
  match h !! l with
  | Some inp => inp_vars inp !! name
  | None => None
  end.

(** The handlers that start from an Abinit input file. *)
Definition input_file_handlers (E : Env) : list (Options → Py World Z) :=
  [abinp_validate E; abinp_autoparal E; abinp_abispg E; abinp_ibz E; abinp_phperts E].

(** The standard output once [get_pseudotable] has printed its advice. *)
Definition with_install_advice (out : string) : string :=
  print_to (print_to out
    "PseudoDojo package not installed. Please install it with `pip install pseudo_dojo`")
    "or use `--pseudos FILE_LIST` to specify the pseudopotentials to use.".

(** The inputs a deck is made of. *)
Definition deck_inputs (obj : Deck) : list loc :=
  match obj with
  | DeckInput l => [l]
  | DeckMulti ls => ls
  | DeckAnaddb _ | DeckWannier _ => []
  end.

(** [abinp.py validate run.abi -p Si.psp8 --loglevel <level>] *)
Definition validate_options (level : string) : Options :=
  mkOptions (Some "validate") "run.abi" 0 level None "" false false 1 (Some ["Si.psp8"]) 50.

(** [abinp.py validate run.abi -p Si.psp8 --jdtset <j>] *)
Definition validate_dataset (j : Z) : Options :=
  mkOptions (Some "validate") "run.abi" 0 "ERROR" None "" false false j (Some ["Si.psp8"]) 50.

(** The command line parses to [o]; Abinit answers a validation with return
    code [rc]. *)
Definition run_of (o : Options) (rc : Z) : Scenario :=
  mkScenario ["si.cif"; "run.abi"; "out_DDB"] None (mkValidate rc "run.log" "run.err" "run.abo")
             (Ok (mkOutput (StructureObj 1))) ("", Ok o).

(** [abinp.py g0w0 si.cif -p Si.psp8] *)
Definition g0w0_options : Options :=
  mkOptions (Some "g0w0") "si.cif" 0 "ERROR" None "https://www.materialsproject.org/rest/v2"
            false false 1 (Some ["Si.psp8"]) 50.

(** [abinp.py anaph out_DDB --usepaw] *)
Definition anaph_options : Options :=
  mkOptions (Some "anaph") "out_DDB" 0 "ERROR" None "https://www.materialsproject.org/rest/v2"
            false true 1 None 50.

(** [abinp.py anaph out_DDB -m] *)
Definition anaph_mnemonics_options : Options :=
  mkOptions (Some "anaph") "out_DDB" 0 "ERROR" None "https://www.materialsproject.org/rest/v2"
            true false 1 None 50.

(** [abinp.py wannier90 run.abo -m] *)
Definition wannier90_mnemonics_options : Options :=
  mkOptions (Some "wannier90") "run.abo" 0 "ERROR" None "https://www.materialsproject.org/rest/v2"
            true false 1 None 50.

(** [abinp.py gs si.cif -p Si.psp8 -m] *)
Definition gs_mnemonics_options : Options :=
  mkOptions (Some "gs") "si.cif" 0 "ERROR" None "https://www.materialsproject.org/rest/v2"
            true false 1 (Some ["Si.psp8"]) 50.

(** The deck is of a class that defines [set_mnemonics]. *)
Definition has_set_mnemonics (obj : Deck) : bool :=
  match obj with
  | DeckInput _ | DeckMulti _ => true
  | DeckAnaddb _ | DeckWannier _ => false
  end.

(** The store once [finalize] has switched the mnemonics on, when asked to. *)
Definition annotated (o : Options) (obj : Deck) (h : list AbinitInput) : list AbinitInput :=
  if mnemonics o then foldr (λ l h, alter (with_mnemonics true) l h) h (deck_inputs obj) else h.

(** What [str(obj)] is in store [h]. *)
Definition rendering (E : Env) (obj : Deck) (h : list AbinitInput) : string :=
  match obj with
  | DeckInput l => default "" (str_input E <$> h !! l)
  | DeckMulti ls => str_multi E (omap (λ l, h !! l) ls)
  | DeckAnaddb a => str_anaddb E a
  | DeckWannier x => str_wannier90 E x
  end.

(** [abinp.py] with nothing after it, as Python 3 parses it: no command. *)
Definition no_verb_options : Options :=
  mkOptions None "" 0 "ERROR" None "https://www.materialsproject.org/rest/v2"
            false false 1 None 50.

(** [parse_args] raising an exception of its own. *)
Definition parser_crash : Scenario :=
  mkScenario [] None (mkValidate 0 "" "" "") (Ok (mkOutput (StructureObj 1)))
             ("", Raise (Exc TypeError "unhashable type")).

(** The handlers that resolve their structure with [get_structure]. *)
Definition structure_handlers (E : Env) : list (Options → Py World Z) :=
  [abinp_ebands E; abinp_phonons E; abinp_g0w0 E].

(** [E], but for a G0W0 factory that returns no dataset at all. *)
Definition with_empty_g0w0 (E : Env) : Env :=
  {| os_path_exists := os_path_exists E;
     Structure_from_file := Structure_from_file E;
     Structure_from_mpid := Structure_from_mpid E;
     PseudoTable_as_table := PseudoTable_as_table E;
     import_pseudo_dojo := import_pseudo_dojo E;
     OfficialTables := OfficialTables E;
     PseudoTable_repr := PseudoTable_repr E;
     AbinitInputFile_read := AbinitInputFile_read E;
     abivalidate := abivalidate E;
     abiget_autoparal_pconfs := abiget_autoparal_pconfs E;
     abiget_ibz := abiget_ibz E;
     abiget_irred_phperts := abiget_irred_phperts E;
     abiopen := abiopen E;
     spget_summary := spget_summary E;
     abi_spacegroup_to_string := abi_spacegroup_to_string E;
     gs_input := gs_input E;
     ebands_input := ebands_input E;
     phonons_from_gsinput := phonons_from_gsinput E;
     g0w0_with_ppmodel_inputs := λ _ _ _ _ _ _ _ h, (Ok [], h);
     DdbFile_open := DdbFile_open E;
     phbands_and_dos := phbands_and_dos E;
     Wannier90Input_from_abinit_file := Wannier90Input_from_abinit_file E;
     str_input := str_input E;
     str_multi := str_multi E;
     str_anaddb := str_anaddb E;
     str_wannier90 := str_wannier90 E;
     format_f := format_f E;
     colored := colored E;
     logging_int_attr := logging_int_attr E;
     unicode_upper := unicode_upper E;
     unicode_repr := unicode_repr E;
     argparse_stderr := argparse_stderr E;
     argparse_outcome := argparse_outcome E |}.

(** [E], but for what [structure.spget_summary] answers. *)
Definition with_spget_summary (E : Env) (answer : PyResult string) : Env :=
  {| os_path_exists := os_path_exists E;
     Structure_from_file := Structure_from_file E;
     Structure_from_mpid := Structure_from_mpid E;
     PseudoTable_as_table := PseudoTable_as_table E;
     import_pseudo_dojo := import_pseudo_dojo E;
     OfficialTables := OfficialTables E;
     PseudoTable_repr := PseudoTable_repr E;
     AbinitInputFile_read := AbinitInputFile_read E;
     abivalidate := abivalidate E;
     abiget_autoparal_pconfs := abiget_autoparal_pconfs E;
     abiget_ibz := abiget_ibz E;
     abiget_irred_phperts := abiget_irred_phperts E;
     abiopen := abiopen E;
     spget_summary := λ _ _, answer;
     abi_spacegroup_to_string := abi_spacegroup_to_string E;
     gs_input := gs_input E;
     ebands_input := ebands_input E;
     phonons_from_gsinput := phonons_from_gsinput E;
     g0w0_with_ppmodel_inputs := g0w0_with_ppmodel_inputs E;
     DdbFile_open := DdbFile_open E;
     phbands_and_dos := phbands_and_dos E;
     Wannier90Input_from_abinit_file := Wannier90Input_from_abinit_file E;
     str_input := str_input E;
     str_multi := str_multi E;
     str_anaddb := str_anaddb E;
     str_wannier90 := str_wannier90 E;
     format_f := format_f E;
     colored := colored E;
     logging_int_attr := logging_int_attr E;
     unicode_upper := unicode_upper E;
     unicode_repr := unicode_repr E;
     argparse_stderr := argparse_stderr E;
     argparse_outcome := argparse_outcome E |}.

(** Abinit returns 0 and leaves an output file whose parser trips over a
    missing key. *)
Definition missing_key_in_output : Scenario :=
  mkScenario ["run.abi"] None (mkValidate 0 "run.log" "run.err" "run.abo")
             (Raise (Exc KeyError "natom")) ("", Ok abispg_options).

(** [abinp.py ebands -m si.cif -p Si.psp8] *)
Definition ebands_mnemonics_options : Options :=
  mkOptions (Some "ebands") "si.cif" 0 "ERROR" None "https://www.materialsproject.org/rest/v2"
            true false 1 (Some ["Si.psp8"]) 50.

End AbinpSetting.

(** * Properties *)

(** ** Stepping through monadic code *)
Module PyFacts.

Lemma bind_ok {S A B} (m : Py S A) (k : A → Py S B) (s s' : S) (a : A) :
  m s = (Ok a, s') → Py.bind m k s = k a s'.
Proof. intros H. unfold Py.bind. rewrite H. reflexivity. Qed.

Lemma bind_raise {S A B} (m : Py S A) (k : A → Py S B) (s s' : S) (e : PyExc) :
  m s = (Raise e, s') → Py.bind m k s = (Raise e, s').
Proof. intros H. unfold Py.bind. rewrite H. reflexivity. Qed.

Lemma bind_ret {S A B} (a : A) (k : A → Py S B) (s : S) :
  Py.bind (Py.ret a) k s = k a s.
Proof. reflexivity. Qed.

End PyFacts.

(** ** The unit-cell registry *)
Module UcellsSpec.
Import Ucells UcellsSetting PyFacts.

Lemma registry_after_import :
  ∃ reg, registry_is heap0 reg ∧ reg !! "silicon" = Some (VRef 10) ∧ reg !! "zno" = Some (VRef 22).
Proof. eexists. repeat split; vm_compute; reflexivity. Qed.

Lemma ucells_is_ref : _UCELLS = VRef 23.
Proof. reflexivity. Qed.

(** Looking up a name the registry does not hold raises [KeyError] and leaves
    the store as it was. *)
Lemma ucell_unknown_name (name : string) (h : list pyobj) (reg : gmap string pyval) :
  registry_is h reg → reg !! name = None →
  ucell name h = (Raise (Exc KeyError name), h).
Proof.
  unfold registry_is. rewrite ucells_is_ref. intros Hreg Hname.
  unfold ucell, bind, getitem. rewrite ucells_is_ref, Hreg, Hname. reflexivity.
Qed.

Lemma ucell_unknown_name_witness :
  ucell "diamond" heap0 = (Raise (Exc KeyError "diamond"), heap0).
Proof.
  apply (ucell_unknown_name "diamond" heap0
           (list_to_map [("silicon", VRef 10%nat); ("zno", VRef 22%nat)])).
  - vm_compute. reflexivity.
  - vm_compute. reflexivity.
Defined.

(** A lookup of a stored name allocates one new dict holding the items of the
    stored one. *)
Lemma ucell_known_name (name : string) (h : list pyobj) (reg d : gmap string pyval) (l : loc) :
  registry_is h reg → reg !! name = Some (VRef l) → h !! l = Some (ODict d) →
  ucell name h = (Ok (VRef (length h)), h ++ [ODict d]).
Proof.
  unfold registry_is. rewrite ucells_is_ref. intros Hreg Hname Hl.
  unfold ucell, bind, getitem, copy, alloc. rewrite ucells_is_ref, Hreg, Hname, Hl. reflexivity.
Qed.

(** Rebinding a key of the record that was returned touches the copy only: the
    next lookup of the same name returns the stored items again. *)
Lemma ucell_rebinding_is_isolated (name key : string) (v : pyval) (h : list pyobj)
    (reg d : gmap string pyval) (l : loc) :
  registry_is h reg → reg !! name = Some (VRef l) → h !! l = Some (ODict d) →
  rebind_key_then_lookup name key v h =
    (Ok (VRef (length h), VRef (S (length h))),
     h ++ [ODict (<[key := v]> d); ODict d]).
Proof.
  intros Hreg Hname Hl.
  assert (Hlt : (l < length h)%nat) by (apply lookup_lt_is_Some; eauto).
  assert (H23 : (23 < length h)%nat).
  { unfold registry_is in Hreg. rewrite ucells_is_ref in Hreg. apply lookup_lt_is_Some; eauto. }
  unfold rebind_key_then_lookup, bind.
  rewrite (ucell_known_name name h reg d l Hreg Hname Hl).
  unfold setitem_key.
  rewrite (list_lookup_middle h [] (ODict d) (length h) eq_refl).
  assert (Hupd : <[length h := ODict (<[key := v]> d)]> (h ++ [ODict d]) = h ++ [ODict (<[key := v]> d)]).
  { rewrite insert_app_r_alt by lia. rewrite Nat.sub_diag. reflexivity. }
  rewrite Hupd.
  rewrite (ucell_known_name name (h ++ [ODict (<[key := v]> d)]) reg d l).
  - rewrite length_app. simpl. rewrite Nat.add_1_r. unfold ret. rewrite <- app_assoc. reflexivity.
  - unfold registry_is in *. rewrite ucells_is_ref in *. rewrite lookup_app_l by lia. exact Hreg.
  - exact Hname.
  - rewrite lookup_app_l by lia. exact Hl.
Qed.

Lemma ucell_rebinding_is_isolated_witness :
  rebind_key_then_lookup "silicon" "natom" (VInt 3) heap0 =
    (Ok (VRef (length heap0), VRef (S (length heap0))),
     heap0 ++ [ODict (<["natom" := VInt 3]>
                        (list_to_map [("ntypat", VInt 1); ("natom", VInt 2); ("typat", VRef 0%nat);
                                      ("znucl", VInt 14); ("acell", VRef 2%nat); ("rprim", VRef 6%nat);
                                      ("xred", VRef 9%nat)]));
               ODict (list_to_map [("ntypat", VInt 1); ("natom", VInt 2); ("typat", VRef 0%nat);
                                   ("znucl", VInt 14); ("acell", VRef 2%nat); ("rprim", VRef 6%nat);
                                   ("xred", VRef 9%nat)])]).
Proof.
  apply (ucell_rebinding_is_isolated "silicon" "natom" (VInt 3) heap0
           (list_to_map [("silicon", VRef 10%nat); ("zno", VRef 22%nat)]) _ 10%nat).
  - vm_compute. reflexivity.
  - vm_compute. reflexivity.
  - vm_compute. reflexivity.
Defined.

(** C2, where the code departs from it.  [ucell] copies the record with
    [dict.copy()], which is shallow: the nested lists of the copy are the
    lists of the registry.  Writing into [typat] of the first record returned
    for ["silicon"] therefore changes what the registry holds, and the record
    returned by the second lookup differs from the data stored at import. *)
Theorem ucell_copy_shares_nested_lists :
  let run := mutate_typat_then_lookup "silicon" heap0 in
  let first := VRef 24 in
  let second := VRef 25 in
  run.1 = Ok (first, second)
  ∧ the_data run.2 (getitem second "typat" run.2).1 = Some (DList [DInt 2; DInt 1])
  ∧ the_data heap0 (getitem _UCELLS "silicon" heap0).1 ≠ the_data run.2 (Ok second)
  ∧ the_data run.2 (getitem _UCELLS "silicon" run.2).1 = the_data run.2 (Ok second).
Proof.
  intros run first second.
  split; [vm_compute; reflexivity|].
  split; [vm_compute; reflexivity|].
  split; [vm_compute; discriminate|].
  vm_compute; reflexivity.
Qed.

(** A lookup never changes an object that exists: it leaves the store as it
    was when it raises, and appends one object to it when it returns. *)
Lemma ucell_only_allocates (name : string) (h : list pyobj) :
  (∀ e, (ucell name h).1 = Raise e → (ucell name h).2 = h)
  ∧ (∀ v, (ucell name h).1 = Ok v →
       v = VRef (length h) ∧ ∃ o, (ucell name h).2 = h ++ [o]).
Proof.
  unfold ucell, Py.bind, getitem, copy, alloc. rewrite ucells_is_ref.
  destruct (h !! 23%nat) as [[items|reg]|]; simpl; try (split; [reflexivity|discriminate]).
  destruct (reg !! name) as [stored|]; simpl; try (split; [reflexivity|discriminate]).
  destruct stored as [z|n d|s|l]; simpl; try (split; [reflexivity|discriminate]).
  destruct (h !! l) as [o|]; simpl; try (split; [reflexivity|discriminate]).
  split; [discriminate|]. intros v [= <-]. split; [reflexivity|]. exists o. reflexivity.
Qed.

(** [ucell_names] returns a new list holding exactly the keys of the
    registry, each once, and these are exactly the names [ucell] accepts. *)
Lemma ucell_names_are_the_accepted_names (h : list pyobj) (reg : gmap string pyval) :
  registry_is h reg → entries_are_objects h reg →
  ∃ items,
    ucell_names h = (Ok (VRef (length h)), h ++ [OList items])
    ∧ NoDup items
    ∧ (∀ name, VStr name ∈ items ↔ is_Some (reg !! name))
    ∧ (∀ name, VStr name ∈ items ↔ ∃ v, (ucell name h).1 = Ok v).
Proof.
  unfold registry_is. rewrite ucells_is_ref. intros Hreg Hobjects.
  assert (Hkeys : ∀ name, VStr name ∈ VStr <$> (map_to_list reg).*1 ↔ is_Some (reg !! name)).
  { intros name. rewrite list_elem_of_fmap. split.
    - intros (k & [= <-] & Hk). apply list_elem_of_fmap in Hk as ([k' v] & -> & Hkv).
      apply elem_of_map_to_list in Hkv. eauto.
    - intros [v Hv]. exists name. split; [reflexivity|].
      apply list_elem_of_fmap. exists (name, v). split; [reflexivity|].
      apply elem_of_map_to_list. exact Hv. }
  exists (VStr <$> (map_to_list reg).*1).
  split; [unfold ucell_names; rewrite ucells_is_ref, Hreg; reflexivity|].
  split.
  { apply NoDup_fmap_2; [intros a b [= ->]; reflexivity|]. apply NoDup_fst_map_to_list. }
  split; [exact Hkeys|].
  intros name. rewrite Hkeys.
  unfold ucell, Py.bind, getitem, copy, alloc. rewrite ucells_is_ref, Hreg.
  destruct (reg !! name) as [stored|] eqn:Hname.
  - destruct (Hobjects name stored Hname) as (l & o & -> & Hl). rewrite Hl. simpl.
    split; eauto.
  - simpl. split; [intros [v Hv]; discriminate|intros [v Hv]; discriminate].
Qed.

Lemma registry_entries_after_import :
  entries_are_objects heap0 (list_to_map [("silicon", VRef 10%nat); ("zno", VRef 22%nat)]).
Proof.
  intros k v Hk. simpl in Hk.
  apply lookup_insert_Some in Hk as [[<- <-]|[_ Hk]].
  { eexists _, _. split; [reflexivity|]. vm_compute. reflexivity. }
  apply lookup_insert_Some in Hk as [[<- <-]|[_ Hk]].
  { eexists _, _. split; [reflexivity|]. vm_compute. reflexivity. }
  rewrite lookup_empty in Hk. discriminate.
Qed.

Lemma ucell_names_are_the_accepted_names_witness :
  ∃ items,
    ucell_names heap0 = (Ok (VRef 24), heap0 ++ [OList items])
    ∧ (VStr "zno" ∈ items ↔ ∃ v, (ucell "zno" heap0).1 = Ok v).
Proof.
  assert (Hreg : registry_is heap0 (list_to_map [("silicon", VRef 10%nat); ("zno", VRef 22%nat)]))
    by (vm_compute; reflexivity).
  destruct (ucell_names_are_the_accepted_names heap0 _ Hreg registry_entries_after_import)
    as (items & Hrun & _ & _ & Haccepted).
  exists items. split; [exact Hrun|]. apply Haccepted.
Defined.

(** Every record the registry hands out after the import is consistent: its
    [typat] and [xred] have [natom] entries, [acell] and [rprim] have three. *)
Lemma registered_cells_are_consistent (name : string) (v : pyval) :
  (ucell name heap0).1 = Ok v → cell_consistent (ucell name heap0).2 v.
Proof.
  assert (Hreg : heap0 !! 23%nat =
                 Some (ODict (<["silicon" := VRef 10%nat]>
                               (<["zno" := VRef 22%nat]> (∅ : gmap string pyval)))))
    by (vm_compute; reflexivity).
  unfold ucell, Py.bind, getitem. rewrite ucells_is_ref, Hreg.
  destruct (decide (name = "silicon")) as [->|Hsi].
  { rewrite lookup_insert_eq. intros [= <-]. exists 2. repeat split; vm_compute; reflexivity. }
  rewrite lookup_insert_ne by congruence.
  destruct (decide (name = "zno")) as [->|Hzno].
  { rewrite lookup_insert_eq. intros [= <-]. exists 2. repeat split; vm_compute; reflexivity. }
  rewrite lookup_insert_ne by congruence. rewrite lookup_empty. discriminate.
Qed.

Lemma registered_cells_are_consistent_witness :
  cell_consistent (ucell "zno" heap0).2 (VRef 24).
Proof. apply (registered_cells_are_consistent "zno" (VRef 24)). reflexivity. Defined.

(** [structure_from_ucell] hands the constructor a copy of the stored record,
    never the record of the registry itself; for a name the registry does not
    hold it raises [KeyError] and the constructor is not run. *)
Lemma structure_from_ucell_passes_a_copy {A} (from_abivars : pyval → Py Heap A)
    (name : string) (h : list pyobj) (reg : gmap string pyval) :
  registry_is h reg →
  (reg !! name = None →
     structure_from_ucell from_abivars name h = (Raise (Exc KeyError name), h))
  ∧ (∀ l d, reg !! name = Some (VRef l) → h !! l = Some (ODict d) →
       (l < length h)%nat
       ∧ structure_from_ucell from_abivars name h =
           from_abivars (VRef (length h)) (h ++ [ODict d])).
Proof.
  intros Hreg. split.
  - intros Hname. unfold structure_from_ucell. apply bind_raise.
    unfold registry_is in Hreg. rewrite ucells_is_ref in Hreg.
    unfold ucell, Py.bind, getitem. rewrite ucells_is_ref, Hreg, Hname. reflexivity.
  - intros l d Hname Hl. split; [apply lookup_lt_is_Some; eauto|].
    unfold structure_from_ucell.
    apply (bind_ok (ucell name) from_abivars h (h ++ [ODict d]) (VRef (length h))).
    apply (ucell_known_name name h reg d l Hreg Hname Hl).
Qed.

Lemma structure_from_ucell_passes_a_copy_witness :
  structure_from_ucell natom_of "diamond" heap0 = (Raise (Exc KeyError "diamond"), heap0)
  ∧ (structure_from_ucell natom_of "silicon" heap0).1 = Ok 2.
Proof.
  assert (Hreg : registry_is heap0 (list_to_map [("silicon", VRef 10%nat); ("zno", VRef 22%nat)]))
    by (vm_compute; reflexivity).
  destruct (structure_from_ucell_passes_a_copy natom_of "diamond" heap0 _ Hreg) as [Hunknown _].
  split; [apply Hunknown; vm_compute; reflexivity|].
  vm_compute. reflexivity.
Defined.

End UcellsSpec.

(** ** The dataframe printer *)
Module PrintingSpec.
Import Printing PrintingSetting PyFacts.

Lemma deref_alive (st : State) (l : loc) (fr : DataFrame) :
  frames st !! l = Some fr → deref (Some l) st = (Ok fr, st).
Proof. intros H. unfold deref. rewrite H. reflexivity. Qed.

Lemma contains_alive (st : State) (l : loc) (fr : DataFrame) (key : string) :
  frames st !! l = Some fr →
  contains (Some l) key st = (Ok (bool_decide (key ∈ df_columns fr)), st).
Proof. intros H. unfold contains. rewrite (bind_ok _ _ _ _ _ (deref_alive st l fr H)). reflexivity. Qed.

(** With [inplace=False] the sorted rows go into a new table. *)
Lemma sort_values_copy (pd : Pandas) (st : State) (l : loc) (fr : DataFrame) (key : string) :
  frames st !! l = Some fr →
  sort_values pd (Some l) key false st =
    match pd_sorted pd key fr with
    | Ok sorted => (Ok (Some (length (frames st))), set_frames (frames st ++ [sorted]) st)
    | Raise e => (Raise e, st)
    end.
Proof.
  intros H. unfold sort_values. rewrite (bind_ok _ _ _ _ _ (deref_alive st l fr H)).
  unfold Py.bind, lift. destruct (pd_sorted pd key fr); reflexivity.
Qed.

(** The title step changes the sink only. *)
Lemma title_step (title : option string) (st : State) :
  (match title with Some t => print t | None => ret tt end) st =
    (Ok tt, mkState (frames st) (display st)
              (match title with Some t => print_to (sink st) t | None => sink st end)).
Proof. destruct title, st; reflexivity. Qed.

(** The body under [option_context], for a table [view] that is alive at [l]. *)
Lemma render_step (pd : Pandas) (precision : Z) (l : loc) (view : DataFrame) (st : State) :
  frames st !! l = Some view →
  ∃ r out,
    render_tail pd precision (Some l) st = (r, mkState (frames st) (display st) out)
    ∧ ∀ text, pd_to_string pd (scoped_options precision view) view = Ok text →
        r = Ok tt ∧ out = print_to (print_to (sink st) text) " ".
Proof.
  intros Hl.
  unfold render_tail, bind, len, keys, ret, option_context, try_finally, str, bind, deref, print, set_display.
  simpl. rewrite !Hl. simpl. rewrite ?Hl.
  fold (scoped_options precision view).
  destruct (pd_to_string pd (scoped_options precision view) view) as [text|e] eqn:Hs.
  - simpl. eexists _, _. split; [reflexivity|].
    intros text' [= <-]. split; reflexivity.
  - simpl. eexists _, _. split; [reflexivity|]. intros text' [=].
Qed.

(** The run of [print_dataframe] on a table that is alive, case by case. *)
Lemma print_dataframe_run (pd : Pandas) (st : State) (frame : loc) (fr : DataFrame)
    (title : option string) (precision : Z) (sortby : option string) :
  frames st !! frame = Some fr →
  let st1 := mkState (frames st) (display st)
               (match title with Some t => print_to (sink st) t | None => sink st end) in
  print_dataframe pd frame title precision sortby st =
    match sortby with
    | Some key =>
        if bool_decide (key ∈ df_columns fr) then
          match pd_sorted pd key fr with
          | Ok sorted =>
              render_tail pd precision (Some (length (frames st)))
                (set_frames (frames st ++ [sorted]) st1)
          | Raise e => (Raise e, st1)
          end
        else render_tail pd precision (Some frame) st1
    | None => render_tail pd precision (Some frame) st1
    end.
Proof.
  intros Hfr st1. unfold print_dataframe.
  rewrite (bind_ok _ _ st _ tt (title_step title st)). fold st1.
  assert (Hfr1 : frames st1 !! frame = Some fr) by exact Hfr.
  destruct sortby as [key|]; [|reflexivity].
  unfold Py.bind at 1.
  rewrite (bind_ok _ _ st1 _ _ (contains_alive st1 frame fr key Hfr1)).
  destruct (bool_decide (key ∈ df_columns fr)); [|reflexivity].
  rewrite (sort_values_copy pd st1 frame fr key Hfr1).
  destruct (pd_sorted pd key fr); reflexivity.
Qed.

(** C9.  [print_dataframe] leaves every table that existed before the call as
    it was, the caller's table among them: sorting, when it happens, builds a
    new table.  The display options of the process are the same after the call
    as before it, however the call ends.  What is displayed is the sorted
    table when a sort key is given and is one of the column labels, and the
    table as given when there is no sort key or the key is not a column. *)
Theorem print_dataframe_frame_effect (pd : Pandas) (st : State) (frame : loc)
    (fr : DataFrame) (title : option string) (precision : Z) (sortby : option string) :
  frames st !! frame = Some fr →
  let out := print_dataframe pd frame title precision sortby st in
  (∃ fresh, frames out.2 = frames st ++ fresh)
  ∧ frames out.2 !! frame = Some fr
  ∧ display out.2 = display st
  ∧ (sortby = None → displays pd title precision fr st out)
  ∧ (∀ key, sortby = Some key → key ∉ df_columns fr → displays pd title precision fr st out)
  ∧ (∀ key sorted, sortby = Some key → key ∈ df_columns fr → pd_sorted pd key fr = Ok sorted →
       displays pd title precision sorted st out).
Proof.
  intros Hfr out.
  pose proof (print_dataframe_run pd st frame fr title precision sortby Hfr) as Hrun.
  cbv zeta in Hrun. fold out in Hrun.
  set (st1 := mkState (frames st) (display st) _) in Hrun.
  assert (Hfr1 : frames st1 !! frame = Some fr) by exact Hfr.
  assert (Hsink : ∀ text, print_to (print_to (sink st1) text) " " = sink_after title text (sink st)).
  { intros text. subst st1. destruct title; reflexivity. }
  assert (Hplain : out = render_tail pd precision (Some frame) st1 →
            (∃ fresh, frames out.2 = frames st ++ fresh)
            ∧ frames out.2 !! frame = Some fr
            ∧ display out.2 = display st
            ∧ displays pd title precision fr st out).
  { intros ->.
    destruct (render_step pd precision frame fr st1 Hfr1) as (r & o & -> & Hshown). simpl.
    split; [exists []; rewrite app_nil_r; reflexivity|].
    split; [exact Hfr|]. split; [reflexivity|].
    intros text Htext. destruct (Hshown text Htext) as [-> ->].
    split; [reflexivity|]. apply Hsink. }
  clearbody out.
  destruct sortby as [key|].
  - destruct (bool_decide (key ∈ df_columns fr)) eqn:Hin.
    + apply bool_decide_eq_true in Hin.
      destruct (pd_sorted pd key fr) as [sorted|e] eqn:Hsorted.
      * set (st2 := set_frames (frames st ++ [sorted]) st1) in Hrun.
        assert (Hnew : frames st2 !! length (frames st) = Some sorted).
        { subst st2. simpl. apply list_lookup_middle. reflexivity. }
        destruct (render_step pd precision (length (frames st)) sorted st2 Hnew)
          as (r & o & Hrender & Hshown).
        rewrite Hrender in Hrun. subst out. simpl.
        split; [exists [sorted]; reflexivity|].
        split; [apply lookup_app_l_Some; exact Hfr|].
        split; [reflexivity|].
        split; [discriminate|].
        split; [intros k [= <-] Hnot; contradiction|].
        intros k s [= <-] _ Hs. assert (s = sorted) as -> by congruence.
        intros text Htext. destruct (Hshown text Htext) as [-> ->].
        split; [reflexivity|]. apply Hsink.
      * subst out. simpl.
        split; [exists []; rewrite app_nil_r; reflexivity|].
        split; [exact Hfr|]. split; [reflexivity|].
        split; [discriminate|].
        split; [intros k [= <-] Hnot; contradiction|].
        intros k s [= <-] _ Hs. congruence.
    + apply bool_decide_eq_false in Hin.
      destruct (Hplain Hrun) as (H1 & H2 & H3 & H4).
      split; [exact H1|]. split; [exact H2|]. split; [exact H3|].
      split; [discriminate|].
      split.
      * intros k [= <-] _. exact H4.
      * intros k s [= <-] Hyes. contradiction.
  - destruct (Hplain Hrun) as (H1 & H2 & H3 & H4).
    split; [exact H1|]. split; [exact H2|]. split; [exact H3|].
    split; [intros _; exact H4|].
    split; intros; discriminate.
Qed.

Lemma print_dataframe_frame_effect_witness :
  let out := print_dataframe demo_pandas 0 (Some "ebands") 6 (Some "a") demo_state in
  frames out.2 !! 0%nat = Some demo_frame
  ∧ display out.2 = display demo_state
  ∧ out.1 = Ok tt
  ∧ sink out.2 =
      String.concat nl ["ebands"; "a b"; "1 2"; "2 0"; "3 1"; " "; ""].
Proof.
  destruct (print_dataframe_frame_effect demo_pandas demo_state 0 demo_frame
              (Some "ebands") 6 (Some "a") eq_refl) as (_ & Hsame & Hopts & _ & _ & Hsorted).
  split; [exact Hsame|]. split; [exact Hopts|].
  apply (Hsorted "a" (mkFrame ["a"; "b"] [[1; 2]; [2; 0]; [3; 1]]) eq_refl
           ltac:(constructor) ltac:(vm_compute; reflexivity)
           (String.concat nl ["a b"; "1 2"; "2 0"; "3 1"])).
  vm_compute. reflexivity.
Defined.

(** When sorting or rendering raises, [print_dataframe] raises the same
    exception; the sink has received the title and nothing else (no part of
    the table, no closing line), and the display options are those in force
    before the call. *)
Lemma print_dataframe_failure (pd : Pandas) (st : State) (frame : loc) (fr : DataFrame)
    (title : option string) (precision : Z) (sortby : option string) (e : PyExc) :
  frames st !! frame = Some fr →
  (view_to_render pd sortby fr = Raise e
   ∨ ∃ view, view_to_render pd sortby fr = Ok view
             ∧ pd_to_string pd (scoped_options precision view) view = Raise e) →
  let out := print_dataframe pd frame title precision sortby st in
  out.1 = Raise e
  ∧ sink out.2 = sink_with_title title (sink st)
  ∧ display out.2 = display st.
Proof.
  intros Hfr Hfail out.
  pose proof (print_dataframe_run pd st frame fr title precision sortby Hfr) as Hrun.
  cbv zeta in Hrun. fold out in Hrun. fold (sink_with_title title (sink st)) in Hrun.
  set (st1 := mkState (frames st) (display st) (sink_with_title title (sink st))) in Hrun.
  assert (Hfr1 : frames st1 !! frame = Some fr) by exact Hfr.
  assert (Htail : ∀ l view st2, frames st2 !! l = Some view → sink st2 = sink st1 →
            display st2 = display st →
            pd_to_string pd (scoped_options precision view) view = Raise e →
            (render_tail pd precision (Some l) st2).1 = Raise e
            ∧ sink (render_tail pd precision (Some l) st2).2 = sink_with_title title (sink st)
            ∧ display (render_tail pd precision (Some l) st2).2 = display st).
  { intros l view st2 Hl Hsink Hdisplay Hrender.
    unfold render_tail, Py.bind, len, keys, Py.ret, option_context, try_finally, str, Py.bind,
      deref, print, set_display.
    simpl. rewrite !Hl. simpl. rewrite ?Hl.
    fold (scoped_options precision view). rewrite Hrender. simpl.
    split; [reflexivity|]. split; [exact Hsink|exact Hdisplay]. }
  clearbody out. subst out. unfold view_to_render in Hfail.
  destruct sortby as [key|].
  - destruct (bool_decide (key ∈ df_columns fr)).
    + destruct (pd_sorted pd key fr) as [sorted|e'].
      * destruct Hfail as [Hfail|(view & [= <-] & Hrender)]; [discriminate|].
        apply (Htail (length (frames st)) sorted); try reflexivity; [|exact Hrender].
        simpl. apply list_lookup_middle. reflexivity.
      * destruct Hfail as [[= <-]|(view & Hview & _)]; [|discriminate].
        simpl. repeat split; reflexivity.
    + destruct Hfail as [Hfail|(view & [= <-] & Hrender)]; [discriminate|].
      apply (Htail frame fr st1); try reflexivity; assumption.
  - destruct Hfail as [Hfail|(view & [= <-] & Hrender)]; [discriminate|].
    apply (Htail frame fr st1); try reflexivity; assumption.
Qed.

Lemma print_dataframe_failure_witness :
  let out := print_dataframe broken_pandas 0 (Some "ebands") 6 None demo_state in
  out.1 = Raise (Exc ValueError "cannot render")
  ∧ sink out.2 = "ebands" +:+ nl
  ∧ display out.2 = display demo_state.
Proof.
  apply (print_dataframe_failure broken_pandas demo_state 0 demo_frame (Some "ebands") 6 None
           (Exc ValueError "cannot render") eq_refl).
  right. exists demo_frame. split; reflexivity.
Defined.

End PrintingSpec.

(** ** The command-line front-end *)
Module AbinpSpec.
Import Abinp AbinpSetting PyFacts.

(** *** Stepping lemmas *)

Lemma call_run {A} (c : ExtCall) (answer : PyResult A) (w : World) :
  call c answer w = (answer, after_calls [c] w).
Proof. reflexivity. Qed.

Lemma after_calls_app (cs ds : list ExtCall) (w : World) :
  after_calls ds (after_calls cs w) = after_calls (cs ++ ds) w.
Proof. unfold after_calls. simpl. rewrite app_assoc. reflexivity. Qed.

(** *** Structure resolution *)

(** C3.  [get_structure] is a three-way case analysis.  When the path exists
    the structure is read from the file and no remote lookup is made, whether
    or not the path starts with [mp-]; otherwise, when the path starts with
    [mp-], the structure is fetched remotely with the API key and the endpoint
    of the options; otherwise a [TypeError] naming the path is raised. *)
Theorem get_structure_cases (E : Env) (o : Options) (w : World) :
  (os_path_exists E (filepath o) = true →
     get_structure E o w =
       (Structure_from_file E (filepath o),
        after_calls [CallPathExists (filepath o); CallStructureFromFile (filepath o)] w)
     ∧ remote_lookups (get_structure E o w).2 = remote_lookups w)
  ∧ (os_path_exists E (filepath o) = false → String.prefix "mp-" (filepath o) = true →
     get_structure E o w =
       (Structure_from_mpid E (filepath o) true (mapi_key o) (endpoint o),
        after_calls [CallPathExists (filepath o);
                     CallStructureFromMpid (filepath o) true (mapi_key o) (endpoint o)] w))
  ∧ (os_path_exists E (filepath o) = false → String.prefix "mp-" (filepath o) = false →
     get_structure E o w =
       (Raise (Exc TypeError ("Don't know how to extract structure object from " +:+ filepath o)),
        after_calls [CallPathExists (filepath o)] w)).
Proof.
  unfold get_structure.
  rewrite (bind_ok _ _ _ _ _ (call_run (CallPathExists (filepath o)) _ w)).
  split; [|split].
  - intros ->. rewrite call_run, after_calls_app. split; [reflexivity|].
    unfold remote_lookups. simpl. rewrite filter_app. simpl.
    rewrite !filter_cons_False by (simpl; discriminate). rewrite filter_nil.
    apply app_nil_r.
  - intros -> ->. rewrite call_run, after_calls_app. reflexivity.
  - intros -> ->. reflexivity.
Qed.

(** A local file whose name starts with [mp-] wins over the remote lookup. *)
Lemma get_structure_cases_witness :
  let E := demo_env (mkScenario ["mp-149"] None (mkValidate 0 "" "" "") (Ok (mkOutput (StructureObj 1)))
                                ("", Raise (SystemExit 2))) in
  let o := parser_defaults "ebands" "mp-149" in
  String.prefix "mp-" (filepath o) = true
  ∧ get_structure E o world0 =
      (Ok (StructureObj 1),
       mkWorld "" "" [CallPathExists "mp-149"; CallStructureFromFile "mp-149"] []).
Proof.
  intros E o. split; [reflexivity|].
  destruct (get_structure_cases E o world0) as [Hfile _].
  destruct (Hfile eq_refl) as [Hrun _]. exact Hrun.
Defined.

(** *** Pseudopotential tables *)

Lemma get_pseudotable_files (E : Env) (o : Options) (w : World) (files : list string) :
  pseudos o = Some files →
  get_pseudotable E o w = (PseudoTable_as_table E files, after_calls [CallAsTable files] w).
Proof. intros H. unfold get_pseudotable. rewrite H. apply call_run. Qed.

(** C1, as the code has it.  With the PAW flag set: when a list of
    pseudopotential files was given, the table is built from the list and the
    flag is not looked at; when no list was given and [pseudo_dojo] can be
    imported and its tables built, the call fails with
    [NotImplementedError("PAW table is missing")]; when no list was given and
    the import fails with an [ImportError], two lines of advice are printed and
    that [ImportError] is raised again. *)
Theorem get_pseudotable_paw (E : Env) (o : Options) (w : World) :
  usepaw o = true →
  (∀ files, pseudos o = Some files →
     get_pseudotable E o w = (PseudoTable_as_table E files, after_calls [CallAsTable files] w))
  ∧ (∀ tables, pseudos o = None → import_pseudo_dojo E = None → OfficialTables E = Ok tables →
     get_pseudotable E o w =
       (Raise (Exc NotImplementedError "PAW table is missing"),
        after_calls [CallImportPseudoDojo; CallOfficialTables] w))
  ∧ (∀ exc, pseudos o = None → import_pseudo_dojo E = Some exc →
     is_instance ImportError exc = true →
     get_pseudotable E o w =
       (Raise exc,
        mkWorld (print_to (print_to (stdout w)
                   "PseudoDojo package not installed. Please install it with `pip install pseudo_dojo`")
                   "or use `--pseudos FILE_LIST` to specify the pseudopotentials to use.")
                (stderr w) (trace w ++ [CallImportPseudoDojo]) (heap w))).
Proof.
  intros Hpaw. split; [|split].
  - intros files Hfiles. apply get_pseudotable_files. exact Hfiles.
  - intros tables Hnone Himport Htables. unfold get_pseudotable. rewrite Hnone, Himport, Htables, Hpaw.
    unfold Py.bind, try_except. rewrite !call_run. simpl.
    unfold after_calls. simpl. rewrite <- app_assoc. reflexivity.
  - intros exc Hnone Himport Hclass. unfold get_pseudotable. rewrite Hnone, Himport.
    unfold Py.bind, try_except. rewrite !call_run. rewrite Hclass. reflexivity.
Qed.

Lemma get_pseudotable_paw_witness :
  get_pseudotable (demo_env installed) paw_options world0 =
    (Raise (Exc NotImplementedError "PAW table is missing"),
     mkWorld "" "" [CallImportPseudoDojo; CallOfficialTables] []).
Proof.
  destruct (get_pseudotable_paw (demo_env installed) paw_options world0 eq_refl) as (_ & H & _).
  exact (H _ eq_refl eq_refl eq_refl).
Defined.

(** C1 as stated fails.  With the PAW flag set and a list of pseudopotential
    files, [get_pseudotable] returns the table built from the list; with the
    flag set, no list and [pseudo_dojo] not installed, it raises the
    [ImportError].  Neither is a [NotImplementedError]. *)
Lemma get_pseudotable_paw_not_always_unsupported :
  usepaw paw_options_with_files = true
  ∧ get_pseudotable (demo_env installed) paw_options_with_files world0 =
      (Ok (PseudoTableObj 1), mkWorld "" "" [CallAsTable ["Si.psp8"]] [])
  ∧ usepaw paw_options = true
  ∧ (get_pseudotable (demo_env not_installed) paw_options world0).1 =
      Raise (Exc ImportError "No module named pseudo_dojo").
Proof. split; [reflexivity|]. split; [reflexivity|]. split; reflexivity. Qed.

(** *** Inputs built from a file *)

Lemma list_getitem_one_based {S A} (xs : list A) (j : Z) (s : S) :
  1 ≤ j ≤ Z.of_nat (length xs) →
  ∃ x, xs !! Z.to_nat (j - 1) = Some x ∧ list_getitem xs (j - 1) s = (Ok x, s).
Proof.
  intros Hj. unfold list_getitem, norm_index.
  destruct (decide (0 ≤ j - 1 < Z.of_nat (length xs))) as [_|Hno]; [|lia].
  destruct (lookup_lt_is_Some_2 xs (Z.to_nat (j - 1))) as [x Hx]; [lia|].
  exists x. rewrite Hx. split; reflexivity.
Qed.

(** C10.  [build_abinit_input_from_file] takes dataset number [jdtset], counted
    from one, of the file's datasets ([jdtset] is 1 unless given); it adds the
    variable [jdtset] to the variables of that dataset exactly when [ndtset]
    is not 1; and the variables the handler passes are applied last, so they
    win over those of the file. *)
Theorem build_abinit_input_from_file_vars (E : Env) (o : Options)
    (abivars : gmap string AbiVal) (w w1 : World) (abifile : AbinitInputFile) (p : PseudoTable) :
  AbinitInputFile_read E (filepath o) = Ok abifile →
  get_pseudotable E o (after_calls [CallAbinitInputFile (filepath o)] w) = (Ok p, w1) →
  1 ≤ jdtset o ≤ Z.of_nat (length (abifile_datasets abifile)) →
  (∀ cmd path, jdtset (parser_defaults cmd path) = 1)
  ∧ ∃ vars w2,
      abifile_datasets abifile !! Z.to_nat (jdtset o - 1) = Some vars
      ∧ build_abinit_input_from_file E o abivars w = (Ok (length (heap w1)), w2)
      ∧ heap w2 = heap w1 ++ [mkInput (abifile_structure abifile) p
                                (abivars ∪ selected_vars abifile (jdtset o) vars) false]
      ∧ (abifile_ndtset abifile ≠ 1 →
           selected_vars abifile (jdtset o) vars = <["jdtset" := AInt (jdtset o)]> vars)
      ∧ (abifile_ndtset abifile = 1 → selected_vars abifile (jdtset o) vars = vars)
      ∧ (∀ k v, abivars !! k = Some v →
           (abivars ∪ selected_vars abifile (jdtset o) vars) !! k = Some v)
      ∧ (∀ k, abivars !! k = None →
           (abivars ∪ selected_vars abifile (jdtset o) vars) !! k =
             selected_vars abifile (jdtset o) vars !! k).
Proof.
  intros Hread Hpseudo Hj. split; [reflexivity|].
  destruct (list_getitem_one_based (abifile_datasets abifile) (jdtset o) w1 Hj) as (vars & Hvars & Hget).
  exists vars.
  unfold build_abinit_input_from_file.
  rewrite (bind_ok _ _ _ _ _ (eq_trans (call_run _ _ w) (f_equal (λ r, (r, _)) Hread))).
  rewrite (bind_ok _ _ _ _ _ Hpseudo).
  rewrite (bind_ok _ _ _ _ _ Hget).
  unfold selected_vars.
  destruct (bool_decide (abifile_ndtset abifile ≠ 1)) eqn:Hnd.
  - apply bool_decide_eq_true in Hnd.
    eexists. split; [exact Hvars|]. split; [reflexivity|]. simpl.
    split; [reflexivity|]. split; [reflexivity|]. split; [intros; contradiction|].
    split.
    + intros k v Hk. apply lookup_union_Some_l. exact Hk.
    + intros k Hk. apply lookup_union_r. exact Hk.
  - apply bool_decide_eq_false in Hnd.
    eexists. split; [exact Hvars|]. split; [reflexivity|]. simpl.
    split; [reflexivity|]. split; [intros Hne; exfalso; apply Hnd; exact Hne|].
    split; [reflexivity|].
    split.
    + intros k v Hk. apply lookup_union_Some_l. exact Hk.
    + intros k Hk. apply lookup_union_r. exact Hk.
Qed.

(** [abinp.py abispg run.abi -p Si.psp8]: the file says [chkprim 1], the
    handler passes [chkprim=0], and the input that is built holds [chkprim 0];
    the file holds two datasets, so [jdtset 1] is added. *)
Lemma build_abinit_input_from_file_vars_witness :
  let o := mkOptions (Some "abispg") "run.abi" 0 "ERROR" None "" false false 1 (Some ["Si.psp8"]) 50 in
  ∃ w2,
    build_abinit_input_from_file (demo_env installed) o
      (<["chkprim" := AInt 0]> (<["mem_test" := AInt 0]> ∅)) world0 = (Ok 0%nat, w2)
    ∧ inp_vars <$> heap w2 =
        [ list_to_map [("chkprim", AInt 0); ("mem_test", AInt 0); ("jdtset", AInt 1); ("ecut", AInt 8)] ].
Proof.
  intros o.
  destruct (build_abinit_input_from_file_vars (demo_env installed) o
              (<["chkprim" := AInt 0]> (<["mem_test" := AInt 0]> ∅)) world0
              (mkWorld "" "" [CallAbinitInputFile "run.abi"; CallAsTable ["Si.psp8"]] [])
              demo_abifile (PseudoTableObj 1) eq_refl eq_refl ltac:(simpl; lia))
    as (_ & vars & w2 & Hvars & Hrun & Hheap & _).
  exists w2. split; [exact Hrun|].
  rewrite Hheap. simpl in Hvars. injection Hvars as <-.
  vm_compute. reflexivity.
Defined.

(** *** Finalize *)

Lemma append_assoc (a b c : string) : (a +:+ b) +:+ c = a +:+ (b +:+ c).
Proof.
  induction a as [|x a IH]; [reflexivity|].
  change (String x ((a +:+ b) +:+ c) = String x (a +:+ (b +:+ c))). f_equal. exact IH.
Qed.

Lemma append_empty_r (a : string) : a +:+ "" = a.
Proof.
  induction a as [|x a IH]; [reflexivity|].
  change (String x (a +:+ "") = String x a). f_equal. exact IH.
Qed.

Lemma print_to_append (a b s : string) : print_to (a +:+ b) s = a +:+ print_to b s.
Proof. unfold print_to. apply append_assoc. Qed.

Lemma foldl_print_to (out acc : string) (lines : list string) :
  foldl print_to (out +:+ acc) lines = out +:+ foldl print_to acc lines.
Proof.
  revert acc. induction lines as [|l lines IH]; intros acc; simpl; [reflexivity|].
  rewrite print_to_append. apply IH.
Qed.

Lemma printed_after (out : string) (lines : list string) :
  foldl print_to out lines = out +:+ printed lines.
Proof.
  unfold printed. rewrite <- (append_empty_r out) at 1. apply foldl_print_to.
Qed.

Lemma set_mnemonics_run (obj : Deck) (w : World) :
  has_set_mnemonics obj = true →
  set_mnemonics obj true w =
    (Ok tt, mkWorld (stdout w) (stderr w) (trace w)
              (foldr (λ l h, alter (with_mnemonics true) l h) (heap w) (deck_inputs obj))).
Proof. destruct obj; try discriminate; reflexivity. Qed.

Lemma alive_after_mnemonics (ls : list loc) (h : list AbinitInput) (l : loc) :
  is_Some (h !! l) → is_Some (foldr (λ l h, alter (with_mnemonics true) l h) h ls !! l).
Proof.
  intros Hl. induction ls as [|l0 rest IH]; simpl; [exact Hl|].
  apply lookup_lt_is_Some. rewrite length_alter. apply lookup_lt_is_Some. exact IH.
Qed.

Lemma deck_alive_annotated (o : Options) (obj : Deck) (h : list AbinitInput) :
  deck_alive obj h → deck_alive obj (annotated o obj h).
Proof.
  unfold annotated. destruct (mnemonics o); [|tauto].
  destruct obj as [l|ls|a|x]; simpl; try tauto.
  apply (alive_after_mnemonics [l]).
Qed.

Lemma deck_str_run (E : Env) (obj : Deck) (w : World) :
  deck_alive obj (heap w) → deck_str E obj w = (Ok (rendering E obj (heap w)), w).
Proof.
  destruct obj as [l|ls|a|x]; simpl; intros Halive; try reflexivity.
  destruct Halive as [inp Hinp]. unfold deck_str. rewrite Hinp. reflexivity.
Qed.

(** [finalize] on a deck that exists and whose class defines [set_mnemonics],
    or without [--mnemonics]: it returns 0, writes the rendering, a blank
    separator and the three lines, and touches neither standard error nor the
    outside. *)
Lemma finalize_run (E : Env) (obj : Deck) (o : Options) (w : World) :
  deck_alive obj (heap w) →
  mnemonics o = false ∨ has_set_mnemonics obj = true →
  finalize E obj o w =
    (Ok 0, mkWorld (stdout w +:+ finalize_output (rendering E obj (annotated o obj (heap w))))
                   (stderr w) (trace w) (annotated o obj (heap w))).
Proof.
  intros Halive Hcan. unfold finalize.
  assert (Hstep : (if mnemonics o then set_mnemonics obj true else ret tt) w =
                  (Ok tt, mkWorld (stdout w) (stderr w) (trace w) (annotated o obj (heap w)))).
  { unfold annotated. destruct (mnemonics o).
    - destruct Hcan as [Hno|Hcan]; [discriminate|]. apply set_mnemonics_run. exact Hcan.
    - destruct w. reflexivity. }
  rewrite (bind_ok _ _ _ _ _ Hstep).
  rewrite (bind_ok _ _ _ _ _
             (deck_str_run E obj (mkWorld (stdout w) (stderr w) (trace w) (annotated o obj (heap w)))
                (deck_alive_annotated o obj (heap w) Halive))).
  unfold Py.bind, print, Py.ret, finalize_output. simpl. rewrite <- printed_after. reflexivity.
Qed.

(** [finalize] with [--mnemonics] on a deck whose class has no
    [set_mnemonics]: the attribute lookup raises before anything is printed. *)
Lemma finalize_without_the_method (E : Env) (o : Options) (w : World) :
  mnemonics o = true →
  (∀ a, finalize E (DeckAnaddb a) o w =
          (Raise (Exc AttributeError "'AnaddbInput' object has no attribute 'set_mnemonics'"), w))
  ∧ (∀ x, finalize E (DeckWannier x) o w =
          (Raise (Exc AttributeError "'Wannier90Input' object has no attribute 'set_mnemonics'"), w)).
Proof. intros Hm. unfold finalize. rewrite Hm. split; intros; reflexivity. Qed.

(** What [finalize] writes, character by character. *)
Lemma finalize_output_text (text : string) :
  finalize_output text =
    text +:+ nl +:+ nl +:+ nl
      +:+ "# This input file template has been automatically generated by the abinp.py script."
      +:+ nl
      +:+ "# Several input parameters have default values that might not be suitable for you particular calculation."
      +:+ nl
      +:+ "# Please check the input file, make sure you understand what's happening and modify the template according to your needs"
      +:+ nl.
Proof.
  unfold finalize_output, printed. simpl. unfold print_to. simpl.
  rewrite !append_assoc. reflexivity.
Qed.

(** [main] up to the dispatch, when the command line parses, names a command
    and gives a log level that [logging] knows. *)
Lemma main_dispatch (E : Env) (w : World) (o : Options) (level : Z) :
  argparse_outcome E = Ok o → no_command o = false →
  logging_int_attr E (upper E (loglevel o)) = Some level →
  main E w =
    (let! handler := globals_getitem E ("abinp_" +:+ default "" (command o)) in handler o)
      (mkWorld (stdout w) (stderr w +:+ argparse_stderr E)
               (trace w ++ [CallParseArgs; CallLoggingBasicConfig level]) (heap w)).
Proof.
  intros Hparse Hcmd Hlevel. unfold main.
  assert (Hp : try_except (parse_args E) is_Exception (λ _, show_examples_and_exit None 1) w =
               (Ok o, mkWorld (stdout w) (stderr w +:+ argparse_stderr E)
                              (trace w ++ [CallParseArgs]) (heap w))).
  { unfold try_except, parse_args, Py.bind, lift. simpl. rewrite Hparse. reflexivity. }
  rewrite (bind_ok _ _ _ _ _ Hp). rewrite Hcmd, bind_ret, Hlevel, bind_ret.
  unfold Py.bind at 1, log_call at 1. simpl. rewrite <- app_assoc. reflexivity.
Qed.

Lemma globals_gs (E : Env) (w : World) :
  globals_getitem E ("abinp_" +:+ "gs") w = (Ok (abinp_gs E), w).
Proof. reflexivity. Qed.

(** C7, where the code departs from it.  [finalize] calls
    [obj.set_mnemonics(True)] on whatever deck it is handed once [--mnemonics]
    is given, and the parser offers [--mnemonics] to every sub-command; but
    the decks of [abinp_anaph] and [abinp_wannier90], an [AnaddbInput] and a
    [Wannier90Input], have no such method.  So [abinp.py anaph out_DDB -m]
    ends in an [AttributeError] raised by [finalize], with nothing printed and
    exit status 1, and so does [wannier90] with [-m]; the same [anaph] run
    without [-m], and [gs] with [-m], print the deck and the three lines and
    return 0. *)
Theorem finalize_fails_without_set_mnemonics :
  let E := demo_env (run_of anaph_mnemonics_options 0) in
  mnemonics anaph_mnemonics_options = true
  ∧ main E world0 =
      (Raise (Exc AttributeError "'AnaddbInput' object has no attribute 'set_mnemonics'"),
       mkWorld "" "" [CallParseArgs; CallLoggingBasicConfig 40; CallDdbFile "out_DDB";
                      CallFactory "AnaddbInput.phbands_and_dos" phbands_and_dos_kwargs] [])
  ∧ exit_status (main E world0).1 = 1
  ∧ abinp_wannier90 E wannier90_mnemonics_options world0 =
      (Raise (Exc AttributeError "'Wannier90Input' object has no attribute 'set_mnemonics'"),
       mkWorld "" "" [CallWannier90FromFile "run.abo"] [])
  ∧ (abinp_anaph E (parser_defaults "anaph" "out_DDB") world0).1 = Ok 0
  ∧ stdout (abinp_anaph E (parser_defaults "anaph" "out_DDB") world0).2 =
      String.concat nl
        ["anaddb"; ""; "";
         "# This input file template has been automatically generated by the abinp.py script.";
         "# Several input parameters have default values that might not be suitable for you particular calculation.";
         "# Please check the input file, make sure you understand what's happening and modify the template according to your needs";
         ""]
  ∧ (abinp_gs E gs_mnemonics_options world0).1 = Ok 0
  ∧ (inp_mnemonics <$> heap (abinp_gs E gs_mnemonics_options world0).2) = [true].
Proof.
  intros E.
  split; [reflexivity|].
  split; [vm_compute; reflexivity|]. split; [vm_compute; reflexivity|].
  split; [vm_compute; reflexivity|]. split; [vm_compute; reflexivity|].
  split; [vm_compute; reflexivity|]. split; vm_compute; reflexivity.
Qed.

(** [finalize] on a deck that exists and whose class defines [set_mnemonics]
    (an [AbinitInput] or a [MultiDataset]), or on any deck without
    [--mnemonics]: it returns 0 and appends to standard output the rendering
    of the deck, the line of [print("\n")] and then the three fixed lines,
    character by character.  Hence the [gs] sub-command, run from [main] on a
    structure file that can be read and with a list of pseudopotential files,
    ends with status 0 and that output, with or without [--mnemonics]. *)
Lemma finalize_prints_deck_and_disclaimer (E : Env) (o : Options) :
  (∀ obj w, deck_alive obj (heap w) → mnemonics o = false ∨ has_set_mnemonics obj = true →
     finalize E obj o w =
       (Ok 0,
        mkWorld (stdout w +:+ rendering E obj (annotated o obj (heap w)) +:+ nl +:+ nl +:+ nl
                   +:+ "# This input file template has been automatically generated by the abinp.py script."
                   +:+ nl
                   +:+ "# Several input parameters have default values that might not be suitable for you particular calculation."
                   +:+ nl
                   +:+ "# Please check the input file, make sure you understand what's happening and modify the template according to your needs"
                   +:+ nl)
                (stderr w) (trace w) (annotated o obj (heap w))))
  ∧ (∀ w files s t gsinp h1 level,
       argparse_outcome E = Ok o → command o = Some "gs" →
       logging_int_attr E (upper E (loglevel o)) = Some level →
       Structure_from_file E (filepath o) = Ok s →
       pseudos o = Some files → PseudoTable_as_table E files = Ok t →
       gs_input E s t gs_input_kwargs (heap w) = (Ok gsinp, h1) → is_Some (h1 !! gsinp) →
       ∃ w',
         main E w = (Ok 0, w') ∧ exit_status (main E w).1 = 0
         ∧ stdout w' =
             stdout w +:+ rendering E (DeckInput gsinp) (heap w') +:+ nl +:+ nl +:+ nl
               +:+ "# This input file template has been automatically generated by the abinp.py script."
               +:+ nl
               +:+ "# Several input parameters have default values that might not be suitable for you particular calculation."
               +:+ nl
               +:+ "# Please check the input file, make sure you understand what's happening and modify the template according to your needs"
               +:+ nl).
Proof.
  split.
  - intros obj w Halive Hcan.
    rewrite (finalize_run E obj o w Halive Hcan), finalize_output_text. reflexivity.
  - intros w files s t gsinp h1 level Hparse Hcmd Hlevel Hfile Hfiles Htable Hgs Halive.
    assert (Hverb : no_command o = false) by (unfold no_command; rewrite Hcmd; reflexivity).
    assert (Hmain : ∃ w', main E w = (Ok 0, w')
                          ∧ stdout w' = stdout w +:+ finalize_output
                                                       (rendering E (DeckInput gsinp) (heap w'))).
    { rewrite (main_dispatch E w o level Hparse Hverb Hlevel). rewrite Hcmd. simpl default.
      rewrite (bind_ok _ _ _ _ _ (globals_gs E _)).
      unfold abinp_gs.
      rewrite (bind_ok _ _ _ _ _ (eq_trans (call_run _ _ _) (f_equal (λ r, (r, _)) Hfile))).
      rewrite (bind_ok _ _ _ _ _ (eq_trans (get_pseudotable_files E o _ files Hfiles)
                                     (f_equal (λ r, (r, _)) Htable))).
      unfold Py.bind at 1. unfold call_heap, Py.bind at 1. simpl. rewrite Hgs.
      match goal with |- context [finalize E (DeckInput gsinp) o ?w1] =>
        rewrite (finalize_run E (DeckInput gsinp) o w1 Halive (or_intror eq_refl))
      end.
      eexists. split; reflexivity. }
    destruct Hmain as (w' & Hmain & Hstdout).
    exists w'. rewrite Hmain. split; [reflexivity|]. split; [reflexivity|].
    rewrite Hstdout, finalize_output_text. reflexivity.
Qed.

Lemma finalize_prints_deck_and_disclaimer_witness :
  ∃ w', main (demo_env gs_run) world0 = (Ok 0, w')
        ∧ exit_status (main (demo_env gs_run) world0).1 = 0
        ∧ stdout w' =
            String.concat nl
              ["ecut 8"; ""; "";
               "# This input file template has been automatically generated by the abinp.py script.";
               "# Several input parameters have default values that might not be suitable for you particular calculation.";
               "# Please check the input file, make sure you understand what's happening and modify the template according to your needs";
               ""].
Proof.
  destruct (finalize_prints_deck_and_disclaimer (demo_env gs_run) gs_options) as [_ Hgs].
  destruct (Hgs world0 ["Si.psp8"] (StructureObj 1) (PseudoTableObj 1) 0%nat
              [demo_input (StructureObj 1) (PseudoTableObj 1) 8] 40
              eq_refl eq_refl eq_refl eq_refl eq_refl eq_refl eq_refl (mk_is_Some _ _ eq_refl))
    as (w' & Hmain & Hexit & Hstdout).
  exists w'. split; [exact Hmain|]. split; [exact Hexit|].
  assert (Hw : (Ok 0, w') = main (demo_env gs_run) world0) by (symmetry; exact Hmain).
  vm_compute in Hw. injection Hw as ->. vm_compute. reflexivity.
Defined.

(** *** The space-group handler *)

(** [abinp_abispg] once the input is built and Abinit has answered. *)
Lemma abinp_abispg_validated (E : Env) (o : Options) (w w1 : World) (inp : loc)
    (obj : AbinitInput) (r : ValidateResult) :
  build_abinit_input_from_file E o abispg_vars w = (Ok inp, w1) →
  heap w1 !! inp = Some obj →
  abivalidate E obj = Ok r →
  abinp_abispg E o w =
    (if bool_decide (retcode r ≠ 0) then
       do! print2 (log_file r) (stderr_file r) in
       ret (retcode r)
     else
       let! parsed :=
         try_except
           (let! out := call (CallAbiopen (output_file_path r)) (abiopen E (output_file_path r)) in
            ret (Some out))
           is_Exception
           (λ exc,
              do! print2 "Error while trying to parse output file:" (output_file_path r) in
              do! print2 ("Exception:" +:+ nl) (exc_str (repr E) exc) in
              ret None) in
       match parsed with
       | None => ret 1
       | Some out =>
           let! summary := call (CallSpgetSummary (verbose o))
                                (spget_summary E (initial_structure out) (verbose o)) in
           do! print summary in
           do! (if bool_decide (verbose o ≠ 0) then
                  let! text := call (CallSpacegroupToString (verbose o))
                                    (abi_spacegroup_to_string E (initial_structure out) (verbose o)) in
                  print text
                else ret tt) in
           ret 0
       end) (after_calls [CallAbivalidate inp] w1).
Proof.
  intros Hbuild Hobj Hvalid. unfold abinp_abispg. fold abispg_vars.
  rewrite (bind_ok _ _ _ _ _ Hbuild).
  assert (Hread : read_input inp w1 = (Ok obj, w1)) by (unfold read_input; rewrite Hobj; reflexivity).
  rewrite (bind_ok _ _ _ _ _ Hread).
  rewrite (bind_ok _ _ _ _ _ (eq_trans (call_run _ _ _) (f_equal (λ x, (x, _)) Hvalid))).
  reflexivity.
Qed.

Lemma print2_to_text (out a b : string) : print2_to out a b = out +:+ a +:+ " " +:+ b +:+ nl.
Proof. unfold print2_to, print_to. rewrite !append_assoc. reflexivity. Qed.

(** C8, as the code has it.  Once Abinit has run: a nonzero return code is
    returned as it is, after the paths of the log and error files are printed,
    and the output file is not opened.  With return code 0, an exception of a
    class derived from [Exception] raised while the output file is parsed is
    caught: the path and [str(exc)] are printed ([repr] of the key for a
    [KeyError]) and 1 is returned; any other exception goes through.  With
    return code 0 and an output file that parses, the calls that compute the
    summary are outside the [try]: when they return, the summary is printed
    and 0 is returned, and when one of them raises, its exception leaves the
    handler. *)
Theorem abinp_abispg_return_codes (E : Env) (o : Options) (w w1 : World) (inp : loc)
    (obj : AbinitInput) (r : ValidateResult) :
  build_abinit_input_from_file E o abispg_vars w = (Ok inp, w1) →
  heap w1 !! inp = Some obj →
  abivalidate E obj = Ok r →
  (retcode r ≠ 0 →
     abinp_abispg E o w =
       (Ok (retcode r),
        mkWorld (stdout w1 +:+ log_file r +:+ " " +:+ stderr_file r +:+ nl) (stderr w1)
                (trace w1 ++ [CallAbivalidate inp]) (heap w1)))
  ∧ (∀ cls msg, retcode r = 0 → abiopen E (output_file_path r) = Raise (Exc cls msg) →
     abinp_abispg E o w =
       (Ok 1,
        mkWorld (stdout w1 +:+ "Error while trying to parse output file:" +:+ " "
                   +:+ output_file_path r +:+ nl
                   +:+ "Exception:" +:+ nl +:+ " "
                   +:+ (if bool_decide (cls = KeyError) then repr E msg else msg) +:+ nl)
                (stderr w1)
                (trace w1 ++ [CallAbivalidate inp; CallAbiopen (output_file_path r)]) (heap w1)))
  ∧ (∀ exc, retcode r = 0 → abiopen E (output_file_path r) = Raise exc →
     is_Exception exc = false →
     abinp_abispg E o w =
       (Raise exc,
        mkWorld (stdout w1) (stderr w1)
                (trace w1 ++ [CallAbivalidate inp; CallAbiopen (output_file_path r)]) (heap w1)))
  ∧ (∀ out, retcode r = 0 → abiopen E (output_file_path r) = Ok out →
     abinp_abispg E o w =
       match spget_summary E (initial_structure out) (verbose o) with
       | Raise exc =>
           (Raise exc,
            mkWorld (stdout w1) (stderr w1)
                    (trace w1 ++ [CallAbivalidate inp; CallAbiopen (output_file_path r);
                                  CallSpgetSummary (verbose o)]) (heap w1))
       | Ok summary =>
           if bool_decide (verbose o = 0) then
             (Ok 0,
              mkWorld (stdout w1 +:+ summary +:+ nl) (stderr w1)
                      (trace w1 ++ [CallAbivalidate inp; CallAbiopen (output_file_path r);
                                    CallSpgetSummary (verbose o)]) (heap w1))
           else
             match abi_spacegroup_to_string E (initial_structure out) (verbose o) with
             | Ok text =>
                 (Ok 0,
                  mkWorld (stdout w1 +:+ summary +:+ nl +:+ text +:+ nl) (stderr w1)
                          (trace w1 ++ [CallAbivalidate inp; CallAbiopen (output_file_path r);
                                        CallSpgetSummary (verbose o);
                                        CallSpacegroupToString (verbose o)]) (heap w1))
             | Raise exc =>
                 (Raise exc,
                  mkWorld (stdout w1 +:+ summary +:+ nl) (stderr w1)
                          (trace w1 ++ [CallAbivalidate inp; CallAbiopen (output_file_path r);
                                        CallSpgetSummary (verbose o);
                                        CallSpacegroupToString (verbose o)]) (heap w1))
             end
       end).
Proof.
  intros Hbuild Hobj Hvalid.
  rewrite (abinp_abispg_validated E o w w1 inp obj r Hbuild Hobj Hvalid).
  split; [|split; [|split]].
  - intros Hrc. rewrite bool_decide_eq_true_2 by exact Hrc.
    unfold Py.bind, print2, Py.ret, after_calls. simpl. rewrite print2_to_text. reflexivity.
  - intros cls msg Hrc Hopen. rewrite bool_decide_eq_false_2 by (intros Hne; apply Hne; exact Hrc).
    unfold Py.bind at 1, try_except. unfold Py.bind at 1. rewrite call_run, Hopen.
    unfold Py.bind, print2, Py.ret, after_calls. simpl. rewrite <- app_assoc.
    rewrite !print2_to_text, !append_assoc.
    destruct cls; reflexivity.
  - intros exc Hrc Hopen Hexc. rewrite bool_decide_eq_false_2 by (intros Hne; apply Hne; exact Hrc).
    unfold Py.bind at 1, try_except. unfold Py.bind at 1. rewrite call_run, Hopen, Hexc.
    unfold after_calls. simpl. rewrite <- app_assoc. reflexivity.
  - intros out Hrc Hopen.
    rewrite bool_decide_eq_false_2 by (intros Hne; apply Hne; exact Hrc).
    unfold Py.bind at 1, try_except. unfold Py.bind at 1. rewrite call_run, Hopen.
    unfold Py.ret at 1. cbv beta iota.
    unfold Py.bind at 1. rewrite call_run.
    destruct (spget_summary E (initial_structure out) (verbose o)) as [summary|exc].
    + unfold Py.bind at 1, print at 1. cbv beta iota.
      destruct (decide (verbose o = 0)) as [Hquiet|Hloud].
      * rewrite (bool_decide_eq_true_2 (verbose o = 0)) by exact Hquiet.
        rewrite bool_decide_eq_false_2 by (intros Hne; apply Hne; exact Hquiet).
        unfold Py.bind, Py.ret, after_calls, print_to. simpl.
        rewrite <- !app_assoc. reflexivity.
      * rewrite (bool_decide_eq_false_2 (verbose o = 0)) by exact Hloud.
        rewrite bool_decide_eq_true_2 by exact Hloud.
        unfold Py.bind at 1. unfold Py.bind at 1. rewrite call_run.
        destruct (abi_spacegroup_to_string E (initial_structure out) (verbose o)) as [text|exc];
          unfold Py.bind, Py.ret, print, after_calls, print_to; simpl;
          rewrite <- !app_assoc, ?append_assoc; reflexivity.
    + unfold after_calls. simpl. rewrite <- !app_assoc. reflexivity.
Qed.

(** The parser of the output file trips over a missing key: after the line
    that says which dataset was selected, the handler prints the path and the
    key between apostrophes, and returns 1. *)
Lemma abinp_abispg_return_codes_witness :
  abinp_abispg (demo_env missing_key_in_output) abispg_options world0 =
    (Ok 1,
     mkWorld (String.concat nl ["# Input file contains 2 datasets, will select jdtset index 1:";
                                "Error while trying to parse output file: run.abo";
                                "Exception:"; " 'natom'"; ""])
             ""
             [CallAbinitInputFile "run.abi"; CallAsTable ["Si.psp8"];
              CallAbinitInput (list_to_map [("chkprim", AInt 0); ("mem_test", AInt 0);
                                            ("jdtset", AInt 1); ("ecut", AInt 8)]);
              CallAbivalidate 0; CallAbiopen "run.abo"]
             [mkInput (StructureObj 1) (PseudoTableObj 1)
                (list_to_map [("chkprim", AInt 0); ("mem_test", AInt 0);
                              ("jdtset", AInt 1); ("ecut", AInt 8)]) false]).
Proof.
  set (E := demo_env missing_key_in_output).
  set (built := build_abinit_input_from_file E abispg_options abispg_vars world0).
  assert (Hbuilt : built = (Ok 0%nat, built.2)) by (vm_compute; reflexivity).
  assert (Hobj : is_Some (heap built.2 !! 0%nat)) by (vm_compute; eauto).
  destruct Hobj as [obj Hobj].
  destruct (abinp_abispg_return_codes E abispg_options world0 built.2 0%nat obj
              (mkValidate 0 "run.log" "run.err" "run.abo") Hbuilt Hobj eq_refl)
    as (_ & Hparse & _).
  rewrite (Hparse KeyError "natom" eq_refl eq_refl).
  vm_compute. reflexivity.
Defined.

(** C8 as stated fails.  Abinit returns 0 and the output file parses, but
    [structure.spget_summary] raises: the exception leaves [abinp_abispg],
    which returns neither 0 nor any other code. *)
Lemma abinp_abispg_parsed_output_not_always_zero :
  let E := with_spget_summary (demo_env installed)
             (Raise (Exc TypeError "'NoneType' object is not subscriptable")) in
  abivalidate E (demo_input (StructureObj 1) (PseudoTableObj 1) 8) =
    Ok (mkValidate 0 "run.log" "run.err" "run.abo")
  ∧ abiopen E "run.abo" = Ok (mkOutput (StructureObj 1))
  ∧ (abinp_abispg E abispg_options world0).1 =
      Raise (Exc TypeError "'NoneType' object is not subscriptable")
  ∧ (abinp_abispg E abispg_options world0).1 ≠ Ok 0
  ∧ trace (abinp_abispg E abispg_options world0).2 =
      [CallAbinitInputFile "run.abi"; CallAsTable ["Si.psp8"];
       CallAbinitInput (list_to_map [("chkprim", AInt 0); ("mem_test", AInt 0);
                                     ("jdtset", AInt 1); ("ecut", AInt 8)]);
       CallAbivalidate 0; CallAbiopen "run.abo"; CallSpgetSummary 0].
Proof.
  intros E. split; [reflexivity|]. split; [reflexivity|].
  assert (Hrun : (abinp_abispg E abispg_options world0).1 =
                 Raise (Exc TypeError "'NoneType' object is not subscriptable"))
    by (vm_compute; reflexivity).
  split; [exact Hrun|]. split; [rewrite Hrun; discriminate|].
  vm_compute. reflexivity.
Qed.

(** *** Back-references between datasets *)

(** [for inp in ls: inp[name] = v] on inputs that exist: each of them ends up
    holding [v], every other object is left alone. *)
Lemma for_each_set_var (name : string) (v : AbiVal) (ls : list loc) (w : World) :
  Forall (λ l, is_Some (heap w !! l)) ls →
  ∃ h',
    for_each ls (λ inp, set_var inp name v) w =
      (Ok tt, mkWorld (stdout w) (stderr w) (trace w) h')
    ∧ (∀ l, is_Some (heap w !! l) → is_Some (h' !! l))
    ∧ (∀ l, l ∈ ls → ∃ inp, h' !! l = Some inp ∧ inp_vars inp !! name = Some v)
    ∧ (∀ l, l ∉ ls → h' !! l = heap w !! l).
Proof.
  revert w. induction ls as [|l0 rest IH]; intros w Halive.
  - exists (heap w). destruct w; simpl. split; [reflexivity|]. split; [auto|].
    split; [|reflexivity]. intros l Hl. inversion Hl.
  - apply Forall_cons in Halive as [[inp0 Hinp0] Hrest].
    set (w1 := mkWorld (stdout w) (stderr w) (trace w) (<[l0 := with_var name v inp0]> (heap w))).
    assert (Hstep : set_var l0 name v w = (Ok tt, w1)).
    { unfold set_var. rewrite Hinp0. reflexivity. }
    assert (Hkeep : ∀ l, is_Some (heap w !! l) → is_Some (heap w1 !! l)).
    { intros l Hl. simpl. apply lookup_lt_is_Some. rewrite length_insert.
      apply lookup_lt_is_Some. exact Hl. }
    destruct (IH w1) as (h' & Hrun & Hstay & Hset & Hother).
    { eapply Forall_impl; [exact Hrest|]. intros l Hl. apply Hkeep. exact Hl. }
    exists h'. simpl. rewrite (bind_ok _ _ _ _ _ Hstep). split; [exact Hrun|].
    split; [intros l Hl; apply Hstay, Hkeep, Hl|].
    split.
    + intros l Hl. destruct (decide (l ∈ rest)) as [Hin|Hnot]; [apply Hset; exact Hin|].
      apply elem_of_cons in Hl as [->|Hin]; [|contradiction].
      rewrite (Hother l0 Hnot). simpl.
      exists (with_var name v inp0). split.
      * apply list_lookup_insert_eq. apply lookup_lt_is_Some. eauto.
      * simpl. apply lookup_insert_eq.
    + intros l Hl. apply not_elem_of_cons in Hl as [Hne Hnot].
      rewrite (Hother l Hnot). simpl. apply list_lookup_insert_ne. congruence.
Qed.

(** Switching the mnemonics on changes no variable. *)
Lemma getwfk_set_mnemonics (ls : list loc) (flag : bool) (h : list AbinitInput) (l : loc) :
  getwfk (foldr (λ l h, alter (with_mnemonics flag) l h) h ls) l = getwfk h l.
Proof.
  induction ls as [|l0 rest IH]; simpl; [reflexivity|].
  rewrite <- IH. unfold getwfk. rewrite list_lookup_alter.
  destruct (decide (l0 = l)) as [->|Hne]; [|reflexivity].
  destruct (foldr _ h rest !! l); reflexivity.
Qed.

(** The tail shared by [abinp_ebands] and [abinp_phonons]: the loop over
    [multi[1:]] followed by [finalize]. *)
Lemma getwfk_loop_then_finalize (E : Env) (o : Options) (multi : list loc) (w : World) :
  Forall (λ l, is_Some (heap w !! l)) multi →
  ∃ w',
    (do! for_each (drop 1 multi) (λ inp, set_var inp "getwfk" (AInt 1)) in
     finalize E (DeckMulti multi) o) w = (Ok 0, w')
    ∧ (∀ l, l ∈ drop 1 multi → getwfk (heap w') l = Some (AInt 1))
    ∧ (∀ l, l ∉ drop 1 multi → getwfk (heap w') l = getwfk (heap w) l).
Proof.
  intros Halive.
  destruct (for_each_set_var "getwfk" (AInt 1) (drop 1 multi) w) as (h1 & Hloop & _ & Hset & Hother).
  { apply Forall_drop. exact Halive. }
  rewrite (bind_ok _ _ _ _ _ Hloop).
  rewrite (finalize_run E (DeckMulti multi) o (mkWorld (stdout w) (stderr w) (trace w) h1) I
             (or_intror eq_refl)).
  eexists. split; [reflexivity|]. simpl.
  assert (Hsame : ∀ l, getwfk (annotated o (DeckMulti multi) h1) l = getwfk h1 l).
  { intros l. unfold annotated. destruct (mnemonics o); [|reflexivity].
    simpl. apply getwfk_set_mnemonics. }
  split.
  - intros l Hl. rewrite Hsame. unfold getwfk. destruct (Hset l Hl) as (inp & -> & Hv). exact Hv.
  - intros l Hl. rewrite Hsame. unfold getwfk. rewrite (Hother l Hl). reflexivity.
Qed.

Lemma back_referenced_intro (multi : list loc) (before after : list AbinitInput) :
  (∀ l, multi !! 0%nat = Some l → l ∉ drop 1 multi) →
  (∀ l, l ∈ drop 1 multi → getwfk after l = Some (AInt 1)) →
  (∀ l, l ∉ drop 1 multi → getwfk after l = getwfk before l) →
  back_referenced multi before after.
Proof.
  intros Hfirst Hset Hother. split.
  - intros i l Hi Hl. apply Hset. apply list_elem_of_lookup. exists (i - 1)%nat.
    rewrite lookup_drop. replace (1 + (i - 1))%nat with i by lia. exact Hl.
  - intros l Hl. apply Hother. apply Hfirst. exact Hl.
Qed.

(** C5.  For a result of [N] datasets whose first dataset is not also one of
    the later ones, [abinp_ebands] and [abinp_phonons] leave every dataset
    2..N with [getwfk = 1], and do not set [getwfk] on dataset 1.  This holds
    for every [N], so in particular for [N >= 2]. *)
Theorem getwfk_back_reference (E : Env) (o : Options) (multi : list loc) :
  (∀ l, multi !! 0%nat = Some l → l ∉ drop 1 multi) →
  (∀ w wa wb s p h1,
     get_structure E o w = (Ok s, wa) → get_pseudotable E o wa = (Ok p, wb) →
     ebands_input E s p ebands_input_kwargs (heap wb) = (Ok multi, h1) →
     Forall (λ l, is_Some (h1 !! l)) multi →
     ∃ w', abinp_ebands E o w = (Ok 0, w') ∧ back_referenced multi h1 (heap w'))
  ∧ (∀ w wa wb s p gsinp h0 h1,
     get_structure E o w = (Ok s, wa) → get_pseudotable E o wa = (Ok p, wb) →
     gs_input E s p gs_input_kwargs (heap wb) = (Ok gsinp, h0) →
     phonons_from_gsinput E gsinp phonons_kwargs h0 = (Ok multi, h1) →
     Forall (λ l, is_Some (h1 !! l)) multi →
     ∃ w', abinp_phonons E o w = (Ok 0, w') ∧ back_referenced multi h1 (heap w')).
Proof.
  intros Hfirst. split.
  - intros w wa wb s p h1 Hs Hp Hfactory Halive. unfold abinp_ebands.
    rewrite (bind_ok _ _ _ _ _ Hs), (bind_ok _ _ _ _ _ Hp).
    unfold Py.bind at 1, call_heap. unfold Py.bind at 1, log_call. simpl. rewrite Hfactory.
    match goal with |- context [Py.bind _ _ ?w1] =>
      destruct (getwfk_loop_then_finalize E o multi w1 Halive) as (w' & Hrun & Hset & Hother)
    end.
    exists w'. split; [exact Hrun|].
    apply back_referenced_intro; assumption.
  - intros w wa wb s p gsinp h0 h1 Hs Hp Hgs Hfactory Halive. unfold abinp_phonons.
    rewrite (bind_ok _ _ _ _ _ Hs), (bind_ok _ _ _ _ _ Hp).
    unfold Py.bind at 1, call_heap. unfold Py.bind at 1, log_call. simpl. rewrite Hgs.
    unfold Py.bind at 1. unfold Py.bind at 1. simpl. rewrite Hfactory.
    match goal with |- context [Py.bind _ _ ?w1] =>
      destruct (getwfk_loop_then_finalize E o multi w1 Halive) as (w' & Hrun & Hset & Hother)
    end.
    exists w'. split; [exact Hrun|].
    apply back_referenced_intro; assumption.
Qed.

Lemma getwfk_back_reference_witness :
  ∃ w', abinp_ebands (demo_env installed) ebands_options world0 = (Ok 0, w')
        ∧ getwfk (heap w') 1 = Some (AInt 1)
        ∧ getwfk (heap w') 0 = None.
Proof.
  assert (Hfirst : ∀ l : loc, [0; 1]%nat !! 0%nat = Some l → l ∉ drop 1 [0; 1]%nat).
  { intros l [= <-] Hin. apply list_elem_of_singleton in Hin. discriminate. }
  destruct (getwfk_back_reference (demo_env installed) ebands_options [0; 1]%nat Hfirst) as [Hebands _].
  destruct (Hebands world0
              (mkWorld "" "" [CallPathExists "si.cif"; CallStructureFromFile "si.cif"] [])
              (mkWorld "" "" [CallPathExists "si.cif"; CallStructureFromFile "si.cif";
                              CallAsTable ["Si.psp8"]] [])
              (StructureObj 1) (PseudoTableObj 1)
              [demo_input (StructureObj 1) (PseudoTableObj 1) 8;
               demo_input (StructureObj 1) (PseudoTableObj 1) 9]
              eq_refl eq_refl eq_refl)
    as (w' & Hrun & Hlater & Hhead).
  { repeat constructor; eexists; reflexivity. }
  exists w'. split; [exact Hrun|]. split.
  - apply (Hlater 1%nat 1%nat); [lia|reflexivity].
  - rewrite (Hhead 0%nat eq_refl). reflexivity.
Defined.

(** *** The four generators and the structure they start from *)

(** [abinp_gs] reads the path as a file, whatever the path looks like: when
    the file cannot be read the handler fails there, having neither asked
    whether the path exists nor looked anything up remotely. *)
Lemma abinp_gs_reads_the_path_as_a_file (E : Env) (o : Options) (w : World) (e : PyExc) :
  Structure_from_file E (filepath o) = Raise e →
  abinp_gs E o w = (Raise e, after_calls [CallStructureFromFile (filepath o)] w).
Proof.
  intros Hfile. unfold abinp_gs.
  apply bind_raise. rewrite call_run, Hfile. reflexivity.
Qed.

(** C4, where the code departs from it.  [abinp_ebands], [abinp_phonons] and
    [abinp_g0w0] call [get_structure]; [abinp_gs] calls [Structure.from_file]
    on the path directly.  For the path [mp-149], which does not exist on
    disk, the three fetch the structure remotely and return 0, while [gs]
    tries to read a file of that name, makes no remote lookup, and fails. *)
Theorem abinp_gs_bypasses_get_structure :
  let E := demo_env nothing_on_disk in
  os_path_exists E "mp-149" = false
  ∧ String.prefix "mp-" "mp-149" = true
  ∧ abinp_gs E (mp_options "gs") world0 =
      (Raise (Exc OtherError "No such file: mp-149"),
       mkWorld "" "" [CallStructureFromFile "mp-149"] [])
  ∧ (abinp_ebands E (mp_options "ebands") world0).1 = Ok 0
  ∧ (abinp_phonons E (mp_options "phonons") world0).1 = Ok 0
  ∧ (abinp_g0w0 E (mp_options "g0w0") world0).1 = Ok 0
  ∧ Forall (λ run : PyResult Z * World,
              remote_lookups run.2 =
                [CallStructureFromMpid "mp-149" true (Some "KEY")
                   "https://www.materialsproject.org/rest/v2"])
           [abinp_ebands E (mp_options "ebands") world0;
            abinp_phonons E (mp_options "phonons") world0;
            abinp_g0w0 E (mp_options "g0w0") world0].
Proof.
  intros E.
  split; [reflexivity|]. split; [reflexivity|].
  split; [apply (abinp_gs_reads_the_path_as_a_file E (mp_options "gs") world0); reflexivity|].
  split; [vm_compute; reflexivity|]. split; [vm_compute; reflexivity|].
  split; [vm_compute; reflexivity|].
  repeat constructor; vm_compute; reflexivity.
Qed.

(** *** The entry point *)

(** No verb: the epilog goes to standard error, the process exits with 1, and
    no handler runs. *)
Lemma main_without_verb (E : Env) (w : World) (o : Options) :
  argparse_outcome E = Ok o → no_command o = true →
  main E w = (Raise (SystemExit 1), after_usage E w).
Proof.
  intros Hparse Hnone. unfold main.
  assert (Hp : try_except (parse_args E) is_Exception (λ _, show_examples_and_exit None 1) w =
               (Ok o, after_parse E w)).
  { unfold try_except, parse_args, Py.bind, lift. simpl. rewrite Hparse. reflexivity. }
  rewrite (bind_ok _ _ _ _ _ Hp). rewrite Hnone. reflexivity.
Qed.

(** [parse_args] raising an exception that derives from [Exception]: the
    same. *)
Lemma main_parse_exception (E : Env) (w : World) (e : PyExc) :
  argparse_outcome E = Raise e → is_Exception e = true →
  main E w = (Raise (SystemExit 1), after_usage E w).
Proof.
  intros Hparse He. unfold main.
  apply bind_raise. unfold try_except, parse_args, Py.bind, lift. simpl.
  rewrite Hparse, He. reflexivity.
Qed.

(** [parse_args] leaving through [sys.exit], which is how argparse reports
    an error: [except Exception] does not catch it, so nothing of [main] runs
    after it and the status is the one argparse chose. *)
Lemma main_parse_exit (E : Env) (w : World) (code : Z) :
  argparse_outcome E = Raise (SystemExit code) →
  main E w = (Raise (SystemExit code), after_parse E w).
Proof.
  intros Hparse. unfold main.
  apply bind_raise. unfold try_except, parse_args, Py.bind, lift. simpl.
  rewrite Hparse. reflexivity.
Qed.

(** C6, where the code departs from it.  [main] wraps [parse_args] in
    [try ... except Exception] to print the epilog and exit with 1, but
    argparse reports an unrecognized verb by [sys.exit(2)], and [SystemExit]
    is not an [Exception]: the process ends with status 2, the epilog is not
    written, and no handler runs. *)
Theorem main_unrecognized_verb :
  let E := demo_env unrecognized_verb in
("bogus" ∉ subcommands)
  ∧ main E world0 = (Raise (SystemExit 2), mkWorld "" invalid_choice [CallParseArgs] [])
  ∧ exit_status (main E world0).1 = 2
  ∧ stderr (main E world0).2 ≠ stderr world0 +:+ argparse_stderr E +:+ get_epilog.
Proof.
  intros E.
  split; [apply (bool_decide_eq_false_1 ("bogus" ∈ subcommands)); reflexivity|].
  rewrite (main_parse_exit E world0 2 eq_refl).
  split; [reflexivity|]. split; [reflexivity|].
  vm_compute. discriminate.
Qed.

(** *** More on pseudopotential tables *)

(** [get_pseudotable] neither touches the inputs of the store nor writes to
    standard error. *)
Lemma get_pseudotable_frame (E : Env) (o : Options) (w : World) :
  heap (get_pseudotable E o w).2 = heap w ∧ stderr (get_pseudotable E o w).2 = stderr w.
Proof.
  unfold get_pseudotable. destruct (pseudos o) as [files|]; [split; reflexivity|].
  unfold Py.bind, try_except. rewrite call_run.
  destruct (import_pseudo_dojo E) as [exc|].
  - destruct (is_instance ImportError exc); split; reflexivity.
  - rewrite call_run. destruct (OfficialTables E) as [tables|e]; [|split; reflexivity].
    destruct (usepaw o); [split; reflexivity|].
    rewrite call_run. destruct (tables _); split; reflexivity.
Qed.

(** Without a list of files and without the PAW flag, with [pseudo_dojo]
    importable: the table looked up is [ONCVPSP-PBE-PDv0.2-accuracy]; when the
    lookup returns, one line naming the table is printed and the table is
    returned; when it raises, nothing is printed. *)
Lemma get_pseudotable_default_table (E : Env) (o : Options) (w : World)
    (tables : string → PyResult PseudoTable) :
  pseudos o = None → usepaw o = false →
  import_pseudo_dojo E = None → OfficialTables E = Ok tables →
  get_pseudotable E o w =
    match tables "ONCVPSP-PBE-PDv0.2-accuracy" with
    | Ok t =>
        (Ok t,
         mkWorld (print2_to (stdout w) "Using pseudos from PseudoDojo table" (PseudoTable_repr E t))
                 (stderr w)
                 (trace w ++ [CallImportPseudoDojo; CallOfficialTables;
                              CallDojoTable "ONCVPSP-PBE-PDv0.2-accuracy"])
                 (heap w))
    | Raise e =>
        (Raise e,
         after_calls [CallImportPseudoDojo; CallOfficialTables;
                      CallDojoTable "ONCVPSP-PBE-PDv0.2-accuracy"] w)
    end.
Proof.
  intros Hnone Hpaw Himport Htables. unfold get_pseudotable.
  rewrite Hnone, Himport, Htables, Hpaw.
  unfold Py.bind, try_except. rewrite !call_run. simpl.
  destruct (tables "ONCVPSP-PBE-PDv0.2-accuracy") as [t|e]; simpl;
    unfold after_calls; simpl; rewrite <- !app_assoc; reflexivity.
Qed.

Lemma get_pseudotable_default_table_witness :
  get_pseudotable (demo_env installed) (parser_defaults "gs" "si.cif") world0 =
    (Ok (PseudoTableObj 2),
     mkWorld ("Using pseudos from PseudoDojo table <PseudoTable>" +:+ nl) ""
             [CallImportPseudoDojo; CallOfficialTables; CallDojoTable "ONCVPSP-PBE-PDv0.2-accuracy"]
             []).
Proof.
  apply (get_pseudotable_default_table (demo_env installed) (parser_defaults "gs" "si.cif") world0
           (λ _, Ok (PseudoTableObj 2)) eq_refl eq_refl eq_refl eq_refl).
Defined.

(** Without a list of files, when importing [pseudo_dojo] raises: the
    exception is raised again, whatever the PAW flag says; the two lines of
    advice are printed for an [ImportError] and for nothing else. *)
Lemma get_pseudotable_import_failure (E : Env) (o : Options) (w : World) (exc : PyExc) :
  pseudos o = None → import_pseudo_dojo E = Some exc →
  get_pseudotable E o w =
    (Raise exc,
     mkWorld (if is_instance ImportError exc then with_install_advice (stdout w) else stdout w)
             (stderr w) (trace w ++ [CallImportPseudoDojo]) (heap w)).
Proof.
  intros Hnone Himport. unfold get_pseudotable. rewrite Hnone, Himport.
  unfold Py.bind, try_except. rewrite call_run.
  destruct (is_instance ImportError exc); reflexivity.
Qed.

Lemma get_pseudotable_import_failure_witness :
  (get_pseudotable (demo_env not_installed) (parser_defaults "gs" "si.cif") world0).1 =
    Raise (Exc ImportError "No module named pseudo_dojo")
  ∧ stdout (get_pseudotable (demo_env not_installed) (parser_defaults "gs" "si.cif") world0).2 =
      with_install_advice "".
Proof.
  rewrite (get_pseudotable_import_failure (demo_env not_installed) (parser_defaults "gs" "si.cif")
             world0 (Exc ImportError "No module named pseudo_dojo") eq_refl eq_refl).
  split; reflexivity.
Defined.

(** *** More on inputs built from a file *)

Lemma list_getitem_cases {S A} (xs : list A) (i : Z) (s : S) :
  (0 ≤ i < Z.of_nat (length xs) →
     ∃ x, xs !! Z.to_nat i = Some x ∧ list_getitem xs i s = (Ok x, s))
  ∧ (- Z.of_nat (length xs) ≤ i < 0 →
     ∃ x, xs !! Z.to_nat (Z.of_nat (length xs) + i) = Some x ∧ list_getitem xs i s = (Ok x, s))
  ∧ (i < - Z.of_nat (length xs) ∨ Z.of_nat (length xs) ≤ i →
     list_getitem xs i s = (Raise (list_index_error i), s)).
Proof.
  unfold list_getitem, norm_index. split; [|split].
  - intros Hi. destruct (decide (0 ≤ i < Z.of_nat (length xs))); [|lia].
    destruct (lookup_lt_is_Some_2 xs (Z.to_nat i)) as [x Hx]; [lia|].
    exists x. rewrite Hx. split; reflexivity.
  - intros Hi. destruct (decide (0 ≤ i < Z.of_nat (length xs))); [lia|].
    destruct (decide (- Z.of_nat (length xs) ≤ i < 0)); [|lia].
    destruct (lookup_lt_is_Some_2 xs (Z.to_nat (Z.of_nat (length xs) + i))) as [x Hx]; [lia|].
    exists x. rewrite Hx. split; reflexivity.
  - intros Hi. destruct (decide (0 ≤ i < Z.of_nat (length xs))); [lia|].
    destruct (decide (- Z.of_nat (length xs) ≤ i < 0)); [lia|]. reflexivity.
Qed.

(** [build_abinit_input_from_file] up to the choice of the dataset. *)
Lemma build_until_dataset (E : Env) (o : Options) (abivars : gmap string AbiVal)
    (w w1 : World) (abifile : AbinitInputFile) (p : PseudoTable) :
  AbinitInputFile_read E (filepath o) = Ok abifile →
  get_pseudotable E o (after_calls [CallAbinitInputFile (filepath o)] w) = (Ok p, w1) →
  build_abinit_input_from_file E o abivars w =
    match list_getitem (abifile_datasets abifile) (jdtset o - 1) w1 with
    | (Ok vars, w2) =>
        (Ok (length (heap w2)),
         mkWorld (if bool_decide (abifile_ndtset abifile ≠ 1) then
                    print_to (stdout w2)
                      (colored E ("# Input file contains " +:+ pretty (abifile_ndtset abifile) +:+
                                  " datasets, will select jdtset index " +:+ pretty (jdtset o) +:+ ":")
                                 "yellow")
                  else stdout w2)
                 (stderr w2)
                 (trace w2 ++ [CallAbinitInput (abivars ∪ selected_vars abifile (jdtset o) vars)])
                 (heap w2 ++ [mkInput (abifile_structure abifile) p
                                (abivars ∪ selected_vars abifile (jdtset o) vars) false]))
    | (Raise e, w2) => (Raise e, w2)
    end.
Proof.
  intros Hread Hpseudo. unfold build_abinit_input_from_file.
  rewrite (bind_ok _ _ _ _ _ (eq_trans (call_run _ _ w) (f_equal (λ r, (r, _)) Hread))).
  rewrite (bind_ok _ _ _ _ _ Hpseudo).
  unfold Py.bind at 1.
  destruct (list_getitem (abifile_datasets abifile) (jdtset o - 1) w1) as [[vars|e] w2];
    [|reflexivity].
  unfold selected_vars. destruct (bool_decide (abifile_ndtset abifile ≠ 1)); reflexivity.
Qed.

(** The dataset index follows Python's list indexing: [jdtset] from [1] to the
    number of datasets counts from the front; [jdtset] from [0] down counts
    from the back, so that [--jdtset 0] takes the last dataset; anything else
    is an [IndexError], raised once the file has been read and the
    pseudopotentials resolved, and no input is built.  The message of the
    [IndexError] is [list index out of range] as long as [jdtset - 1] fits a
    64-bit index, and [cannot fit 'int' into an index-sized integer] beyond. *)
Lemma build_abinit_input_from_file_jdtset_range (E : Env) (o : Options)
    (abivars : gmap string AbiVal) (w w1 : World) (abifile : AbinitInputFile) (p : PseudoTable) :
  AbinitInputFile_read E (filepath o) = Ok abifile →
  get_pseudotable E o (after_calls [CallAbinitInputFile (filepath o)] w) = (Ok p, w1) →
  let n := Z.of_nat (length (abifile_datasets abifile)) in
  (- n < jdtset o ≤ 0 →
     ∃ vars w2,
       abifile_datasets abifile !! Z.to_nat (n + jdtset o - 1) = Some vars
       ∧ build_abinit_input_from_file E o abivars w = (Ok (length (heap w1)), w2)
       ∧ heap w2 = heap w1 ++ [mkInput (abifile_structure abifile) p
                                 (abivars ∪ selected_vars abifile (jdtset o) vars) false])
  ∧ (jdtset o ≤ - n ∨ n < jdtset o →
     build_abinit_input_from_file E o abivars w =
       (Raise (Exc IndexError
                 (if bool_decide (- 2 ^ 63 ≤ jdtset o - 1 < 2 ^ 63)
                  then "list index out of range"
                  else "cannot fit 'int' into an index-sized integer")), w1)).
Proof.
  intros Hread Hpseudo n.
  rewrite (build_until_dataset E o abivars w w1 abifile p Hread Hpseudo).
  destruct (list_getitem_cases (abifile_datasets abifile) (jdtset o - 1) w1)
    as (_ & Hback & Hout).
  split.
  - intros Hj. destruct Hback as (vars & Hvars & ->); [subst n; lia|].
    exists vars. eexists. split; [|split; reflexivity].
    replace (n + jdtset o - 1) with (Z.of_nat (length (abifile_datasets abifile)) + (jdtset o - 1))
      by (subst n; lia).
    exact Hvars.
  - intros Hj. rewrite Hout by (subst n; lia).
    unfold list_index_error, fits_index, PY_SSIZE_T_MAX.
    rewrite (bool_decide_ext _ (- 2 ^ 63 ≤ jdtset o - 1 < 2 ^ 63)) by lia. reflexivity.
Qed.

Lemma build_abinit_input_from_file_jdtset_range_witness :
  (∃ w2, build_abinit_input_from_file (demo_env installed) (validate_dataset 0) ∅ world0 =
           (Ok 0%nat, w2)
         ∧ inp_vars <$> heap w2 = [ list_to_map [("ecut", AInt 12); ("jdtset", AInt 0)] ])
  ∧ (build_abinit_input_from_file (demo_env installed) (validate_dataset 3) ∅ world0).1 =
      Raise (Exc IndexError "list index out of range")
  ∧ (build_abinit_input_from_file (demo_env installed) (validate_dataset 9223372036854775809)
       ∅ world0).1 =
      Raise (Exc IndexError "cannot fit 'int' into an index-sized integer").
Proof.
  split; [|split].
  - destruct (build_abinit_input_from_file_jdtset_range (demo_env installed) (validate_dataset 0) ∅
                world0 (mkWorld "" "" [CallAbinitInputFile "run.abi"; CallAsTable ["Si.psp8"]] [])
                demo_abifile (PseudoTableObj 1) eq_refl eq_refl) as [Hback _].
    destruct Hback as (vars & w2 & Hvars & Hrun & Hheap); [simpl; lia|].
    exists w2. split; [exact Hrun|]. rewrite Hheap. simpl in Hvars. injection Hvars as <-.
    vm_compute. reflexivity.
  - destruct (build_abinit_input_from_file_jdtset_range (demo_env installed) (validate_dataset 3) ∅
                world0 (mkWorld "" "" [CallAbinitInputFile "run.abi"; CallAsTable ["Si.psp8"]] [])
                demo_abifile (PseudoTableObj 1) eq_refl eq_refl) as [_ Hout].
    rewrite Hout by (simpl; lia). reflexivity.
  - destruct (build_abinit_input_from_file_jdtset_range (demo_env installed)
                (validate_dataset 9223372036854775809) ∅
                world0 (mkWorld "" "" [CallAbinitInputFile "run.abi"; CallAsTable ["Si.psp8"]] [])
                demo_abifile (PseudoTableObj 1) eq_refl eq_refl) as [_ Hout].
    rewrite Hout by (simpl; lia). reflexivity.
Defined.

(** When the input file cannot be read, [build_abinit_input_from_file] raises
    what the reader raised, before anything else is looked at. *)
Lemma build_unreadable_file (E : Env) (o : Options) (abivars : gmap string AbiVal)
    (w : World) (e : PyExc) :
  AbinitInputFile_read E (filepath o) = Raise e →
  build_abinit_input_from_file E o abivars w =
    (Raise e, after_calls [CallAbinitInputFile (filepath o)] w).
Proof.
  intros Hread. unfold build_abinit_input_from_file.
  apply bind_raise. rewrite call_run, Hread. reflexivity.
Qed.

(** The five handlers that take an Abinit input file all fail in the same way
    when the file cannot be read: with the reader's exception, having made no
    other call (no pseudopotential lookup, no run of Abinit) and printed
    nothing. *)
Lemma input_file_handlers_unreadable_file (E : Env) (o : Options) (w : World) (e : PyExc) :
  AbinitInputFile_read E (filepath o) = Raise e →
  Forall (λ handler : Options → Py World Z,
            handler o w = (Raise e, after_calls [CallAbinitInputFile (filepath o)] w))
         (input_file_handlers E).
Proof.
  intros Hread. unfold input_file_handlers.
  repeat constructor;
    apply bind_raise; apply build_unreadable_file; exact Hread.
Qed.

Lemma input_file_handlers_unreadable_file_witness :
  Forall (λ handler : Options → Py World Z,
            handler (parser_defaults "ibz" "missing.abi") world0 =
              (Raise (Exc OtherError "No such file: missing.abi"),
               mkWorld "" "" [CallAbinitInputFile "missing.abi"] []))
         (input_file_handlers (demo_env installed)).
Proof.
  apply (input_file_handlers_unreadable_file (demo_env installed)
           (parser_defaults "ibz" "missing.abi") world0
           (Exc OtherError "No such file: missing.abi")).
  reflexivity.
Defined.

(** Whenever [build_abinit_input_from_file] returns, it has appended one input
    to the store, left every existing input as it was, and the new input
    holds each override with the value the handler gave. *)
Lemma build_abinit_input_from_file_returns (E : Env) (o : Options)
    (abivars : gmap string AbiVal) (w w1 : World) (inp : loc) :
  build_abinit_input_from_file E o abivars w = (Ok inp, w1) →
  inp = length (heap w)
  ∧ ∃ obj, heap w1 = heap w ++ [obj]
           ∧ inp_mnemonics obj = false
           ∧ ∀ k v, abivars !! k = Some v → inp_vars obj !! k = Some v.
Proof.
  intros Hrun.
  destruct (AbinitInputFile_read E (filepath o)) as [abifile|e] eqn:Hread;
    [|rewrite (build_unreadable_file E o abivars w e Hread) in Hrun; discriminate].
  destruct (get_pseudotable E o (after_calls [CallAbinitInputFile (filepath o)] w))
    as [[p|e] wp] eqn:Hpseudo.
  - rewrite (build_until_dataset E o abivars w wp abifile p Hread Hpseudo) in Hrun.
    assert (Hheap : heap wp = heap w).
    { pose proof (get_pseudotable_frame E o (after_calls [CallAbinitInputFile (filepath o)] w))
        as [Hh _]. rewrite Hpseudo in Hh. exact Hh. }
    unfold list_getitem in Hrun.
    destruct (norm_index (jdtset o - 1) (length (abifile_datasets abifile))) as [k|];
      [|discriminate].
    destruct (abifile_datasets abifile !! k) as [vars|]; [|discriminate].
    simpl in Hrun. injection Hrun as <- <-. simpl. rewrite Hheap.
    split; [reflexivity|]. eexists. split; [reflexivity|]. split; [reflexivity|].
    intros k' v Hk. simpl. apply lookup_union_Some_l. exact Hk.
  - unfold build_abinit_input_from_file in Hrun.
    rewrite (bind_ok _ _ _ _ _ (eq_trans (call_run _ _ w) (f_equal (λ r, (r, _)) Hread))) in Hrun.
    rewrite (bind_raise _ _ _ _ _ Hpseudo) in Hrun. discriminate.
Qed.

Lemma build_abinit_input_from_file_returns_witness :
  ∃ obj, heap (build_abinit_input_from_file (demo_env installed) abispg_options abispg_vars
                 world0).2 = [obj]
         ∧ inp_vars obj !! "chkprim" = Some (AInt 0).
Proof.
  set (run := build_abinit_input_from_file (demo_env installed) abispg_options abispg_vars world0).
  assert (Hrun : run = (Ok 0%nat, run.2)) by (vm_compute; reflexivity).
  destruct (build_abinit_input_from_file_returns (demo_env installed) abispg_options abispg_vars
              world0 run.2 0%nat Hrun) as (_ & obj & Hheap & _ & Hvars).
  exists obj. split; [exact Hheap|]. apply Hvars. reflexivity.
Defined.

(** *** More on the handlers *)

Lemma read_input_alive (l : loc) (obj : AbinitInput) (w : World) :
  heap w !! l = Some obj → read_input l w = (Ok obj, w).
Proof. intros H. unfold read_input. rewrite H. reflexivity. Qed.





(** [abinp_phperts] asks for the perturbations at the q-point of the input
    when the input defines [qpt], and at Gamma, [[0, 0, 0]], when it does
    not. *)
Lemma abinp_phperts_qpt (E : Env) (o : Options) (w w1 : World) (inp : loc) (obj : AbinitInput) :
  build_abinit_input_from_file E o ∅ w = (Ok inp, w1) →
  heap w1 !! inp = Some obj →
  let qpt := match inp_vars obj !! "qpt" with
             | Some _ => None
             | None => Some [0; 0; 0]
             end in
  trace (abinp_phperts E o w).2 = trace w1 ++ [CallIrredPhperts inp qpt]
  ∧ ∀ perts, abiget_irred_phperts E obj qpt = Ok perts →
      abinp_phperts E o w =
        (Ok 0, mkWorld (print_to (stdout w1) perts) (stderr w1)
                       (trace w1 ++ [CallIrredPhperts inp qpt]) (heap w1)).
Proof.
  intros Hbuild Hobj qpt. unfold abinp_phperts.
  rewrite (bind_ok _ _ _ _ _ Hbuild).
  rewrite (bind_ok _ _ _ _ _ (read_input_alive inp obj w1 Hobj)).
  assert (Hq : (if bool_decide (is_Some (inp_vars obj !! "qpt")) then None else Some [0; 0; 0]) = qpt).
  { subst qpt. destruct (inp_vars obj !! "qpt") as [v|].
    - rewrite bool_decide_eq_true_2 by eauto. reflexivity.
    - rewrite bool_decide_eq_false_2 by (intros [v Hv]; discriminate). reflexivity. }
  cbv zeta. rewrite Hq. unfold Py.bind at 1. unfold Py.bind at 1. rewrite call_run.
  destruct (abiget_irred_phperts E obj qpt) as [perts|e]; simpl.
  - split; [reflexivity|]. intros perts' [= <-]. reflexivity.
  - split; [reflexivity|]. intros perts' [=].
Qed.

Lemma abinp_phperts_qpt_witness :
  trace (abinp_phperts (demo_env installed) (validate_dataset 1) world0).2 =
    [CallAbinitInputFile "run.abi"; CallAsTable ["Si.psp8"];
     CallAbinitInput (list_to_map [("ecut", AInt 8); ("chkprim", AInt 1); ("jdtset", AInt 1)]);
     CallIrredPhperts 0 (Some [0; 0; 0])].
Proof.
  set (E := demo_env installed).
  set (built := build_abinit_input_from_file E (validate_dataset 1) ∅ world0).
  assert (Hbuilt : built = (Ok 0%nat, built.2)) by (vm_compute; reflexivity).
  assert (Hobj : heap built.2 !! 0%nat =
                 Some (mkInput (StructureObj 1) (PseudoTableObj 1)
                         (list_to_map [("ecut", AInt 8); ("chkprim", AInt 1); ("jdtset", AInt 1)])
                         false)) by (vm_compute; reflexivity).
  destruct (abinp_phperts_qpt E (validate_dataset 1) world0 built.2 0%nat _ Hbuilt Hobj)
    as [Htrace _].
  rewrite Htrace. vm_compute. reflexivity.
Defined.

(** [abinp_anaph] and [abinp_wannier90] resolve neither a structure through
    [get_structure] nor a pseudopotential table: their only calls are the
    reader of their file and, for [anaph], the factory, whatever [--usepaw]
    and [--pseudos] say, installed provider or not.  Without [--mnemonics]
    they print the deck and return 0; with [--mnemonics] they end in the
    [AttributeError] of [finalize], having made the same calls and printed
    nothing. *)
Lemma anaph_and_wannier90_need_no_pseudos (E : Env) (o : Options) (w : World) :
  (∀ ddb inp,
     DdbFile_open E (filepath o) = Ok ddb →
     phbands_and_dos E (ddb_structure ddb) (guessed_ngqpt ddb) 10 phbands_and_dos_kwargs = Ok inp →
     abinp_anaph E o w =
       (if mnemonics o
        then Raise (Exc AttributeError "'AnaddbInput' object has no attribute 'set_mnemonics'")
        else Ok 0,
        mkWorld (if mnemonics o then stdout w
                 else stdout w +:+ finalize_output (str_anaddb E inp))
                (stderr w)
                (trace w ++ [CallDdbFile (filepath o);
                             CallFactory "AnaddbInput.phbands_and_dos" phbands_and_dos_kwargs])
                (heap w)))
  ∧ (∀ inp,
     Wannier90Input_from_abinit_file E (filepath o) = Ok inp →
     abinp_wannier90 E o w =
       (if mnemonics o
        then Raise (Exc AttributeError "'Wannier90Input' object has no attribute 'set_mnemonics'")
        else Ok 0,
        mkWorld (if mnemonics o then stdout w
                 else stdout w +:+ finalize_output (str_wannier90 E inp))
                (stderr w) (trace w ++ [CallWannier90FromFile (filepath o)]) (heap w))).
Proof.
  split.
  - intros ddb inp Hddb Hfactory. unfold abinp_anaph.
    rewrite (bind_ok _ _ _ _ _ (eq_trans (call_run _ _ _) (f_equal (λ x, (x, _)) Hddb))).
    cbv zeta.
    rewrite (bind_ok _ _ _ _ _ (eq_trans (call_run _ _ _) (f_equal (λ x, (x, _)) Hfactory))).
    rewrite after_calls_app.
    destruct (mnemonics o) eqn:Hm.
    + match goal with |- context [finalize E (DeckAnaddb inp) o ?w1] =>
        destruct (finalize_without_the_method E o w1 Hm) as [Hraise _]
      end.
      rewrite Hraise. reflexivity.
    + match goal with |- context [finalize E (DeckAnaddb inp) o ?w1] =>
        rewrite (finalize_run E (DeckAnaddb inp) o w1 I (or_introl Hm))
      end.
      unfold annotated. rewrite Hm. reflexivity.
  - intros inp Hfile. unfold abinp_wannier90.
    rewrite (bind_ok _ _ _ _ _ (eq_trans (call_run _ _ _) (f_equal (λ x, (x, _)) Hfile))).
    destruct (mnemonics o) eqn:Hm.
    + match goal with |- context [finalize E (DeckWannier inp) o ?w1] =>
        destruct (finalize_without_the_method E o w1 Hm) as [_ Hraise]
      end.
      rewrite Hraise. reflexivity.
    + match goal with |- context [finalize E (DeckWannier inp) o ?w1] =>
        rewrite (finalize_run E (DeckWannier inp) o w1 I (or_introl Hm))
      end.
      unfold annotated. rewrite Hm. reflexivity.
Qed.

(** [abinp.py anaph out_DDB --usepaw], without [pseudo_dojo]. *)
Lemma anaph_and_wannier90_need_no_pseudos_witness :
  usepaw anaph_options = true ∧ pseudos anaph_options = None
  ∧ import_pseudo_dojo (demo_env not_installed) ≠ None
  ∧ (abinp_anaph (demo_env not_installed) anaph_options world0).1 = Ok 0
  ∧ trace (abinp_anaph (demo_env not_installed) anaph_options world0).2 =
      [CallDdbFile "out_DDB"; CallFactory "AnaddbInput.phbands_and_dos" phbands_and_dos_kwargs].
Proof.
  split; [reflexivity|]. split; [reflexivity|]. split; [discriminate|].
  destruct (anaph_and_wannier90_need_no_pseudos (demo_env not_installed) anaph_options world0)
    as [Hanaph _].
  rewrite (Hanaph (mkDdb (StructureObj 1) [4; 4; 4]) (mkAnaddb 1) eq_refl eq_refl).
  split; reflexivity.
Defined.

(** *** Cross-references of the G0W0 datasets *)

Lemma set_var_get_var (name : string) (v : AbiVal) (l0 : loc) (w : World) :
  is_Some (heap w !! l0) →
  ∃ h',
    set_var l0 name v w = (Ok tt, mkWorld (stdout w) (stderr w) (trace w) h')
    ∧ (∀ l, is_Some (heap w !! l) → is_Some (h' !! l))
    ∧ ∀ l k, get_var k h' l =
               if decide (k = name ∧ l = l0) then Some v else get_var k (heap w) l.
Proof.
  intros [inp0 Hinp0]. exists (<[l0 := with_var name v inp0]> (heap w)).
  split; [unfold set_var; rewrite Hinp0; reflexivity|].
  split.
  { intros l Hl. apply lookup_lt_is_Some. rewrite length_insert. apply lookup_lt_is_Some. exact Hl. }
  intros l k. unfold get_var.
  destruct (decide (l = l0)) as [->|Hl].
  - rewrite list_lookup_insert_eq by (apply lookup_lt_is_Some; eauto). rewrite Hinp0. simpl.
    destruct (decide (k = name)) as [->|Hk].
    + rewrite lookup_insert_eq. rewrite decide_True by (split; reflexivity). reflexivity.
    + rewrite lookup_insert_ne by congruence.
      rewrite decide_False by (intros [? _]; contradiction). reflexivity.
  - rewrite list_lookup_insert_ne by congruence.
    rewrite decide_False by (intros [_ ?]; contradiction). reflexivity.
Qed.

Lemma for_each_set_var_get_var (name : string) (v : AbiVal) (ls : list loc) (w : World) :
  Forall (λ l, is_Some (heap w !! l)) ls →
  ∃ h',
    for_each ls (λ inp, set_var inp name v) w =
      (Ok tt, mkWorld (stdout w) (stderr w) (trace w) h')
    ∧ (∀ l, is_Some (heap w !! l) → is_Some (h' !! l))
    ∧ ∀ l k, get_var k h' l =
               if decide (k = name ∧ l ∈ ls) then Some v else get_var k (heap w) l.
Proof.
  revert w. induction ls as [|l0 rest IH]; intros w Halive.
  - exists (heap w). destruct w; simpl. split; [reflexivity|]. split; [auto|].
    intros l k. rewrite decide_False; [reflexivity|]. intros [_ Hin]. inversion Hin.
  - apply Forall_cons in Halive as [Hl0 Hrest].
    destruct (set_var_get_var name v l0 w Hl0) as (h1 & Hstep & Hkeep & Hvars1).
    destruct (IH (mkWorld (stdout w) (stderr w) (trace w) h1)) as (h' & Hrun & Hstay & Hvars).
    { eapply Forall_impl; [exact Hrest|]. intros l Hl. apply Hkeep. exact Hl. }
    exists h'. simpl. rewrite (bind_ok _ _ _ _ _ Hstep). split; [exact Hrun|].
    split; [intros l Hl; apply Hstay, Hkeep, Hl|].
    intros l k. rewrite Hvars. simpl. rewrite Hvars1.
    destruct (decide (k = name ∧ l ∈ rest)) as [[-> Hin]|Hno].
    + rewrite decide_True; [reflexivity|]. split; [reflexivity|]. apply elem_of_cons. auto.
    + destruct (decide (k = name ∧ l = l0)) as [[-> ->]|Hno0].
      * rewrite decide_True; [reflexivity|]. split; [reflexivity|]. apply elem_of_cons. auto.
      * rewrite decide_False; [reflexivity|].
        intros [-> Hin]. apply elem_of_cons in Hin as [->|Hin]; [apply Hno0|apply Hno]; auto.
Qed.

Lemma get_var_set_mnemonics (ls : list loc) (flag : bool) (h : list AbinitInput)
    (k : string) (l : loc) :
  get_var k (foldr (λ l h, alter (with_mnemonics flag) l h) h ls) l = get_var k h l.
Proof.
  induction ls as [|l0 rest IH]; simpl; [reflexivity|].
  rewrite <- IH. unfold get_var. rewrite list_lookup_alter.
  destruct (decide (l0 = l)) as [->|Hne]; [|reflexivity].
  destruct (foldr _ h rest !! l); reflexivity.
Qed.

Lemma list_getitem_last {S A} (xs : list A) (x : A) (s : S) :
  last xs = Some x → list_getitem xs (-1) s = (Ok x, s).
Proof.
  intros Hlast. rewrite last_lookup in Hlast.
  assert (Hlen : (0 < length xs)%nat).
  { destruct xs; [discriminate|simpl; lia]. }
  destruct (list_getitem_cases xs (-1) s) as (_ & Hback & _).
  destruct Hback as (y & Hy & Hrun); [lia|].
  replace (Z.to_nat (Z.of_nat (length xs) + -1)) with (pred (length xs)) in Hy by lia.
  rewrite Hy in Hlast. injection Hlast as ->. exact Hrun.
Qed.

(** [abinp_g0w0] on a result whose datasets exist and whose last dataset is
    [final]: it returns 0, and afterwards the variables of every input are
    those the factory left, except that [getscr] is [-1] in the last dataset
    and [getwfk] is [-1] in every dataset but the first.  With one dataset
    only, that dataset gets [getscr = -1] and no [getwfk]. *)
Lemma abinp_g0w0_cross_references (E : Env) (o : Options) (w wa wb : World)
    (s : Structure) (p : PseudoTable) (multi : list loc) (h1 : list AbinitInput) (final : loc) :
  get_structure E o w = (Ok s, wa) → get_pseudotable E o wa = (Ok p, wb) →
  g0w0_with_ppmodel_inputs E s p 1000 100 4 12 g0w0_kwargs (heap wb) = (Ok multi, h1) →
  Forall (λ l, is_Some (h1 !! l)) multi →
  last multi = Some final →
  ∃ w',
    abinp_g0w0 E o w = (Ok 0, w')
    ∧ ∀ l k, get_var k (heap w') l =
               if decide (k = "getscr" ∧ l = final) then Some (AInt (-1))
               else if decide (k = "getwfk" ∧ l ∈ drop 1 multi) then Some (AInt (-1))
               else get_var k h1 l.
Proof.
  intros Hs Hp Hfactory Halive Hlast. unfold abinp_g0w0.
  rewrite (bind_ok _ _ _ _ _ Hs), (bind_ok _ _ _ _ _ Hp).
  cbv beta iota zeta.
  unfold Py.bind at 1, call_heap. unfold Py.bind at 1, log_call. simpl. rewrite Hfactory.
  match goal with |- context [Py.bind (for_each _ _) _ ?w1] => set (wf := w1) end.
  assert (Hwf : heap wf = h1) by reflexivity.
  assert (Halive' : Forall (λ l, is_Some (heap wf !! l)) multi) by (rewrite Hwf; exact Halive).
  clearbody wf.
  destruct (for_each_set_var_get_var "getwfk" (AInt (-1)) (drop 1 multi) wf)
    as (h2 & Hloop & Hkeep2 & Hvars2).
  { apply Forall_drop. exact Halive'. }
  rewrite (bind_ok _ _ _ _ _ Hloop).
  rewrite (bind_ok _ _ _ _ _ (list_getitem_last multi final _ Hlast)).
  assert (Hfinal : is_Some (h2 !! final)).
  { apply Hkeep2. rewrite Forall_forall in Halive'. apply Halive'.
    rewrite last_lookup in Hlast. apply list_elem_of_lookup. eauto. }
  destruct (set_var_get_var "getscr" (AInt (-1)) final
              (mkWorld (stdout wf) (stderr wf) (trace wf) h2) Hfinal)
    as (h3 & Hset & _ & Hvars3).
  simpl in Hset, Hvars3.
  rewrite (bind_ok _ _ _ _ _ Hset).
  match goal with |- context [finalize E (DeckMulti multi) o ?w3] =>
    rewrite (finalize_run E (DeckMulti multi) o w3 I (or_intror eq_refl))
  end.
  eexists. split; [reflexivity|].
  intros l k. simpl.
  assert (Hsame : get_var k (annotated o (DeckMulti multi) h3) l = get_var k h3 l).
  { unfold annotated. destruct (mnemonics o); [|reflexivity].
    simpl. apply get_var_set_mnemonics. }
  rewrite Hsame, Hvars3. simpl. rewrite Hvars2, Hwf. reflexivity.
Qed.

Lemma abinp_g0w0_cross_references_witness :
  ∃ w', abinp_g0w0 (demo_env installed) g0w0_options world0 = (Ok 0, w')
        ∧ (get_var "getwfk" (heap w') <$> [0; 1; 2; 3]%nat) =
            [None; Some (AInt (-1)); Some (AInt (-1)); Some (AInt (-1))]
        ∧ (get_var "getscr" (heap w') <$> [0; 1; 2; 3]%nat) =
            [None; None; None; Some (AInt (-1))].
Proof.
  destruct (abinp_g0w0_cross_references (demo_env installed) g0w0_options world0
              (mkWorld "" "" [CallPathExists "si.cif"; CallStructureFromFile "si.cif"] [])
              (mkWorld "" "" [CallPathExists "si.cif"; CallStructureFromFile "si.cif";
                              CallAsTable ["Si.psp8"]] [])
              (StructureObj 1) (PseudoTableObj 1) [0; 1; 2; 3]%nat
              [demo_input (StructureObj 1) (PseudoTableObj 1) 8;
               demo_input (StructureObj 1) (PseudoTableObj 1) 9;
               demo_input (StructureObj 1) (PseudoTableObj 1) 10;
               demo_input (StructureObj 1) (PseudoTableObj 1) 11] 3%nat
              eq_refl eq_refl eq_refl)
    as (w' & Hrun & Hvars).
  { repeat constructor; eexists; reflexivity. }
  { reflexivity. }
  exists w'. split; [exact Hrun|].
  simpl. rewrite !Hvars. split; vm_compute; reflexivity.
Defined.

(** [abinp_g0w0] on an empty result: [multi[-1]] raises [IndexError], nothing
    is printed and [finalize] is not reached. *)
Lemma abinp_g0w0_empty_result (E : Env) (o : Options) (w wa wb : World)
    (s : Structure) (p : PseudoTable) (h1 : list AbinitInput) :
  get_structure E o w = (Ok s, wa) → get_pseudotable E o wa = (Ok p, wb) →
  g0w0_with_ppmodel_inputs E s p 1000 100 4 12 g0w0_kwargs (heap wb) = (Ok [], h1) →
  abinp_g0w0 E o w =
    (Raise (Exc IndexError "list index out of range"),
     mkWorld (stdout wb) (stderr wb)
             (trace wb ++ [CallFactory "g0w0_with_ppmodel_inputs" g0w0_kwargs]) h1).
Proof.
  intros Hs Hp Hfactory. unfold abinp_g0w0.
  rewrite (bind_ok _ _ _ _ _ Hs), (bind_ok _ _ _ _ _ Hp).
  cbv beta iota zeta.
  unfold Py.bind at 1, call_heap. unfold Py.bind at 1, log_call. simpl. rewrite Hfactory.
  reflexivity.
Qed.

Lemma abinp_g0w0_empty_result_witness :
  abinp_g0w0 (with_empty_g0w0 (demo_env installed)) g0w0_options world0 =
    (Raise (Exc IndexError "list index out of range"),
     mkWorld "" "" [CallPathExists "si.cif"; CallStructureFromFile "si.cif"; CallAsTable ["Si.psp8"];
                    CallFactory "g0w0_with_ppmodel_inputs" g0w0_kwargs] []).
Proof.
  apply (abinp_g0w0_empty_result (with_empty_g0w0 (demo_env installed)) g0w0_options world0
           (mkWorld "" "" [CallPathExists "si.cif"; CallStructureFromFile "si.cif"] [])
           (mkWorld "" "" [CallPathExists "si.cif"; CallStructureFromFile "si.cif";
                           CallAsTable ["Si.psp8"]] [])
           (StructureObj 1) (PseudoTableObj 1) [] eq_refl eq_refl eq_refl).
Defined.

(** [abinp_ebands], [abinp_phonons] and [abinp_g0w0] on a path that does not
    exist and does not start with [mp-]: each raises the [TypeError] of
    [get_structure], having only asked whether the path exists; no
    pseudopotential table is resolved and nothing is printed. *)
Lemma structure_handlers_unsupported_path (E : Env) (o : Options) (w : World) :
  os_path_exists E (filepath o) = false → String.prefix "mp-" (filepath o) = false →
  Forall (λ handler : Options → Py World Z,
            handler o w =
              (Raise (Exc TypeError ("Don't know how to extract structure object from "
                                     +:+ filepath o)),
               after_calls [CallPathExists (filepath o)] w))
         (structure_handlers E).
Proof.
  intros Hexists Hprefix.
  assert (Hs : get_structure E o w =
               (Raise (Exc TypeError ("Don't know how to extract structure object from "
                                      +:+ filepath o)),
                after_calls [CallPathExists (filepath o)] w)).
  { unfold get_structure.
    rewrite (bind_ok _ _ _ _ _ (call_run (CallPathExists (filepath o)) _ w)).
    rewrite Hexists, Hprefix. reflexivity. }
  unfold structure_handlers. repeat constructor; apply bind_raise; exact Hs.
Qed.

Lemma structure_handlers_unsupported_path_witness :
  Forall (λ handler : Options → Py World Z,
            handler (parser_defaults "phonons" "POSCAR") world0 =
              (Raise (Exc TypeError "Don't know how to extract structure object from POSCAR"),
               mkWorld "" "" [CallPathExists "POSCAR"] []))
         (structure_handlers (demo_env installed)).
Proof.
  apply (structure_handlers_unsupported_path (demo_env installed)
           (parser_defaults "phonons" "POSCAR") world0); reflexivity.
Defined.

(** *** More on finalize *)

(** [finalize] writes to standard output only: standard error and the calls
    made are as before, no input is added or removed, and no variable of any
    input changes.  Without [--mnemonics] the store is left exactly as it was;
    with it, every input of the deck has its mnemonics switched on. *)
Lemma finalize_frame (E : Env) (obj : Deck) (o : Options) (w : World) :
  deck_alive obj (heap w) →
  let w' := (finalize E obj o w).2 in
  stderr w' = stderr w
  ∧ trace w' = trace w
  ∧ length (heap w') = length (heap w)
  ∧ (∀ l k, get_var k (heap w') l = get_var k (heap w) l)
  ∧ (mnemonics o = false → heap w' = heap w)
  ∧ (mnemonics o = true →
       ∀ l inp, l ∈ deck_inputs obj → heap w' !! l = Some inp → inp_mnemonics inp = true).
Proof.
  intros Halive w'. subst w'.
  assert (Hfold : ∀ ls, (∀ l k, get_var k (foldr (λ l h, alter (with_mnemonics true) l h)
                                               (heap w) ls) l = get_var k (heap w) l)
                        ∧ length (foldr (λ l h, alter (with_mnemonics true) l h) (heap w) ls)
                          = length (heap w)
                        ∧ ∀ l inp, l ∈ ls →
                            foldr (λ l h, alter (with_mnemonics true) l h) (heap w) ls !! l
                              = Some inp → inp_mnemonics inp = true).
  { intros ls. split; [intros l k; apply get_var_set_mnemonics|].
    induction ls as [|l0 rest [IHlen IHflag]]; simpl.
    - split; [reflexivity|]. intros l inp Hin. inversion Hin.
    - split; [rewrite length_alter; exact IHlen|].
      intros l inp Hin. rewrite list_lookup_alter.
      destruct (decide (l0 = l)) as [->|Hne].
      + destruct (foldr _ (heap w) rest !! l); simpl; [|discriminate].
        intros [= <-]. reflexivity.
      + apply elem_of_cons in Hin as [->|Hin]; [contradiction|]. apply IHflag. exact Hin. }
  destruct (mnemonics o) eqn:Hm.
  - destruct (has_set_mnemonics obj) eqn:Hcan.
    + rewrite (finalize_run E obj o w Halive (or_intror Hcan)). simpl.
      unfold annotated. rewrite Hm.
      destruct (Hfold (deck_inputs obj)) as (Hvars & Hlen & Hflag).
      split; [reflexivity|]. split; [reflexivity|].
      split; [exact Hlen|]. split; [exact Hvars|]. split; [discriminate|].
      intros _. exact Hflag.
    + destruct (finalize_without_the_method E o w Hm) as [Hanaddb Hwannier].
      destruct obj as [l0|ls|a|x]; try discriminate Hcan.
      * rewrite Hanaddb. simpl.
        split; [reflexivity|]. split; [reflexivity|]. split; [reflexivity|].
        split; [reflexivity|]. split; [discriminate|].
        intros _ l inp Hin. inversion Hin.
      * rewrite Hwannier. simpl.
        split; [reflexivity|]. split; [reflexivity|]. split; [reflexivity|].
        split; [reflexivity|]. split; [discriminate|].
        intros _ l inp Hin. inversion Hin.
  - rewrite (finalize_run E obj o w Halive (or_introl Hm)). simpl.
    unfold annotated. rewrite Hm.
    split; [reflexivity|]. split; [reflexivity|]. split; [reflexivity|].
    split; [reflexivity|]. split; [reflexivity|]. discriminate.
Qed.

Lemma finalize_frame_witness :
  let w' := (abinp_ebands (demo_env installed) ebands_mnemonics_options world0).2 in
  (inp_mnemonics <$> heap w') = [true; true]
  ∧ get_var "ecut" (heap w') 1 = Some (AInt 9).
Proof.
  set (before := mkWorld "" "" [CallPathExists "si.cif"; CallStructureFromFile "si.cif";
                                CallAsTable ["Si.psp8"];
                                CallFactory "ebands_input" ebands_input_kwargs]
                   [demo_input (StructureObj 1) (PseudoTableObj 1) 8;
                    with_var "getwfk" (AInt 1) (demo_input (StructureObj 1) (PseudoTableObj 1) 9)]).
  assert (Hrun : abinp_ebands (demo_env installed) ebands_mnemonics_options world0 =
                 finalize (demo_env installed) (DeckMulti [0; 1]%nat) ebands_mnemonics_options before)
    by reflexivity.
  rewrite Hrun.
  destruct (finalize_frame (demo_env installed) (DeckMulti [0; 1]%nat) ebands_mnemonics_options
              before I) as (_ & _ & Hlen & Hvars & _ & Hflags).
  intros w'. subst w'. split.
  - specialize (Hflags eq_refl).
    destruct (heap (finalize (demo_env installed) (DeckMulti [0; 1]%nat)
                      ebands_mnemonics_options before).2) as [|a [|b [|c rest]]];
      try discriminate Hlen.
    simpl. rewrite (Hflags 0%nat a), (Hflags 1%nat b); try reflexivity.
    + apply elem_of_cons. right. apply elem_of_cons. left. reflexivity.
    + apply elem_of_cons. left. reflexivity.
  - rewrite Hvars. reflexivity.
Defined.

(** *** More on the entry point *)

(** A log level whose upper-case form, as [str.upper()] gives it (through the
    Unicode case mapping for characters outside ASCII), names no [int]
    attribute of module [logging]: [main] raises [ValueError] naming the level
    as it was typed, after the command line is parsed and before any handler
    is looked up, so that nothing has run and the epilog is not written. *)
Lemma main_invalid_log_level (E : Env) (w : World) (o : Options) :
  argparse_outcome E = Ok o → no_command o = false →
  logging_int_attr E (upper E (loglevel o)) = None →
  main E w = (Raise (Exc ValueError ("Invalid log level: " +:+ loglevel o)), after_parse E w)
  ∧ exit_status (main E w).1 = 1.
Proof.
  intros Hparse Hcmd Hlevel.
  assert (Hmain : main E w =
            (Raise (Exc ValueError ("Invalid log level: " +:+ loglevel o)), after_parse E w)).
  { unfold main.
    assert (Hp : try_except (parse_args E) is_Exception (λ _, show_examples_and_exit None 1) w =
                 (Ok o, after_parse E w)).
    { unfold try_except, parse_args, Py.bind, lift. simpl. rewrite Hparse. reflexivity. }
    rewrite (bind_ok _ _ _ _ _ Hp). rewrite Hcmd, bind_ret, Hlevel. reflexivity. }
  rewrite Hmain. split; reflexivity.
Qed.

Lemma main_invalid_log_level_witness :
  main (demo_env (run_of (validate_options "chatty") 0)) world0 =
    (Raise (Exc ValueError "Invalid log level: chatty"), mkWorld "" "" [CallParseArgs] []).
Proof.
  destruct (main_invalid_log_level (demo_env (run_of (validate_options "chatty") 0)) world0
              (validate_options "chatty") eq_refl eq_refl eq_refl) as [Hmain _].
  exact Hmain.
Defined.

Lemma main_without_verb_witness :
  main (demo_env (run_of no_verb_options 0)) world0 =
    (Raise (SystemExit 1), mkWorld "" get_epilog [CallParseArgs] []).
Proof.
  apply (main_without_verb (demo_env (run_of no_verb_options 0)) world0 no_verb_options);
    reflexivity.
Defined.

Lemma main_parse_exception_witness :
  main (demo_env parser_crash) world0 =
    (Raise (SystemExit 1), mkWorld "" get_epilog [CallParseArgs] []).
Proof.
  apply (main_parse_exception (demo_env parser_crash) world0 (Exc TypeError "unhashable type"));
    reflexivity.
Defined.

(** The table of handlers and the parser agree: [globals()["abinp_" + verb]]
    finds a handler exactly for the sub-commands that [get_parser]
    registers; for any other verb it raises [KeyError]. *)
Lemma every_subcommand_has_a_handler (E : Env) (w : World) (verb : string) :
  (verb ∈ subcommands ↔ ∃ handler, globals_getitem E ("abinp_" +:+ verb) w = (Ok handler, w))
  ∧ (verb ∉ subcommands →
       globals_getitem E ("abinp_" +:+ verb) w = (Raise (Exc KeyError ("abinp_" +:+ verb)), w)).
Proof.
  assert (Hfound : ∀ i kv, list_find (λ kv, kv.1 = "abinp_" +:+ verb) (globals E) = Some (i, kv) →
                     verb ∈ subcommands).
  { intros i kv Hfind. apply list_find_Some in Hfind as (Hlookup & Hname & _).
    unfold globals in Hlookup.
    repeat (destruct i as [|i];
            [simpl in Hlookup; injection Hlookup as <-;
             cbv in Hname; injection Hname as <-;
             match goal with |- ?P => apply (bool_decide_eq_true_1 P); reflexivity end|]).
    simpl in Hlookup. discriminate. }
  assert (Hmissing : verb ∉ subcommands →
            globals_getitem E ("abinp_" +:+ verb) w = (Raise (Exc KeyError ("abinp_" +:+ verb)), w)).
  { intros Hno. unfold globals_getitem.
    destruct (list_find _ (globals E)) as [[i kv]|] eqn:Hfind; [|reflexivity].
    exfalso. apply Hno. exact (Hfound i kv eq_refl). }
  split; [|exact Hmissing]. split.
  - intros Hin. unfold subcommands in Hin.
    repeat (apply elem_of_cons in Hin as [->|Hin]; [eexists; reflexivity|]).
    inversion Hin.
  - intros [handler Hrun].
    destruct (decide (verb ∈ subcommands)) as [Hin|Hno]; [exact Hin|].
    rewrite (Hmissing Hno) in Hrun. discriminate.
Qed.

End AbinpSpec.
